(** * BuzzUploader: selection model and upload pipeline

    A shallow embedding of [buzz_uploader/app.py]: the [FileItem] model,
    the settings screen's [action_save], the selection toggle of the
    application shell, and the upload progress screen ([__init__],
    [upload_file] with its inner [do_upload], [start_uploads]).

    Conventions.
    - A Python [str] is a [string] of ASCII characters; [bytes] read from a
      file are a [string] too.
    - A [pathlib.Path] is carried by its normalised text [str(path)]
      (absolute, no trailing slash); pathlib compares POSIX paths by that
      text, so [str(a) == str(b)] is equality of the carriers.
    - A call that may raise returns a [result]; [try]/[except] is a [match].
    - Logging, notifications and widget updates have no effect on the
      modelled state and are left out, except the results table rows.
    - The file system and the HTTP endpoint are read through a [World]
      snapshot; the pipeline takes one snapshot per queue position, since
      files may disappear while earlier uploads run. *)

From stdpp Require Import base option gmap strings list.
From Stdlib Require Import ZArith Ascii String DecimalString Lia Bool.
From Stdlib Require Import Sorting.Sorted Sorting.Permutation.

Open Scope string_scope.
Open Scope Z_scope.

(** ** Python values and exceptions *)

Module Py.

Inductive exn_class :=
| OSError | PermissionError | JSONDecodeError | TypeError | KeyError
| RequestException | RuntimeError | ValueError | MemoryError.

(** An exception: its class and [str(e)]. *)
Record exn := Exn { exn_cls : exn_class; exn_str : string }.

Inductive result (A : Type) :=
| Ret (a : A)
| Raise (e : exn).
Arguments Ret {A} a.
Arguments Raise {A} e.

#[global] Instance result_ret : MRet result := @Ret.

#[global] Instance result_bind : MBind result :=
  fun A B (k : A -> result B) (r : result A) =>
    match r with
    | Ret a => k a
    | Raise e => Raise e
    end.

(** [except (IOError, PermissionError)]: [IOError] is [OSError]. *)
Definition is_os_error (c : exn_class) : bool :=
  match c with
  | OSError | PermissionError => true
  | _ => false
  end.

Definition is_json_decode_error (c : exn_class) : bool :=
  match c with
  | JSONDecodeError => true
  | _ => false
  end.

(** Truth value of a [str] and of an [Optional[str]]. *)
Definition truthy (s : string) : bool := negb (String.eqb s "").

Definition opt_truthy (o : option string) : bool :=
  match o with
  | Some s => truthy s
  | None => false
  end.

(** [a or b] on strings. *)
Definition str_or (a b : string) : string := if truthy a then a else b.

(** [str(n)] for an [int]. *)
Definition str_of_int (z : Z) : string := NilZero.string_of_int (Z.to_int z).

(** ASCII characters for which [str.isspace] holds: TAB, LF, VT, FF, CR,
    FS, GS, RS, US and SPACE. *)
Definition is_space (c : ascii) : bool :=
  let n := nat_of_ascii c in
  (Nat.leb 9 n && Nat.leb n 13) || (Nat.leb 28 n && Nat.leb n 32).

Fixpoint lstrip (s : string) : string :=
  match s with
  | String c r => if is_space c then lstrip r else s
  | EmptyString => EmptyString
  end.

Definition str_rev (s : string) : string :=
  string_of_list_ascii (List.rev (list_ascii_of_string s)).

Definition rstrip (s : string) : string := str_rev (lstrip (str_rev s)).

(** [s.strip()] *)
Definition strip (s : string) : string := rstrip (lstrip s).

(** [needle in s] for two strings. *)
Fixpoint str_contains (needle s : string) : bool :=
  String.prefix needle s ||
  match s with
  | String _ r => str_contains needle r
  | EmptyString => false
  end.

(** [base64.b64encode(data).decode()] *)
Definition b64_alphabet : string :=
  "ABCDEFGHIJKLMNOPQRSTUVWXYZabcdefghijklmnopqrstuvwxyz0123456789+/".

Definition b64_char (n : N) : ascii :=
  match String.get (N.to_nat n) b64_alphabet with
  | Some c => c
  | None => "="%char
  end.

Fixpoint b64_groups (l : list ascii) : list ascii :=
  match l with
  | [] => []
  | [a] =>
      let x := N_of_ascii a in
      [b64_char (x / 4); b64_char ((x mod 4) * 16); "="%char; "="%char]
  | [a; b] =>
      let x := N_of_ascii a in
      let y := N_of_ascii b in
      [b64_char (x / 4); b64_char ((x mod 4) * 16 + y / 16);
       b64_char ((y mod 16) * 4); "="%char]
  | a :: b :: c :: rest =>
      let x := N_of_ascii a in
      let y := N_of_ascii b in
      let z := N_of_ascii c in
      b64_char (x / 4) :: b64_char ((x mod 4) * 16 + y / 16)
      :: b64_char ((y mod 16) * 4 + z / 64) :: b64_char (z mod 64)
      :: b64_groups rest
  end%N.

Definition b64encode (data : string) : string :=
  string_of_list_ascii (b64_groups (list_ascii_of_string data)).

End Py.

Import Py.

(** ** JSON values as [json.loads] returns them *)

Module Json.

(** A decoded document. [JObj] is a Python [dict]: an association list
    with distinct keys in insertion order. [JFloat] names a float by its
    [repr]. *)
#[warnings="-register-all"]
Inductive value :=
| JNull
| JBool (b : bool)
| JInt (z : Z)
| JFloat (repr : string)
| JStr (s : string)
| JArr (items : list value)
| JObj (members : list (string * value)).

Fixpoint dict_get (k : string) (m : list (string * value)) : option value :=
  match m with
  | [] => None
  | (k', v) :: rest => if String.eqb k k' then Some v else dict_get k rest
  end.

(** [d[k] = v]: an existing key keeps its position. *)
Fixpoint dict_set (k : string) (v : value) (m : list (string * value))
  : list (string * value) :=
  match m with
  | [] => [(k, v)]
  | (k', v') :: rest =>
      if String.eqb k k' then (k, v) :: rest else (k', v') :: dict_set k v rest
  end.

(** [type(v).__name__] *)
Definition type_name (v : value) : string :=
  match v with
  | JNull => "NoneType"
  | JBool _ => "bool"
  | JInt _ => "int"
  | JFloat _ => "float"
  | JStr _ => "str"
  | JArr _ => "list"
  | JObj _ => "dict"
  end.

(** [k == x] for a string [k] and a decoded value [x]. *)
Definition str_eq_value (k : string) (x : value) : bool :=
  match x with
  | JStr s => String.eqb k s
  | _ => false
  end.

(** [k in v] for a string [k]: key test on a dict, element test on a list,
    substring test on a string, [TypeError] on anything else. *)
Definition contains (k : string) (v : value) : result bool :=
  match v with
  | JObj m => Ret (bool_decide (is_Some (dict_get k m)))
  | JArr l => Ret (existsb (str_eq_value k) l)
  | JStr s => Ret (str_contains k s)
  | _ => Raise (Exn TypeError
                  ("argument of type '" ++ type_name v ++ "' is not iterable"))
  end.

(** [v[k]] for a string [k]. *)
Definition getitem (v : value) (k : string) : result value :=
  match v with
  | JObj m =>
      match dict_get k m with
      | Some x => Ret x
      | None => Raise (Exn KeyError ("'" ++ k ++ "'"))
      end
  | JArr _ =>
      Raise (Exn TypeError "list indices must be integers or slices, not str")
  | JStr _ => Raise (Exn TypeError "string indices must be integers, not 'str'")
  | _ => Raise (Exn TypeError
                  ("'" ++ type_name v ++ "' object is not subscriptable"))
  end.

(** [repr(s)] for a string: single quotes unless the text holds a single
    quote and no double quote; backslash, the chosen quote, TAB, LF and CR
    are escaped, other control characters are written in hexadecimal. *)
Definition dquote : ascii := "034"%char.

Definition hex_digit (n : N) : ascii :=
  match String.get (N.to_nat n) "0123456789abcdef" with
  | Some c => c
  | None => "0"%char
  end.

Definition has_char (c : ascii) (s : string) : bool :=
  existsb (Ascii.eqb c) (list_ascii_of_string s).

Definition repr_char (quote c : ascii) : string :=
  let n := N_of_ascii c in
  if Ascii.eqb c "\"%char then "\\"
  else if Ascii.eqb c quote then String "\"%char (String c "")
  else if Ascii.eqb c "009"%char then "\t"
  else if Ascii.eqb c "010"%char then "\n"
  else if Ascii.eqb c "013"%char then "\r"
  else if (n <? 32)%N || (n =? 127)%N
       then String "\"%char (String "x"%char
              (String (hex_digit (n / 16)) (String (hex_digit (n mod 16)) "")))
  else String c "".

Definition repr_str (s : string) : string :=
  let quote :=
    if has_char "'"%char s && negb (has_char dquote s) then dquote else "'"%char in
  String quote
    (String.concat "" (List.map (repr_char quote) (list_ascii_of_string s))
     ++ String quote "").

(** [repr(v)] *)
Fixpoint repr (v : value) : string :=
  match v with
  | JNull => "None"
  | JBool true => "True"
  | JBool false => "False"
  | JInt z => str_of_int z
  | JFloat r => r
  | JStr s => repr_str s
  | JArr l => "[" ++ String.concat ", " (List.map repr l) ++ "]"
  | JObj m =>
      "{" ++ String.concat ", "
               (List.map (fun kv => let '(k, x) := kv in
                                    repr_str k ++ ": " ++ repr x) m)
          ++ "}"
  end.

(** [str(v)], which is what an f-string field prints. *)
Definition str (v : value) : string :=
  match v with
  | JStr s => s
  | _ => repr v
  end.

(** *** A reference decoder

    [json.loads] itself is library code; the upload client below takes the
    decoder as a parameter. For running the client on concrete response
    bodies this section gives a decoder of the float-free ASCII fragment of
    JSON, following [json.decoder] and [json.scanner]: whitespace is SPACE,
    TAB, LF, CR; literals [null], [true], [false]; integers
    (an optional minus, then 0 or a digit string without leading zero);
    strings with the two-character escapes, control
    characters refused; arrays; objects, a repeated key keeping its last
    value. Anything after the document is "Extra data". A float, [NaN],
    [Infinity], a [\u] escape or a non-ASCII character is outside the
    fragment and reported as [Outside].

    An integer of more than 4300 digits makes the scanner raise
    [ValueError], the default limit of the interpreter on converting text
    to [int]; that is [Refused]. The recursion limit of the interpreter,
    which makes [json.loads] raise [RecursionError] on deeply nested
    documents, depends on the call stack and is not modelled: the decoder
    below decodes such documents. *)

Inductive parsed (A : Type) :=
| Parsed (a : A) (rest : list ascii)
| Malformed
| Outside
| Refused (e : exn).
Arguments Parsed {A} a rest.
Arguments Malformed {A}.
Arguments Refused {A} e.
Arguments Outside {A}.

Definition is_ws (c : ascii) : bool :=
  Ascii.eqb c " "%char || Ascii.eqb c "009"%char
  || Ascii.eqb c "010"%char || Ascii.eqb c "013"%char.

Fixpoint skip_ws (l : list ascii) : list ascii :=
  match l with
  | c :: r => if is_ws c then skip_ws r else l
  | [] => []
  end.

Definition is_digit (c : ascii) : bool :=
  let n := N_of_ascii c in (48 <=? n)%N && (n <=? 57)%N.

Definition digit_val (c : ascii) : Z := Z.of_N (N_of_ascii c) - 48.

(** Reads the digits that follow those already folded into [acc]. *)
Fixpoint scan_digits (acc : Z) (l : list ascii) : Z * list ascii :=
  match l with
  | c :: r => if is_digit c then scan_digits (10 * acc + digit_val c) r
              else (acc, l)
  | [] => (acc, [])
  end.

Definition starts_with (p : string) (l : list ascii) : bool :=
  String.prefix p (string_of_list_ascii l).

(** Does a fraction (a dot and a digit) or an exponent (e or E, an
    optional sign, a digit) follow? *)
Definition float_follows (l : list ascii) : bool :=
  match l with
  | c :: d :: r =>
      if Ascii.eqb c "."%char then is_digit d
      else if Ascii.eqb c "e"%char || Ascii.eqb c "E"%char then
        is_digit d ||
        ((Ascii.eqb d "+"%char || Ascii.eqb d "-"%char) &&
         match r with
         | x :: _ => is_digit x
         | [] => false
         end)
      else false
  | _ => false
  end.

Definition int_max_str_digits : nat := 4300.

(** The [ValueError] of converting [digits] digits to [int]. *)
Definition too_many_digits (digits : nat) : exn :=
  Exn ValueError
    ("Exceeds the limit (4300 digits) for integer string conversion: "
     ++ "value has " ++ str_of_int (Z.of_nat digits)
     ++ " digits; use sys.set_int_max_str_digits() to increase the limit").

Definition scan_number (l : list ascii) : parsed value :=
  let '(neg, l1) :=
    match l with
    | c :: r => if Ascii.eqb c "-"%char then (true, r) else (false, l)
    | [] => (false, l)
    end in
  match l1 with
  | c :: r =>
      if is_digit c then
        let '(n, rest) :=
          if Ascii.eqb c "0"%char then (0, r) else scan_digits (digit_val c) r in
        let digits := (List.length l1 - List.length rest)%nat in
        if float_follows rest then Outside
        else if Nat.ltb int_max_str_digits digits
             then Refused (too_many_digits digits)
        else Parsed (JInt (if neg then - n else n)) rest
      else if starts_with "NaN" l || starts_with "Infinity" l
              || starts_with "-Infinity" l then Outside
      else Malformed
  | [] => Malformed
  end.

Definition unescape (c : ascii) : option ascii :=
  if Ascii.eqb c dquote then Some dquote
  else if Ascii.eqb c "\"%char then Some "\"%char
  else if Ascii.eqb c "/"%char then Some "/"%char
  else if Ascii.eqb c "b"%char then Some "008"%char
  else if Ascii.eqb c "f"%char then Some "012"%char
  else if Ascii.eqb c "n"%char then Some "010"%char
  else if Ascii.eqb c "r"%char then Some "013"%char
  else if Ascii.eqb c "t"%char then Some "009"%char
  else None.

(** The text of a string after its opening quote; [acc] is reversed. *)
Fixpoint scan_string (acc l : list ascii) : parsed string :=
  match l with
  | [] => Malformed
  | c :: r =>
      if Ascii.eqb c dquote then Parsed (string_of_list_ascii (List.rev acc)) r
      else if Ascii.eqb c "\"%char then
        match r with
        | e :: r' =>
            match unescape e with
            | Some x => scan_string (x :: acc) r'
            | None => if Ascii.eqb e "u"%char then Outside else Malformed
            end
        | [] => Malformed
        end
      else if (N_of_ascii c <? 32)%N then Malformed
      else if (128 <=? N_of_ascii c)%N then Outside
      else scan_string (c :: acc) r
  end.

(** [scan_once], [JSONObject] and [JSONArray]; [fuel] bounds the number
    of nested calls, each of which consumes a character. *)
Fixpoint scan_once (fuel : nat) (l : list ascii) : parsed value :=
  match fuel with
  | O => Outside
  | S fuel' =>
      match l with
      | [] => Malformed
      | c :: r =>
          if Ascii.eqb c dquote then
            match scan_string [] r with
            | Parsed s rest => Parsed (JStr s) rest
            | Malformed => Malformed
            | Outside => Outside
            | Refused e => Refused e
            end
          else if Ascii.eqb c "{"%char then
            match skip_ws r with
            | c' :: r' =>
                if Ascii.eqb c' "}"%char then Parsed (JObj []) r'
                else scan_members fuel' [] (c' :: r')
            | [] => Malformed
            end
          else if Ascii.eqb c "["%char then
            match skip_ws r with
            | c' :: r' =>
                if Ascii.eqb c' "]"%char then Parsed (JArr []) r'
                else scan_items fuel' [] (c' :: r')
            | [] => Malformed
            end
          else if starts_with "null" l then Parsed JNull (List.skipn 4 l)
          else if starts_with "true" l then Parsed (JBool true) (List.skipn 4 l)
          else if starts_with "false" l then Parsed (JBool false) (List.skipn 5 l)
          else scan_number l
      end
  end

with scan_members (fuel : nat) (acc : list (string * value)) (l : list ascii)
  : parsed value :=
  match fuel with
  | O => Outside
  | S fuel' =>
      match l with
      | c :: r =>
          if Ascii.eqb c dquote then
            match scan_string [] r with
            | Parsed k r1 =>
                match skip_ws r1 with
                | c1 :: r2 =>
                    if Ascii.eqb c1 ":"%char then
                      match scan_once fuel' (skip_ws r2) with
                      | Parsed x r3 =>
                          let acc' := dict_set k x acc in
                          match skip_ws r3 with
                          | c3 :: r4 =>
                              if Ascii.eqb c3 "}"%char then Parsed (JObj acc') r4
                              else if Ascii.eqb c3 ","%char
                                   then scan_members fuel' acc' (skip_ws r4)
                              else Malformed
                          | [] => Malformed
                          end
                      | Malformed => Malformed
                      | Outside => Outside
                      | Refused e => Refused e
                      end
                    else Malformed
                | [] => Malformed
                end
            | Malformed => Malformed
            | Outside => Outside
            | Refused e => Refused e
            end
          else Malformed
      | [] => Malformed
      end
  end

with scan_items (fuel : nat) (acc : list value) (l : list ascii)
  : parsed value :=
  match fuel with
  | O => Outside
  | S fuel' =>
      match scan_once fuel' l with
      | Parsed x r1 =>
          match skip_ws r1 with
          | c :: r2 =>
              if Ascii.eqb c "]"%char then Parsed (JArr (acc ++ [x])) r2
              else if Ascii.eqb c ","%char
                   then scan_items fuel' (acc ++ [x]) (skip_ws r2)
              else Malformed
          | [] => Malformed
          end
      | Malformed => Malformed
      | Outside => Outside
      | Refused e => Refused e
      end
  end.

(** [json.loads(s)] on the fragment: [None] outside it. *)
Definition decode (s : string) : option (result value) :=
  let l := list_ascii_of_string s in
  match scan_once (2 * List.length l + 2) (skip_ws l) with
  | Parsed v rest =>
      match skip_ws rest with
      | [] => Some (Ret v)
      | _ :: _ => Some (Raise (Exn JSONDecodeError "Extra data"))
      end
  | Malformed => Some (Raise (Exn JSONDecodeError "Expecting value"))
  | Outside => None
  | Refused e => Some (Raise e)
  end.

(** A total decoder for running examples. *)
Definition loads (s : string) : result value :=
  match decode s with
  | Some r => r
  | None => Raise (Exn RuntimeError "document outside the modelled fragment")
  end.

End Json.

Import Json.

(** ** The file system as the program observes it *)

Definition Path : Type := string.

(** What [os.stat] finds at a path. [StatFails] is an error other than
    "no such entry" (permission denied on a parent directory, say), which
    [Path.exists], [is_dir] and [is_file] let through. A regular file has
    its [st_size] and what [open(path, "rb").read()] gives. *)
Inductive fs_node :=
| NoEntry
| StatFails (e : exn)
| Directory
| RegularFile (st_size : Z) (content : result string)
| OtherNode.

Definition node_exists (n : fs_node) : result bool :=
  match n with
  | NoEntry => Ret false
  | StatFails e => Raise e
  | _ => Ret true
  end.

Definition node_is_dir (n : fs_node) : result bool :=
  match n with
  | Directory => Ret true
  | StatFails e => Raise e
  | _ => Ret false
  end.

Definition node_is_file (n : fs_node) : result bool :=
  match n with
  | RegularFile _ _ => Ret true
  | StatFails e => Raise e
  | _ => Ret false
  end.

(** [path.stat().st_size]; only regular files are ever asked. *)
Definition node_size (n : fs_node) : result Z :=
  match n with
  | RegularFile sz _ => Ret sz
  | StatFails e => Raise e
  | NoEntry => Raise (Exn OSError "No such file or directory")
  | _ => Ret 0
  end.

(** [open(path, "rb")] followed by [read()], the whole file. *)
Definition node_read (n : fs_node) : result string :=
  match n with
  | RegularFile _ content => content
  | StatFails e => Raise e
  | NoEntry => Raise (Exn OSError "No such file or directory")
  | Directory => Raise (Exn OSError "Is a directory")
  | OtherNode => Ret ""
  end.

(** [open(path, "rb")] followed by [read(1024)], the probe of lines
    482-485. A node records one outcome for reading the file; the probe
    and the full read of line 533 are told apart by the class of the
    error. An error of the operating system (and any other error but the
    next) strikes when the file is opened or its first block read, so the
    probe meets it first. A [MemoryError] comes from holding the whole
    file in memory: the probe of such a file goes through and the full
    read raises. *)
Definition node_probe (n : fs_node) : result string :=
  match node_read n with
  | Ret data => Ret (String.substring 0 1024 data)
  | Raise e =>
      match exn_cls e with
      | MemoryError => Ret ""
      | _ => Raise e
      end
  end.

(** [path.name]: the text after the last separator. *)
Fixpoint last_component (acc s : string) : string :=
  match s with
  | EmptyString => acc
  | String c r =>
      if Ascii.eqb c "/"%char then last_component "" r
      else last_component (acc ++ String c "") r
  end.

Definition path_name (p : Path) : string := last_component "" p.

(** ** FileItem *)

Record FileItem := mkFileItem {
  path : Path;
  is_selected : bool;          (* the private [_is_selected] *)
  is_dir : bool;
  size : Z;
  name : string;
  upload_url : option string
}.

(** [FileItem.__init__(path, is_selected)] *)
Definition FileItem_init (fs : Path -> fs_node) (p : Path) (selected : bool)
  : result FileItem :=
  ex ← node_exists (fs p);
  '(dir, sz) ←
    (if ex : bool then
       d ← node_is_dir (fs p);
       f ← node_is_file (fs p);
       s ← (if f : bool then node_size (fs p) else Ret 0);
       Ret (d, s)
     else Ret (false, 0));
  Ret {| path := p;
         is_selected := if dir : bool then false else selected;
         is_dir := dir;
         size := sz;
         name := path_name p;
         upload_url := None |}.

(** The [is_selected] setter. *)
Definition set_is_selected (f : FileItem) (value : bool) : FileItem :=
  if is_dir f && value then f
  else {| path := path f; is_selected := value; is_dir := is_dir f;
          size := size f; name := name f; upload_url := upload_url f |}.

(** [file_item.upload_url = url] *)
Definition set_upload_url (f : FileItem) (url : string) : FileItem :=
  {| path := path f; is_selected := is_selected f; is_dir := is_dir f;
     size := size f; name := name f; upload_url := Some url |}.

(** ** UploadConfig and the settings screen *)

Record UploadConfig := mkUploadConfig {
  api_key : option string;
  parent_id : option string;
  location_id : option string;
  note : option string;
  base_url : string;
  api_url : string
}.

Definition ENV_API_KEY : string := "BUZZHEAVIER_API_KEY".

(** [UploadConfig.__init__], reading [os.environ]. *)
Definition UploadConfig_init (environ : gmap string string) : UploadConfig :=
  {| api_key := environ !! ENV_API_KEY;
     parent_id := None;
     location_id := None;
     note := None;
     base_url := "https://w.buzzheavier.com";
     api_url := "https://buzzheavier.com/api" |}.

(** [bool(self.api_key and self.api_key.strip())] *)
Definition is_authenticated (c : UploadConfig) : bool :=
  match api_key c with
  | Some k => truthy k && truthy (strip k)
  | None => false
  end.

(** The four [Input] values of the settings form. *)
Record SettingsInputs := mkSettingsInputs {
  api_key_input : string;
  parent_id_input : string;
  location_id_input : string;
  note_input : string
}.

(** [SettingsScreen.action_save]: the new config and the new process
    environment. *)
Definition action_save (i : SettingsInputs) (c : UploadConfig)
    (environ : gmap string string) : UploadConfig * gmap string string :=
  let c' := {| api_key := Some (api_key_input i);
               parent_id := Some (parent_id_input i);
               location_id := Some (location_id_input i);
               note := Some (note_input i);
               base_url := base_url c;
               api_url := api_url c |} in
  (c', if opt_truthy (api_key c')
       then <[ENV_API_KEY := api_key_input i]> environ
       else environ).

(** ** The upload client *)

Record Request := mkRequest {
  req_url : string;
  req_data : string;
  req_headers : gmap string string;
  req_params : gmap string string
}.

Record Response := mkResponse {
  status_code : Z;
  text : string
}.

(** One observation of the outside: the file system, and what
    [requests.put] answers (or raises) for a request. *)
Record World := mkWorld {
  fs : Path -> fs_node;
  put : Request -> result Response
}.

(** [FileItem] objects live in a store; lists hold references to them. *)
Definition ref : Type := nat.
Definition Heap : Type := ref -> FileItem.

Definition heap_set (h : Heap) (r : ref) (f : FileItem) : Heap :=
  fun r' => if Nat.eqb r' r then f else h r'.

(** The request target (lines 495-503). *)
Definition upload_target (c : UploadConfig) (file_name : string) : string :=
  match parent_id c with
  | Some pid =>
      if truthy pid then base_url c ++ "/" ++ pid ++ "/" ++ file_name
      else base_url c ++ "/" ++ file_name
  | None => base_url c ++ "/" ++ file_name
  end.

(** The [params] dict (lines 498-513). *)
Definition upload_params (c : UploadConfig) : gmap string string :=
  let params : gmap string string := ∅ in
  let params :=
    if opt_truthy (parent_id c) then params
    else match location_id c with
         | Some lid => if truthy lid then <["locationId" := lid]> params
                       else params
         | None => params
         end in
  match note c with
  | Some n => if truthy n then <["note" := b64encode n]> params else params
  | None => params
  end.

(** The [headers] dict (lines 516-521). *)
Definition upload_headers (c : UploadConfig) : gmap string string :=
  match api_key c with
  | Some k => if truthy k then {["Authorization" := "Bearer " ++ k]} else ∅
  | None => ∅
  end.

(** What [requests.put(url, data=..., headers=..., params=...)] is given. *)
Definition upload_request (c : UploadConfig) (file_name content : string)
  : Request :=
  {| req_url := upload_target c file_name;
     req_data := content;
     req_headers := upload_headers c;
     req_params := upload_params c |}.

(** [response.text.strip() or f"File {name} uploaded successfully"] *)
Definition raw_message (file_name body : string) : string :=
  str_or (strip body) ("File " ++ file_name ++ " uploaded successfully").

Definition download_url (file_id : value) : string :=
  "https://buzzheavier.com/" ++ Json.str file_id.

Section Client.

(** [json.loads] *)
Variable json_loads : string -> result value.

(** The [try] block of line 552: [Some] is its [return], [None] falls
    through to line 564. *)
Definition extract_link (h : Heap) (r : ref) (resp : Response)
  : result (option (Heap * (bool * string))) :=
  response_data ← json_loads (text resp);
  if negb (status_code resp =? 201) then Ret None else
  has_data ← Json.contains "data" response_data;
  if negb has_data then Ret None else
  data ← Json.getitem response_data "data";
  has_id ← Json.contains "id" data;
  if negb has_id then Ret None else
  data ← Json.getitem response_data "data";
  file_id ← Json.getitem data "id";
  let full_url := download_url file_id in
  Ret (Some (heap_set h r (set_upload_url (h r) full_url),
             (true, name (h r) ++ ": " ++ full_url))).

(** The inner [do_upload] of [upload_file]. *)
Definition do_upload (w : World) (req : Request) (h : Heap) (r : ref)
  : Heap * (bool * string) :=
  let attempt : result (Heap * (bool * string)) :=
    response ← put w req;
    if (status_code response =? 200) || (status_code response =? 201) then
      let fallback := (h, (true, raw_message (name (h r)) (text response))) in
      match extract_link h r response with
      | Ret (Some out) => Ret out
      | Ret None => Ret fallback
      | Raise e =>
          if is_json_decode_error (exn_cls e) then Ret fallback else Raise e
      end
    else
      Ret (h, (false, "Error: HTTP " ++ str_of_int (status_code response)
                        ++ " - " ++ text response)) in
  match attempt with
  | Ret out => out
  | Raise e => (h, (false, "Upload request failed: " ++ exn_str e))
  end.

(** [UploadProgressScreen.upload_file]. The probe of line 482 catches
    [IOError] and [PermissionError] only, the full read of line 531 every
    exception. The executor call of line 573 only runs [do_upload], which
    lets no exception out. *)
Definition upload_file (w : World) (c : UploadConfig) (h : Heap) (r : ref)
  : Heap * (bool * string) :=
  let file_item := h r in
  let p := path file_item in
  let body : result (Heap * (bool * string)) :=
    ex ← node_exists (fs w p);
    if negb ex then Ret (h, (false, "File does not exist: " ++ p)) else
    is_f ← node_is_file (fs w p);
    is_d ← (if is_f : bool then node_is_dir (fs w p) else Ret false);
    if negb is_f || is_d then Ret (h, (false, "Not a valid file: " ++ p)) else
    match node_probe (fs w p) with
    | Raise e =>
        if is_os_error (exn_cls e)
        then Ret (h, (false, "Cannot read file: " ++ exn_str e))
        else Raise e
    | Ret _ =>
        _ ← node_size (fs w p);
        match node_read (fs w p) with
        | Raise e => Ret (h, (false, "Failed to read file: " ++ exn_str e))
        | Ret file_content =>
            Ret (do_upload w (upload_request c (name file_item) file_content)
                           h r)
        end
    end in
  match body with
  | Ret out => out
  | Raise e => (h, (false, "Error: " ++ exn_str e))
  end.

End Client.

(** ** The upload progress screen *)

(** [UploadProgressScreen.UploadComplete] *)
Record UploadComplete := mkUploadComplete {
  complete_success : bool;
  complete_message : string
}.

(** The screen: its attributes, and the widgets it writes to (status and
    progress lines, results table rows as file name, success, message,
    the two buttons, the messages posted to the application). *)
Record Screen := mkScreen {
  upload_files : list ref;
  config : UploadConfig;
  current_index : nat;
  results : list (ref * bool * string);
  status_line : string;
  progress_line : string;
  table_rows : list (string * bool * string);
  close_disabled : bool;
  copy_disabled : bool;
  posted : list UploadComplete
}.

(** The checks of lines 247-265 on one received file: [true] queues it. *)
Definition valid_for_upload (fs : Path -> fs_node) (f : FileItem) : result bool :=
  if negb (is_selected f) then Ret false else
  if is_dir f then Ret false else
  ex ← node_exists (fs (path f));
  if negb ex then Ret false else
  is_f ← node_is_file (fs (path f));
  Ret is_f.

(** The loop of lines 247-269. *)
Fixpoint queue_files (fs : Path -> fs_node) (h : Heap) (files : list ref)
  : result (list ref) :=
  match files with
  | [] => Ret []
  | r :: rest =>
      keep ← valid_for_upload fs (h r);
      queued ← queue_files fs h rest;
      Ret (if keep : bool then r :: queued else queued)
  end.

(** [UploadProgressScreen.__init__(files, config)], with the widget texts
    that [compose] and [on_mount] give. *)
Definition Screen_init (fs : Path -> fs_node) (h : Heap) (files : list ref)
    (c : UploadConfig) : result Screen :=
  queued ← queue_files fs h files;
  Ret {| upload_files := queued;
         config := c;
         current_index := 0;
         results := [];
         status_line := "Preparing to upload...";
         progress_line := "0 / " ++ str_of_int (Z.of_nat (List.length queued));
         table_rows := [];
         close_disabled := false;
         copy_disabled := true;
         posted := [] |}.

Definition progress_text (i total : nat) : string :=
  str_of_int (Z.of_nat i) ++ " / " ++ str_of_int (Z.of_nat total).

Section Pipeline.

(** The upload of the file at queue position [i]: the store after it and
    what the call returns or raises. *)
Variable upload : nat -> Heap -> ref -> Heap * result (bool * string).

(** One turn of the loop of line 408. *)
Definition upload_step (total i : nat) (r : ref) (st : Heap * Screen)
  : Heap * Screen :=
  let '(h, s) := st in
  let '(h', outcome) := upload i h r in
  let '(success, message) :=
    match outcome with
    | Ret (success, message) => (success, message)
    | Raise e => (false, "Error: " ++ exn_str e)
    end in
  (h', {| upload_files := upload_files s;
          config := config s;
          current_index := i + 1;
          results := results s ++ [(r, success, message)];
          status_line := "Uploading: " ++ name (h r);
          progress_line := progress_text (i + 1) total;
          table_rows := table_rows s ++ [(name (h' r), success, message)];
          close_disabled := close_disabled s;
          copy_disabled := copy_disabled s;
          posted := posted s |}).

Fixpoint upload_loop (total i : nat) (queue : list ref) (st : Heap * Screen)
  : Heap * Screen :=
  match queue with
  | [] => st
  | r :: rest => upload_loop total (S i) rest (upload_step total i r st)
  end.

Definition success_count (rs : list (ref * bool * string)) : nat :=
  List.length (List.filter (fun x => snd (fst x)) rs).

(** [start_uploads], for any upload routine. *)
Definition start_uploads_with (st : Heap * Screen) : Heap * Screen :=
  let '(h, s) := st in
  let total_files := List.length (upload_files s) in
  if Nat.eqb total_files 0 then
    (h, {| upload_files := upload_files s; config := config s;
           current_index := current_index s; results := results s;
           status_line := "No files selected for upload";
           progress_line := "0 / 0";
           table_rows := table_rows s;
           close_disabled := false;
           copy_disabled := copy_disabled s;
           posted := posted s |})
  else
    let s0 := {| upload_files := upload_files s; config := config s;
                 current_index := current_index s; results := results s;
                 status_line := "Starting uploads...";
                 progress_line := progress_text 0 total_files;
                 table_rows := table_rows s;
                 close_disabled := true;
                 copy_disabled := copy_disabled s;
                 posted := posted s |} in
    let '(h1, s1) := upload_loop total_files 0 (upload_files s) (h, s0) in
    let n_ok := success_count (results s1) in
    (h1, {| upload_files := upload_files s1; config := config s1;
            current_index := current_index s1; results := results s1;
            status_line := "Upload process complete";
            progress_line := progress_line s1;
            table_rows := table_rows s1;
            close_disabled := false;
            copy_disabled := Nat.eqb n_ok 0;
            posted := posted s1 ++
              [{| complete_success := Nat.eqb n_ok total_files;
                  complete_message :=
                    "Successfully uploaded " ++ str_of_int (Z.of_nat n_ok)
                    ++ " of " ++ str_of_int (Z.of_nat total_files)
                    ++ " files" |}] |}).

End Pipeline.

(** [UploadProgressScreen.start_uploads]: the routine is [upload_file],
    run at queue position [i] against the world [worlds i]. *)
Definition start_uploads (json_loads : string -> result value)
    (worlds : nat -> World) (st : Heap * Screen) : Heap * Screen :=
  start_uploads_with
    (fun i h r =>
       let '(h', out) := upload_file json_loads (worlds i) (config (snd st)) h r in
       (h', Ret out))
    st.

(** The record that the loop of [start_uploads] appends for an outcome:
    a relation used to state what the results list holds. *)
Definition recorded_as (r : ref) (out : result (bool * string))
    (x : ref * bool * string) : Prop :=
  match out with
  | Ret (success, message) => x = (r, success, message)
  | Raise e => x = (r, false, "Error: " ++ exn_str e)
  end.

(** ** Selection in the application shell *)

(** [BuzzUploaderApp._toggle_select_file] from line 917 on, with [path]
    already resolved from the highlighted row. The selection list only
    creates and drops [FileItem]s, so it holds them by value. *)
Definition toggle_select_file (fs : Path -> fs_node) (p : Path)
    (selected_files : list FileItem) : list FileItem :=
  let body : result (list FileItem) :=
    is_d ← node_is_dir (fs p);
    if is_d : bool then Ret selected_files else
    ex ← node_exists (fs p);
    if negb ex then Ret selected_files else
    let already_selected :=
      existsb (fun f => String.eqb (path f) p) selected_files in
    if already_selected then
      Ret (List.filter (fun f => negb (String.eqb (path f) p)) selected_files)
    else
      match FileItem_init fs p true with
      | Ret file_item =>
          if is_dir file_item then Ret selected_files
          else Ret (selected_files ++ [file_item])%list
      | Raise _ => Ret selected_files
      end in
  match body with
  | Ret sel => sel
  | Raise _ => selected_files
  end.

(** [action_clear_selection] *)
Definition action_clear_selection (selected_files : list FileItem)
  : list FileItem := [].

(** The paths of a selection, in order. *)
Definition selected_paths (selected_files : list FileItem) : list Path :=
  List.map path selected_files.

(** The [FileItem] values the program can produce: a constructor call,
    then assignments to [is_selected] and to [upload_url]. *)
Inductive produced : FileItem -> Prop :=
| produced_init fs p selected f :
    FileItem_init fs p selected = Ret f -> produced f
| produced_select f value :
    produced f -> produced (set_is_selected f value)
| produced_url f url :
    produced f -> produced (set_upload_url f url).

(** Is the node a regular file? *)
Definition is_regular (n : fs_node) : bool :=
  match n with
  | RegularFile _ _ => true
  | _ => false
  end.

(** The success flag and message of a record or of a table row. *)
Definition outcome_of {A : Type} (x : A * bool * string) : bool * string :=
  (snd (fst x), snd x).

(** ** Copying the links *)

(** The loop of [copy_urls_to_clipboard] (lines 337-340): one line per
    successful record whose item carries a link. *)
Definition clipboard_lines (h : Heap) (rs : list (ref * bool * string))
  : list string :=
  List.flat_map
    (fun x =>
       let '(r, success, _) := x in
       match upload_url (h r) with
       | Some url =>
           if success && truthy url then [name (h r) ++ ": " ++ url] else []
       | None => []
       end)
    rs.

Definition newline : string := String "010"%char "".

(** What is handed to the clipboard: [None] when there is nothing to copy
    and the screen only notifies. *)
Definition clipboard_text (h : Heap) (rs : list (ref * bool * string))
  : option string :=
  match clipboard_lines h rs with
  | [] => None
  | lines => Some (String.concat newline lines)
  end.

(** ** The application shell: paths, labels and sizes *)

(** The shell writes three characters outside ASCII into table cells: the
    folder and the page icon that start a row label, and the check mark of
    the selection column. Each is one character of the Python string; here
    each is carried by one character code above 127, so that slicing and
    prefix tests count characters as Python does. *)
Definition folder_icon : ascii := "128"%char.
Definition page_icon : ascii := "129"%char.
Definition check_mark : ascii := "130"%char.

(** [s.lower()] on ASCII text. *)
Definition lower_char (c : ascii) : ascii :=
  let n := N_of_ascii c in
  if (65 <=? n)%N && (n <=? 90)%N then ascii_of_N (n + 32) else c.

Fixpoint lower (s : string) : string :=
  match s with
  | EmptyString => EmptyString
  | String c r => String (lower_char c) (lower r)
  end.

(** [s[n:]] *)
Fixpoint drop (n : nat) (s : string) : string :=
  match n, s with
  | O, _ => s
  | S n', String _ r => drop n' r
  | S _, EmptyString => EmptyString
  end.

(** [s.startswith(c)] for a one-character [c]. *)
Definition starts_with_char (c : ascii) (s : string) : bool :=
  match s with
  | String x _ => Ascii.eqb x c
  | EmptyString => false
  end.

(** The pieces of a text between its separators. *)
Fixpoint split_slash (acc s : string) : list string :=
  match s with
  | EmptyString => [acc]
  | String c r =>
      if Ascii.eqb c "/"%char then acc :: split_slash "" r
      else split_slash (acc ++ String c "") r
  end.

(** The parts of a [PurePosixPath]: empty pieces and [.] are dropped. *)
Definition path_parts (s : string) : list string :=
  List.filter (fun x => negb (String.eqb x "") && negb (String.eqb x "."))
              (split_slash "" s).

(** Its root: [/], or [//] for exactly two leading separators, or none. *)
Definition path_root (s : string) : string :=
  match s with
  | String a (String b (String c _)) =>
      if Ascii.eqb a "/"%char then
        if Ascii.eqb b "/"%char && negb (Ascii.eqb c "/"%char) then "//"
        else "/"
      else ""
  | String a (String b EmptyString) =>
      if Ascii.eqb a "/"%char then
        if Ascii.eqb b "/"%char then "//" else "/"
      else ""
  | String a EmptyString => if Ascii.eqb a "/"%char then "/" else ""
  | EmptyString => ""
  end.

(** [str(path)] from root and parts. *)
Definition path_text (root : string) (parts : list string) : Path :=
  match root, parts with
  | EmptyString, [] => "."
  | _, _ => root ++ String.concat "/" parts
  end.

(** [d / n]: an absolute [n] replaces [d]. *)
Definition path_join (d : Path) (n : string) : Path :=
  if starts_with_char "/"%char n then path_text (path_root n) (path_parts n)
  else path_text (path_root d) (path_parts d ++ path_parts n).

(** [d.parent] *)
Definition path_parent (d : Path) : Path :=
  path_text (path_root d) (List.removelast (path_parts d)).

(** The nearest integer to [n / d], ties to the even one ([d] positive). *)
Definition round_half_even (n d : Z) : Z :=
  let q := n / d in
  let r := n mod d in
  if 2 * r <? d then q
  else if d <? 2 * r then q + 1
  else if Z.even q then q else q + 1.

(** [f"{x:.1f}"] for the float [x = n / d]. The sizes shown are integers
    below [2^53] divided by powers of 1024, which floats hold exactly;
    the conversion to text rounds the exact value to one decimal, ties to
    even. *)
Definition format_1f (n d : Z) : string :=
  let t := round_half_even (10 * n) d in
  str_of_int (t / 10) ++ "." ++ str_of_int (t mod 10).

(** The loop over the units: the value is [n / d], and [d] grows by 1024
    each turn. [None] when the loop runs out of units. *)
Fixpoint size_in_units (units : list string) (n d : Z) : option string :=
  match units with
  | [] => None
  | u :: rest =>
      if n <? 1024 * d then Some (format_1f n d ++ " " ++ u)
      else size_in_units rest n (1024 * d)
  end.

Definition size_units : list string := ["B"; "KB"; "MB"; "GB"; "TB"].

(** [FileItem.get_size_str] *)
Definition get_size_str (f : FileItem) : string :=
  if is_dir f then "DIR"
  else match size_in_units size_units (size f) 1 with
       | Some text => text
       | None => format_1f (size f) (1024 ^ 5) ++ " PB"
       end.

(** [FileItem.__str__]: the label of a row. *)
Definition label (f : FileItem) : string :=
  String (if is_dir f then folder_icon else page_icon) (String " "%char (name f)).

(** [BuzzUploaderApp.update_selection_status]: the text of the status
    line. *)
Definition selection_status_text (selected : list FileItem) : string :=
  let count := List.length selected in
  if Nat.eqb count 0 then "0 items selected"
  else
    let total_size :=
      List.fold_right Z.add 0
        (List.map size (List.filter (fun f => negb (is_dir f)) selected)) in
    let size_str :=
      match size_in_units size_units total_size 1 with
      | Some text => text
      | None => "0 B"
      end in
    str_of_int (Z.of_nat count) ++ " items selected (" ++ size_str ++ ")".

(** ** The application shell: listing, selection, navigation *)

(** A row of the file table: name, type, size and selection columns. *)
Record Row := mkRow {
  cell_name : string;
  cell_type : string;
  cell_size : string;
  cell_mark : string
}.

(** What the shell reads from the machine: the file system, the entries
    [iterdir] yields for a directory (their names), and [Path.home()]. *)
Record Disk := mkDisk {
  nodes : Path -> fs_node;
  iterdir : Path -> result (list string);
  home : Path
}.

(** The application: its attributes, the file table with its cursor, the
    search box, the selection status line and the notifications shown
    (message and title). *)
Record App := mkApp {
  current_dir : Path;
  selected_files : list FileItem;
  table : list Row;
  cursor_row : nat;
  search_input : string;
  selection_status : string;
  notifications : list (string * string)
}.

Definition green_check : string :=
  "[green]" ++ String check_mark "[/green]".

Definition plain_check : string := String check_mark "".

Definition parent_label : string :=
  String folder_icon (String " "%char "..").

Definition parent_row : Row :=
  {| cell_name := parent_label; cell_type := "Directory";
     cell_size := ""; cell_mark := "" |}.

(** The sort key [(not p.is_dir(), p.name.lower())] and its order. *)
Definition sort_key (d : Disk) (p : Path) : result (bool * string) :=
  is_d ← node_is_dir (nodes d p);
  Ret (negb is_d, lower (path_name p)).

Definition key_le (a b : bool * string) : bool :=
  match fst a, fst b with
  | false, true => true
  | true, false => false
  | _, _ => String.leb (snd a) (snd b)
  end.

(** A stable sort by key: an element goes before the first one whose key
    is not smaller, so equal keys keep their order. *)
Fixpoint insert_keyed (x : (bool * string) * Path)
    (l : list ((bool * string) * Path)) : list ((bool * string) * Path) :=
  match l with
  | [] => [x]
  | y :: rest =>
      if key_le (fst x) (fst y) then x :: y :: rest
      else y :: insert_keyed x rest
  end.

Fixpoint sort_keyed (l : list ((bool * string) * Path))
  : list ((bool * string) * Path) :=
  match l with
  | [] => []
  | x :: rest => insert_keyed x (sort_keyed rest)
  end.

Fixpoint with_keys (d : Disk) (paths : list Path)
  : result (list ((bool * string) * Path)) :=
  match paths with
  | [] => Ret []
  | p :: rest =>
      k ← sort_key d p;
      ks ← with_keys d rest;
      Ret ((k, p) :: ks)
  end.

(** [paths.sort(key=...)] *)
Definition sort_paths (d : Disk) (paths : list Path) : result (list Path) :=
  keyed ← with_keys d paths;
  Ret (List.map snd (sort_keyed keyed)).

(** The row added for one path (lines 712-723 and 1073-1081). *)
Definition entry_row (selected : list FileItem) (mark : string)
    (p : Path) (f : FileItem) : Row :=
  let is_selected := existsb (fun g => String.eqb (path g) p) selected in
  {| cell_name := label f;
     cell_type := if is_dir f then "Directory" else "File";
     cell_size := get_size_str f;
     cell_mark := if is_selected then mark else "" |}.

(** The loop that adds the rows. A path whose [FileItem] cannot be built
    for an [OSError] is skipped; another exception ends the loop with
    the rows added so far. *)
Fixpoint add_rows (d : Disk) (selected : list FileItem) (mark : string)
    (paths : list Path) (rows : list Row) : list Row * option exn :=
  match paths with
  | [] => (rows, None)
  | p :: rest =>
      match FileItem_init (nodes d) p false with
      | Ret f =>
          add_rows d selected mark rest (rows ++ [entry_row selected mark p f])
      | Raise e =>
          if is_os_error (exn_cls e) then add_rows d selected mark rest rows
          else (rows, Some e)
      end
  end.

Definition error_note (e : exn) : string * string :=
  ("Error: " ++ exn_str e, "Error").

(** [BuzzUploaderApp.update_file_list] *)
Definition update_file_list (d : Disk) (a : App) : App :=
  let listed : result (list Path) :=
    names ← iterdir d (current_dir a);
    sort_paths d (List.map (path_join (current_dir a)) names) in
  match listed with
  | Raise e =>
      {| current_dir := current_dir a; selected_files := selected_files a;
         table := []; cursor_row := 0; search_input := search_input a;
         selection_status := selection_status a;
         notifications := notifications a ++ [error_note e] |}
  | Ret paths =>
      let rows0 :=
        if String.eqb (current_dir a) (home d) then [] else [parent_row] in
      match add_rows d (selected_files a) green_check paths rows0 with
      | (rows, None) =>
          {| current_dir := current_dir a; selected_files := selected_files a;
             table := rows; cursor_row := 0; search_input := search_input a;
             selection_status := selection_status_text (selected_files a);
             notifications := notifications a |}
      | (rows, Some e) =>
          {| current_dir := current_dir a; selected_files := selected_files a;
             table := rows; cursor_row := 0; search_input := search_input a;
             selection_status := selection_status a;
             notifications := notifications a ++ [error_note e] |}
      end
  end.

(** [BuzzUploaderApp.action_search] on the main screen. *)
Definition action_search (d : Disk) (a : App) : App :=
  let query := lower (search_input a) in
  if negb (truthy query) then update_file_list d a
  else
    let listed : result (list Path) :=
      names ← iterdir d (current_dir a);
      let paths := List.map (path_join (current_dir a)) names in
      sort_paths d
        (List.filter (fun p => str_contains query (lower (path_name p))) paths) in
    match listed with
    | Raise e =>
        {| current_dir := current_dir a; selected_files := selected_files a;
           table := []; cursor_row := 0; search_input := search_input a;
           selection_status := selection_status a;
           notifications := notifications a ++ [error_note e] |}
    | Ret paths =>
        match add_rows d (selected_files a) plain_check paths [] with
        | (rows, None) =>
            {| current_dir := current_dir a;
               selected_files := selected_files a;
               table := rows; cursor_row := 0; search_input := search_input a;
               selection_status := selection_status a;
               notifications := notifications a |}
        | (rows, Some e) =>
            {| current_dir := current_dir a;
               selected_files := selected_files a;
               table := rows; cursor_row := 0; search_input := search_input a;
               selection_status := selection_status a;
               notifications := notifications a ++ [error_note e] |}
        end
    end.

(** The file name read back from a row label: [cell_content[2:].strip()]. *)
Definition label_filename (cell_content : string) : string :=
  strip (drop 2 cell_content).

(** [table.update_cell_at((row, 3), mark)] on an existing row. *)
Definition set_mark (row : nat) (mark : string) (rows : list Row) : list Row :=
  match rows !! row with
  | Some r =>
      <[row := {| cell_name := cell_name r; cell_type := cell_type r;
                  cell_size := cell_size r; cell_mark := mark |}]> rows
  | None => rows
  end.

(** The selection and table after lines 917-970, for the resolved [path]
    and the row under the cursor. [None] is an early [return]. *)
Definition toggle_at (d : Disk) (a : App) (p : Path)
  : result (option (list FileItem * list Row)) :=
  is_d ← node_is_dir (nodes d p);
  if is_d : bool then Ret None else
  ex ← node_exists (nodes d p);
  if negb ex then Ret None else
  let already_selected :=
    existsb (fun f => String.eqb (path f) p) (selected_files a) in
  if already_selected then
    Ret (Some (List.filter (fun f => negb (String.eqb (path f) p))
                           (selected_files a),
               set_mark (cursor_row a) "" (table a)))
  else
    match FileItem_init (nodes d) p true with
    | Ret file_item =>
        if is_dir file_item then Ret None
        else Ret (Some ((selected_files a ++ [file_item])%list,
                        set_mark (cursor_row a) green_check (table a)))
    | Raise _ => Ret (Some (selected_files a, table a))
    end.

(** [BuzzUploaderApp._toggle_select_file] *)
Definition toggle_select_at_cursor (d : Disk) (a : App) : App :=
  match table a !! cursor_row a with
  | None => a
  | Some row =>
      let cell_content := cell_name row in
      if negb (truthy cell_content) then a
      else if Nat.eqb (cursor_row a) 0
              && starts_with_char folder_icon cell_content then a
      else
        let p := path_join (current_dir a) (label_filename cell_content) in
        match toggle_at d a p with
        | Ret (Some (selected, rows)) =>
            {| current_dir := current_dir a; selected_files := selected;
               table := rows; cursor_row := cursor_row a;
               search_input := search_input a;
               selection_status := selection_status_text selected;
               notifications := notifications a |}
        | Ret None => a
        | Raise _ => a
        end
  end.

(** [action_toggle_select]: the table is focused first when it is not,
    and the toggle runs right after; nothing else runs in between. *)
Definition action_toggle_select (d : Disk) (a : App) : App :=
  toggle_select_at_cursor d a.

(** The loop of [action_select_all] (lines 999-1010) from row [i] on. *)
Fixpoint select_rows (d : Disk) (dir : Path) (i : nat) (todo : list Row)
    (selected : list FileItem) (rows : list Row)
  : result (list FileItem * list Row) :=
  match todo with
  | [] => Ret (selected, rows)
  | r :: rest =>
      let cell_content := cell_name r in
      if negb (truthy cell_content) || String.eqb cell_content parent_label
      then select_rows d dir (S i) rest selected rows
      else
        let p := path_join dir (label_filename cell_content) in
        is_f ← node_is_file (nodes d p);
        if is_f : bool then
          f ← FileItem_init (nodes d) p true;
          select_rows d dir (S i) rest (selected ++ [f])%list
                      (set_mark i green_check rows)
        else select_rows d dir (S i) rest selected rows
  end.

(** [BuzzUploaderApp.action_select_all]; an exception leaves the
    handler. *)
Definition action_select_all (d : Disk) (a : App) : result App :=
  '(selected, rows) ← select_rows d (current_dir a) 0 (table a) [] (table a);
  Ret {| current_dir := current_dir a; selected_files := selected;
         table := rows; cursor_row := cursor_row a;
         search_input := search_input a;
         selection_status := selection_status_text selected;
         notifications := notifications a |}.

(** [BuzzUploaderApp.action_clear_selection] on the whole application. *)
Definition clear_selection (a : App) : App :=
  {| current_dir := current_dir a;
     selected_files := action_clear_selection (selected_files a);
     table := List.map (fun r => {| cell_name := cell_name r;
                                    cell_type := cell_type r;
                                    cell_size := cell_size r;
                                    cell_mark := "" |}) (table a);
     cursor_row := cursor_row a; search_input := search_input a;
     selection_status :=
       selection_status_text (action_clear_selection (selected_files a));
     notifications := notifications a |}.

Definition with_current_dir (a : App) (dir : Path) : App :=
  {| current_dir := dir; selected_files := selected_files a;
     table := table a; cursor_row := cursor_row a;
     search_input := search_input a;
     selection_status := selection_status a;
     notifications := notifications a |}.

(** [on_directory_tree_directory_selected] *)
Definition on_directory_selected (d : Disk) (dir : Path) (a : App) : App :=
  update_file_list d (with_current_dir a dir).

(** [BuzzUploaderApp.action_open_selected] on the main screen. *)
Definition action_open_selected (d : Disk) (a : App) : App :=
  match table a !! cursor_row a with
  | None => a
  | Some row =>
      let cell_content := cell_name row in
      if negb (truthy cell_content) then a
      else if Nat.eqb (cursor_row a) 0
              && starts_with_char folder_icon cell_content
      then update_file_list d (with_current_dir a (path_parent (current_dir a)))
      else
        let p := path_join (current_dir a) (label_filename cell_content) in
        match node_is_dir (nodes d p) with
        | Ret true => update_file_list d (with_current_dir a p)
        | Ret false => action_toggle_select d a
        | Raise _ => a
        end
  end.

(** [action_refresh] on the main screen. *)
Definition action_refresh (d : Disk) (a : App) : App := update_file_list d a.

(** The store handed to an upload screen: the objects of [files], each
    referred to by its position. *)
Definition heap_of (files : list FileItem) : Heap :=
  fun r => List.nth r files
             {| path := ""; is_selected := false; is_dir := false; size := 0;
                name := ""; upload_url := None |}.

Definition with_note (a : App) (message title : string) : App :=
  {| current_dir := current_dir a; selected_files := selected_files a;
     table := table a; cursor_row := cursor_row a;
     search_input := search_input a;
     selection_status := selection_status a;
     notifications := notifications a ++ [(message, title)] |}.

(** The rest of [action_upload] once the selection is known to be
    non-empty or has been looked at (lines 1108-1129). *)
Definition upload_selection (a : App) : App * option (list FileItem) :=
  match selected_files a with
  | [] => (with_note a "No files selected for upload" "Error", None)
  | _ :: _ =>
      let valid_files :=
        List.filter (fun f => negb (is_dir f) && is_selected f)
                    (selected_files a) in
      match valid_files with
      | [] =>
          (with_note a
             "No valid files selected for upload (directories cannot be uploaded)"
             "Error", None)
      | _ :: _ =>
          (with_note a
             ("Uploading " ++ str_of_int (Z.of_nat (List.length valid_files))
              ++ " files") "Upload Started",
           Some valid_files)
      end
  end.

(** [BuzzUploaderApp.action_upload]: the application afterwards and,
    when a screen is pushed, the files it is constructed with. With an
    empty selection the highlighted row is toggled first; when the table
    does not have the focus that toggle is deferred until the handler has
    returned, so the handler still sees the empty selection. *)
Definition action_upload (d : Disk) (table_has_focus : bool) (a : App)
  : App * option (list FileItem) :=
  match selected_files a with
  | [] =>
      if table_has_focus then upload_selection (action_toggle_select d a)
      else (action_toggle_select d (fst (upload_selection a)), None)
  | _ :: _ => upload_selection a
  end.

(** The screen that [action_upload] pushes: [UploadProgressScreen(valid_files,
    config)]. *)
Definition pushed_screen (d : Disk) (c : UploadConfig) (files : list FileItem)
  : result (Heap * Screen) :=
  s ← Screen_init (nodes d) (heap_of files)
                  (List.seq 0 (List.length files)) c;
  Ret (heap_of files, s).

(** ** Orders and items used to state the properties of the listing *)

(** The order of two keyed paths. *)
Definition keyed_le (a b : (bool * string) * Path) : Prop :=
  key_le (fst a) (fst b) = true.

(** The order of two paths under their sort keys. *)
Definition path_le (d : Disk) (p q : Path) : Prop :=
  exists kp kq, sort_key d p = Ret kp /\ sort_key d q = Ret kq /\
                key_le kp kq = true.

(** Directories first. *)
Definition dir_first (d : Disk) (p q : Path) : Prop :=
  node_is_dir (nodes d q) = Ret true -> node_is_dir (nodes d p) = Ret true.

(** A name that is one path component. *)
Definition simple_name (n : string) : Prop :=
  has_char "/"%char n = false /\ n <> "" /\ n <> ".".

(** The item the constructor builds for a path whose node is [n], when
    [stat] does not fail. *)
Definition item_of_node (n : fs_node) (p : Path) (selected : bool) : FileItem :=
  let dir := match n with Directory => true | _ => false end in
  {| path := p;
     is_selected := if dir then false else selected;
     is_dir := dir;
     size := match n with RegularFile sz _ => sz | _ => 0 end;
     name := path_name p;
     upload_url := None |}.

(** ** Data for the worked scenarios *)

Definition quoted (s : string) : string :=
  String dquote (s ++ String dquote "").

Definition report_path : Path := "/home/user/report.pdf".

Definition report_item : FileItem :=
  {| path := report_path; is_selected := true; is_dir := false; size := 4;
     name := "report.pdf"; upload_url := None |}.

(** A store whose every reference is the report. *)
Definition report_heap : Heap := fun _ => report_item.

Definition report_fs : Path -> fs_node :=
  fun p => if String.eqb p report_path then RegularFile 4 (Ret "%PDF")
           else NoEntry.

Definition empty_fs : Path -> fs_node := fun _ => NoEntry.

(** A world holding the report, whose server answers every request with
    the given status and body. *)
Definition answering (status : Z) (body : string) : World :=
  {| fs := report_fs;
     put := fun _ => Ret {| status_code := status; text := body |} |}.

(** A world in which the report is gone. *)
Definition vanished : World :=
  {| fs := empty_fs;
     put := fun _ => Ret {| status_code := 200; text := "" |} |}.

(** A world in which the report is too large to be held in memory: its
    first block can be read, reading it whole raises [MemoryError], whose
    text is empty. *)
Definition out_of_memory : World :=
  {| fs := fun p => if String.eqb p report_path
                    then RegularFile (2 ^ 40) (Raise (Exn MemoryError ""))
                    else NoEntry;
     put := fun _ => Ret {| status_code := 200; text := "" |} |}.

Definition anonymous_config : UploadConfig := UploadConfig_init ∅.

(** The screen built for the report alone. *)
Definition report_screen : Screen :=
  {| upload_files := [0%nat]; config := anonymous_config;
     current_index := 0; results := [];
     status_line := "Preparing to upload...";
     progress_line := "0 / 1"; table_rows := [];
     close_disabled := false; copy_disabled := true; posted := [] |}.

(** The body [{"data":{"id":"xyz9"}}]. *)
Definition body_with_id : string :=
  "{" ++ quoted "data" ++ ":{" ++ quoted "id" ++ ":" ++ quoted "xyz9" ++ "}}".

(** The body [{"data":null}]. *)
Definition body_data_null : string := "{" ++ quoted "data" ++ ":null}".

(** A body of 4301 digits [1]: a JSON document, an integer. *)
Definition long_integer_body : string :=
  string_of_list_ascii (List.repeat "1"%char 4301).

(** The same digits followed by words: not a JSON document. *)
Definition long_integer_then_text : string :=
  long_integer_body ++ " bytes stored".

(** An upload routine that raises for every file. *)
Definition always_raising : nat -> Heap -> ref -> Heap * result (bool * string) :=
  fun _ h _ => (h, Raise (Exn RequestException "connection refused")).

Definition notes_path : Path := "/home/user/notes.txt".

Definition two_files_fs : Path -> fs_node :=
  fun p => if String.eqb p report_path then RegularFile 4 (Ret "%PDF")
           else if String.eqb p notes_path then RegularFile 2 (Ret "hi")
           else NoEntry.

Definition notes_item : FileItem :=
  {| path := notes_path; is_selected := true; is_dir := false; size := 2;
     name := "notes.txt"; upload_url := None |}.

(** A world holding the report, whose server cannot be reached. *)
Definition unreachable : World :=
  {| fs := report_fs;
     put := fun _ => Raise (Exn RequestException "connection refused") |}.

(** A configuration whose key is blank. *)
Definition blank_key_config : UploadConfig :=
  {| api_key := Some "  "; parent_id := None; location_id := None;
     note := None; base_url := "https://w.buzzheavier.com";
     api_url := "https://buzzheavier.com/api" |}.

(** A home directory with two folders and three files, as [iterdir]
    happens to yield them. *)
Definition home_dir : Path := "/home/user".

Definition desk_nodes : Path -> fs_node :=
  fun p =>
    if String.eqb p "/home/user" then Directory
    else if String.eqb p "/home" then Directory
    else if String.eqb p "/home/user/music" then Directory
    else if String.eqb p "/home/user/Archive" then Directory
    else if String.eqb p "/home/user/report.pdf" then RegularFile 4 (Ret "%PDF")
    else if String.eqb p "/home/user/notes.txt" then RegularFile 2 (Ret "hi")
    else if String.eqb p "/home/user/Budget.xls" then RegularFile 2048 (Ret "")
    else NoEntry.

Definition desk : Disk :=
  {| nodes := desk_nodes;
     iterdir := fun p =>
       if String.eqb p "/home/user"
       then Ret ["report.pdf"; "music"; "notes.txt"; "Archive"; "Budget.xls"]
       else if String.eqb p "/home" then Ret ["user"]
       else if String.eqb p "/home/user/music" then Ret []
       else if String.eqb p "/home/user/Archive" then Ret []
       else Raise (Exn OSError "Not a directory");
     home := home_dir |}.

Definition start_app : App :=
  {| current_dir := home_dir; selected_files := []; table := [];
     cursor_row := 0; search_input := ""; selection_status := "0 items selected";
     notifications := [] |}.

(** The example application after its first listing, and after
    selecting all. *)
Definition listed_app : App := update_file_list desk start_app.

Definition all_selected_app : App :=
  {| current_dir := home_dir;
     selected_files :=
       [item_of_node (RegularFile 2048 (Ret "")) "/home/user/Budget.xls" true;
        item_of_node (RegularFile 2 (Ret "hi")) "/home/user/notes.txt" true;
        item_of_node (RegularFile 4 (Ret "%PDF")) "/home/user/report.pdf" true];
     table :=
       List.map (fun r => {| cell_name := cell_name r;
                             cell_type := cell_type r;
                             cell_size := cell_size r;
                             cell_mark := if String.eqb (cell_type r) "File"
                                          then green_check else "" |})
                (table listed_app);
     cursor_row := 0; search_input := "";
     selection_status := "3 items selected (2.0 KB)";
     notifications := [] |}.

(** The example application with the cursor on a row. *)
Definition on_row (i : nat) (a : App) : App :=
  {| current_dir := current_dir a; selected_files := selected_files a;
     table := table a; cursor_row := i; search_input := search_input a;
     selection_status := selection_status a;
     notifications := notifications a |}.

(** The example application with a search text. *)
Definition searching (query : string) (a : App) : App :=
  {| current_dir := current_dir a; selected_files := selected_files a;
     table := table a; cursor_row := cursor_row a; search_input := query;
     selection_status := selection_status a;
     notifications := notifications a |}.

(** * Properties *)

(** ** FileItem *)

Ltac unfold_bind := unfold mbind, result_bind in *.

(** Case analysis on a scrutinee of the goal that is not itself a match. *)
Ltac break_inner_match :=
  match goal with
  | |- context [match ?x with _ => _ end] =>
      lazymatch x with
      | context [match _ with _ => _ end] => fail
      | _ => destruct x eqn:?
      end
  end.

Lemma FileItem_init_fields fs p selected f :
  FileItem_init fs p selected = Ret f ->
  path f = p /\ name f = path_name p /\ upload_url f = None /\
  is_selected f = (if is_dir f then false else selected).
Proof.
  unfold FileItem_init. unfold_bind.
  destruct (node_exists (fs p)) as [[|]|]; try discriminate.
  - destruct (node_is_dir (fs p)) as [d|]; try discriminate.
    destruct (node_is_file (fs p)) as [[|]|]; try discriminate.
    + destruct (node_size (fs p)); try discriminate.
      intros [= <-]. simpl. auto.
    + intros [= <-]. simpl. auto.
  - intros [= <-]. simpl. auto.
Qed.

Lemma FileItem_init_directory fs p selected :
  fs p = Directory ->
  FileItem_init fs p selected =
  Ret {| path := p; is_selected := false; is_dir := true; size := 0;
         name := path_name p; upload_url := None |}.
Proof. intros H. unfold FileItem_init. rewrite H. reflexivity. Qed.

(** C8. A directory entry is never selected: the constructor called on a
    directory with [is_selected=True] gives an unselected item, assigning
    [True] to a directory item's [is_selected] changes nothing, and every
    item the program can produce is unselected when it is a directory. *)
Theorem directory_never_selected :
  (forall fs p, fs p = Directory ->
     exists f, FileItem_init fs p true = Ret f /\
               is_dir f = true /\ is_selected f = false) /\
  (forall f, is_dir f = true -> set_is_selected f true = f) /\
  (forall f, produced f -> is_dir f = true -> is_selected f = false).
Proof.
  split; [|split].
  - intros fs p H. eexists. split; [apply FileItem_init_directory, H|].
    split; reflexivity.
  - intros f H. unfold set_is_selected. rewrite H. reflexivity.
  - intros f Hp. induction Hp as [fs p sel f Hf | f v Hp IH | f url Hp IH].
    + intros Hd. apply FileItem_init_fields in Hf as (_ & _ & _ & Hs).
      rewrite Hs, Hd. reflexivity.
    + unfold set_is_selected. destruct (is_dir f) eqn:Hd; simpl.
      * destruct v; simpl; auto.
      * intros Hd'. simpl in Hd'. congruence.
    + simpl. exact IH.
Qed.

(** A directory item is indeed produced, so the third part is not empty. *)
Example directory_item_produced :
  exists f, produced f /\ is_dir f = true /\ is_selected f = false.
Proof.
  eexists. split.
  - eapply produced_select with (value := true).
    apply (produced_init (fun _ => Directory) "/home/user/music" true).
    reflexivity.
  - split; reflexivity.
Qed.

Lemma append_cons (c : ascii) (a b : string) :
  String c a ++ b = String c (a ++ b).
Proof. reflexivity. Qed.

Lemma append_empty_r (s : string) : s ++ "" = s.
Proof.
  induction s as [|c s IH]; [reflexivity|].
  rewrite append_cons, IH. reflexivity.
Qed.

Lemma append_assoc (a b c : string) : (a ++ b) ++ c = a ++ (b ++ c).
Proof.
  induction a as [|x a IH]; [reflexivity|].
  rewrite !append_cons, IH. reflexivity.
Qed.

Lemma has_char_cons (c x : ascii) (s : string) :
  has_char c (String x s) = Ascii.eqb c x || has_char c s.
Proof. reflexivity. Qed.

Lemma last_component_no_slash n : forall acc,
  has_char "/"%char n = false -> last_component acc n = acc ++ n.
Proof.
  induction n as [|c n IH]; intros acc H; simpl.
  - symmetry. apply append_empty_r.
  - rewrite has_char_cons in H. apply orb_false_iff in H as [Hc Hn].
    rewrite Ascii.eqb_sym in Hc. rewrite Hc, IH by exact Hn.
    rewrite append_assoc. reflexivity.
Qed.

Lemma last_component_after_slash d n : forall acc,
  has_char "/"%char n = false ->
  last_component acc (d ++ String "/"%char n) = n.
Proof.
  induction d as [|c d IH]; intros acc H.
  - change (last_component "" n = n). apply (last_component_no_slash n ""), H.
  - rewrite append_cons. simpl.
    destruct (Ascii.eqb c "/"%char); apply IH, H.
Qed.

(** C10. Constructing a [FileItem] for a path with no file system entry
    does not raise: the item has [is_dir=False], [size=0] and the path's
    last component as its name (the text after the last separator). *)
Theorem FileItem_init_missing_path fs p selected :
  fs p = NoEntry ->
  FileItem_init fs p selected =
    Ret {| path := p; is_selected := selected; is_dir := false; size := 0;
           name := path_name p; upload_url := None |} /\
  (forall d n, p = d ++ String "/"%char n -> has_char "/"%char n = false ->
               path_name p = n).
Proof.
  intros H. split.
  - unfold FileItem_init. rewrite H. reflexivity.
  - intros d n -> Hn. apply last_component_after_slash, Hn.
Qed.

Lemma FileItem_init_missing_path_witness :
  FileItem_init (fun _ => NoEntry) "/home/user/gone.txt" true =
    Ret {| path := "/home/user/gone.txt"; is_selected := true;
           is_dir := false; size := 0; name := "gone.txt";
           upload_url := None |} /\
  (forall d n, "/home/user/gone.txt" = d ++ String "/"%char n ->
               has_char "/"%char n = false ->
               path_name "/home/user/gone.txt" = n).
Proof.
  apply (FileItem_init_missing_path (fun _ => NoEntry) "/home/user/gone.txt" true).
  reflexivity.
Defined.

(** ** Settings *)

Lemma truthy_empty : truthy "" = false.
Proof. reflexivity. Qed.

Lemma truthy_nonempty s : s <> "" -> truthy s = true.
Proof.
  intros H. unfold truthy. destruct (String.eqb_spec s ""); [contradiction|].
  reflexivity.
Qed.

(** C9. Saving with an empty API-key input sets [config.api_key] to the
    empty string, so the configuration is unauthenticated and gives no
    [Authorization] header, and leaves the process environment as it
    was. For any input, a save never removes [BUZZHEAVIER_API_KEY] from
    the environment, writes it only when the input is non-empty, and
    touches no other variable. *)
Theorem save_empty_key_keeps_environment
    (i : SettingsInputs) (c : UploadConfig) (environ : gmap string string) :
  api_key_input i = "" ->
  api_key (fst (action_save i c environ)) = Some "" /\
  is_authenticated (fst (action_save i c environ)) = false /\
  upload_headers (fst (action_save i c environ)) !! "Authorization" = None /\
  snd (action_save i c environ) = environ /\
  (forall j : SettingsInputs,
     (is_Some (environ !! ENV_API_KEY) ->
      is_Some (snd (action_save j c environ) !! ENV_API_KEY)) /\
     (api_key_input j <> "" ->
      snd (action_save j c environ) !! ENV_API_KEY = Some (api_key_input j)) /\
     (forall k, k <> ENV_API_KEY ->
      snd (action_save j c environ) !! k = environ !! k)).
Proof.
  intros Hi. unfold action_save, is_authenticated, upload_headers. simpl.
  rewrite Hi. simpl. repeat split; try reflexivity.
  - destruct (truthy (api_key_input j)); [|tauto].
    intros _. rewrite lookup_insert_eq. eexists. reflexivity.
  - intros Hj. rewrite (truthy_nonempty _ Hj). apply lookup_insert_eq.
  - intros k Hk. destruct (truthy (api_key_input j)); [|reflexivity].
    apply lookup_insert_ne. congruence.
Qed.

Lemma save_empty_key_keeps_environment_witness :
  let i := {| api_key_input := ""; parent_id_input := "";
              location_id_input := ""; note_input := "" |} in
  let environ : gmap string string := {[ ENV_API_KEY := "acct-42" ]} in
  let c := UploadConfig_init environ in
  api_key (fst (action_save i c environ)) = Some "" /\
  is_authenticated (fst (action_save i c environ)) = false /\
  upload_headers (fst (action_save i c environ)) !! "Authorization" = None /\
  snd (action_save i c environ) = environ /\
  (forall j : SettingsInputs,
     (is_Some (environ !! ENV_API_KEY) ->
      is_Some (snd (action_save j c environ) !! ENV_API_KEY)) /\
     (api_key_input j <> "" ->
      snd (action_save j c environ) !! ENV_API_KEY = Some (api_key_input j)) /\
     (forall k, k <> ENV_API_KEY ->
      snd (action_save j c environ) !! k = environ !! k)).
Proof.
  intros i environ c.
  apply (save_empty_key_keeps_environment i c environ).
  reflexivity.
Defined.

(** The stale key stays readable in the environment after such a save. *)
Example stale_key_survives_empty_save :
  let environ : gmap string string := {[ ENV_API_KEY := "acct-42" ]} in
  let '(c', environ') :=
    action_save {| api_key_input := ""; parent_id_input := "";
                   location_id_input := ""; note_input := "" |}
                (UploadConfig_init environ) environ in
  api_key c' = Some "" /\ environ' !! ENV_API_KEY = Some "acct-42".
Proof. split; reflexivity. Qed.

(** ** Request construction *)

(** C3. With [parent_id] set the target is [base_url/parent_id/name] and
    no [locationId] parameter is sent, whatever [location_id] holds;
    without it the target is [base_url/name] and a set [location_id] is
    sent as [locationId]; a set [note] is sent base64-encoded as [note]
    in both cases. *)
Theorem upload_request_precedence (c : UploadConfig) (file_name content : string) :
  let req := upload_request c file_name content in
  (forall pid, parent_id c = Some pid -> pid <> "" ->
     req_url req = base_url c ++ "/" ++ pid ++ "/" ++ file_name /\
     req_params req !! "locationId" = None) /\
  (opt_truthy (parent_id c) = false ->
     req_url req = base_url c ++ "/" ++ file_name /\
     forall lid, location_id c = Some lid -> lid <> "" ->
       req_params req !! "locationId" = Some lid) /\
  (forall n, note c = Some n -> n <> "" ->
     req_params req !! "note" = Some (b64encode n)).
Proof.
  unfold upload_request, upload_target, upload_params. simpl.
  split; [|split].
  - intros pid Hp Hne. rewrite Hp. simpl. rewrite (truthy_nonempty _ Hne).
    split; [reflexivity|].
    destruct (note c) as [n|]; [destruct (truthy n)|];
      rewrite ?lookup_insert_ne by discriminate; apply lookup_empty.
  - intros Hp. split.
    + destruct (parent_id c) as [pid|]; simpl in Hp; [rewrite Hp|]; reflexivity.
    + intros lid Hl Hne. rewrite Hp, Hl, (truthy_nonempty _ Hne).
      destruct (note c) as [n|]; [destruct (truthy n)|];
        rewrite ?lookup_insert_ne by discriminate; apply lookup_insert_eq.
  - intros n Hn Hne. rewrite Hn, (truthy_nonempty _ Hne).
    apply lookup_insert_eq.
Qed.

(** The scenario of the specification: [parent_id="abc123"], a
    [location_id] configured as well, file [report.pdf]. *)
Example parent_id_scenario :
  let c := {| api_key := None; parent_id := Some "abc123";
              location_id := Some "eu-1"; note := Some "hello world";
              base_url := "https://w.buzzheavier.com";
              api_url := "https://buzzheavier.com/api" |} in
  let req := upload_request c "report.pdf" "%PDF" in
  req_url req = "https://w.buzzheavier.com/abc123/report.pdf" /\
  req_params req !! "locationId" = None /\
  req_params req !! "note" = Some "aGVsbG8gd29ybGQ=".
Proof. repeat split; vm_compute; reflexivity. Qed.

(** ** The upload client *)

Section ClientFacts.

Variable json_loads : string -> result value.

(** A readable regular file reaches [requests.put] with the request
    built from the configuration. *)
Lemma upload_file_sends w c h r sz content :
  fs w (path (h r)) = RegularFile sz (Ret content) ->
  upload_file json_loads w c h r =
  do_upload json_loads w (upload_request c (name (h r)) content) h r.
Proof.
  intros H. unfold upload_file. rewrite H. reflexivity.
Qed.

Lemma upload_file_missing w c h r :
  fs w (path (h r)) = NoEntry ->
  upload_file json_loads w c h r =
  (h, (false, "File does not exist: " ++ path (h r))).
Proof.
  intros H. unfold upload_file. rewrite H. reflexivity.
Qed.

Lemma do_upload_transport_error w req h r e :
  put w req = Raise e ->
  do_upload json_loads w req h r =
  (h, (false, "Upload request failed: " ++ exn_str e)).
Proof. intros H. unfold do_upload. rewrite H. reflexivity. Qed.

Lemma do_upload_error_status w req h r resp :
  put w req = Ret resp ->
  status_code resp <> 200 -> status_code resp <> 201 ->
  do_upload json_loads w req h r =
  (h, (false, "Error: HTTP " ++ str_of_int (status_code resp)
                ++ " - " ++ text resp)).
Proof.
  intros H H200 H201. unfold do_upload. rewrite H. unfold_bind.
  destruct (Z.eqb_spec (status_code resp) 200); [contradiction|].
  destruct (Z.eqb_spec (status_code resp) 201); [contradiction|].
  reflexivity.
Qed.

(** Status 200: the JSON shape test is never reached. *)
Lemma extract_link_ok h r resp :
  status_code resp = 200 ->
  (exists v, json_loads (text resp) = Ret v) ->
  extract_link json_loads h r resp = Ret None.
Proof.
  intros H [v Hv]. unfold extract_link. rewrite Hv, H. reflexivity.
Qed.

Lemma do_upload_raw_on_decode_error w req h r resp e :
  put w req = Ret resp ->
  status_code resp = 200 \/ status_code resp = 201 ->
  json_loads (text resp) = Raise e -> exn_cls e = JSONDecodeError ->
  do_upload json_loads w req h r =
  (h, (true, raw_message (name (h r)) (text resp))).
Proof.
  intros H Hs He Hc. unfold do_upload, extract_link. rewrite H. unfold_bind.
  rewrite He, Hc. destruct Hs as [-> | ->]; reflexivity.
Qed.

Lemma do_upload_raw_on_ok w req h r resp v :
  put w req = Ret resp ->
  status_code resp = 200 ->
  json_loads (text resp) = Ret v ->
  do_upload json_loads w req h r =
  (h, (true, raw_message (name (h r)) (text resp))).
Proof.
  intros H Hs Hv. unfold do_upload, extract_link. rewrite H. unfold_bind.
  rewrite Hv, Hs. reflexivity.
Qed.

(** Status 201 with an object that has no [data] key, or whose [data] is
    an object without [id]: the raw-text path. *)
Lemma do_upload_raw_on_created_without_id w req h r resp m :
  put w req = Ret resp ->
  status_code resp = 201 ->
  json_loads (text resp) = Ret (JObj m) ->
  (dict_get "data" m = None \/
   exists d, dict_get "data" m = Some (JObj d) /\ dict_get "id" d = None) ->
  do_upload json_loads w req h r =
  (h, (true, raw_message (name (h r)) (text resp))).
Proof.
  intros H Hs Hv Hm. unfold do_upload, extract_link. rewrite H. unfold_bind.
  rewrite Hv, Hs. simpl. destruct Hm as [Hm | (d & Hm & Hd)].
  - rewrite Hm. reflexivity.
  - rewrite Hm. simpl. rewrite Hd. reflexivity.
Qed.

(** Status 201 with [data.id]: the link is built and stored. *)
Lemma do_upload_created_with_id w req h r resp m d file_id :
  put w req = Ret resp ->
  status_code resp = 201 ->
  json_loads (text resp) = Ret (JObj m) ->
  dict_get "data" m = Some (JObj d) ->
  dict_get "id" d = Some file_id ->
  do_upload json_loads w req h r =
  (heap_set h r (set_upload_url (h r) (download_url file_id)),
   (true, name (h r) ++ ": " ++ download_url file_id)).
Proof.
  intros H Hs Hv Hm Hd. unfold do_upload, extract_link. rewrite H.
  unfold_bind. rewrite Hv, Hs. simpl. rewrite Hm. simpl. rewrite Hd.
  reflexivity.
Qed.

(** Status 201 with a document on which [in] or the subscript raises: the
    exception is not a [JSONDecodeError] and reaches the outer handler. *)
Lemma do_upload_created_type_error w req h r resp v e :
  put w req = Ret resp ->
  status_code resp = 201 ->
  json_loads (text resp) = Ret v ->
  Json.contains "data" v = Raise e ->
  exn_cls e <> JSONDecodeError ->
  do_upload json_loads w req h r =
  (h, (false, "Upload request failed: " ++ exn_str e)).
Proof.
  intros H Hs Hv Hc He. unfold do_upload, extract_link. rewrite H.
  unfold_bind. rewrite Hv, Hs. simpl. rewrite Hc.
  destruct (exn_cls e); try reflexivity. contradiction.
Qed.

(** Status 200 or 201 with a body on which [json.loads] raises anything
    but [JSONDecodeError] ([ValueError] for an integer of more than 4300
    digits, [RecursionError] for a deeply nested document): line 561 does
    not catch it, and the handler of line 567 reports a failed request. *)
Lemma do_upload_decoder_raises w req h r resp e :
  put w req = Ret resp ->
  status_code resp = 200 \/ status_code resp = 201 ->
  json_loads (text resp) = Raise e ->
  exn_cls e <> JSONDecodeError ->
  do_upload json_loads w req h r =
  (h, (false, "Upload request failed: " ++ exn_str e)).
Proof.
  intros H Hs He Hc. unfold do_upload, extract_link. rewrite H.
  unfold_bind. rewrite He.
  destruct Hs as [-> | ->]; simpl;
    destruct (exn_cls e); try reflexivity; contradiction.
Qed.

Lemma upload_file_decoder_raises w c h r sz content resp e :
  fs w (path (h r)) = RegularFile sz (Ret content) ->
  put w (upload_request c (name (h r)) content) = Ret resp ->
  status_code resp = 200 \/ status_code resp = 201 ->
  json_loads (text resp) = Raise e ->
  exn_cls e <> JSONDecodeError ->
  upload_file json_loads w c h r =
  (h, (false, "Upload request failed: " ++ exn_str e)).
Proof.
  intros Hfs Hput Hs He Hc.
  rewrite (upload_file_sends _ _ _ _ _ _ Hfs).
  eapply do_upload_decoder_raises; eauto.
Qed.

(** C6. A response with a status other than 200 and 201 makes
    [upload_file] return failure with the message
    [Error: HTTP <status> - <body>]; the store is unchanged. *)
Theorem upload_file_error_status w c h r sz content resp :
  fs w (path (h r)) = RegularFile sz (Ret content) ->
  put w (upload_request c (name (h r)) content) = Ret resp ->
  status_code resp <> 200 -> status_code resp <> 201 ->
  upload_file json_loads w c h r =
  (h, (false, "Error: HTTP " ++ str_of_int (status_code resp)
                ++ " - " ++ text resp)).
Proof.
  intros Hfs Hput H200 H201.
  rewrite (upload_file_sends _ _ _ _ _ _ Hfs).
  apply do_upload_error_status; assumption.
Qed.

(** A 200 response whose body [json.loads] rejects with
    [JSONDecodeError], or decodes to any document at all, takes the
    raw-text success path: success, the store unchanged, and as message
    the stripped body, or the uploaded-successfully sentence when nothing
    is left of the body after stripping. A body on which [json.loads]
    raises another exception does not: [upload_file_decoder_raises]. *)
Lemma upload_file_ok_body_not_json w c h r sz content resp :
  fs w (path (h r)) = RegularFile sz (Ret content) ->
  put w (upload_request c (name (h r)) content) = Ret resp ->
  status_code resp = 200 ->
  ((exists e, json_loads (text resp) = Raise e /\ exn_cls e = JSONDecodeError)
   \/ exists v, json_loads (text resp) = Ret v) ->
  upload_file json_loads w c h r =
    (h, (true, raw_message (name (h r)) (text resp))) /\
  (strip (text resp) <> "" ->
   raw_message (name (h r)) (text resp) = strip (text resp)) /\
  (strip (text resp) = "" ->
   raw_message (name (h r)) (text resp) =
   "File " ++ name (h r) ++ " uploaded successfully").
Proof.
  intros Hfs Hput Hs Hj.
  rewrite (upload_file_sends _ _ _ _ _ _ Hfs). split; [|split].
  - destruct Hj as [(e & He & Hc) | (v & Hv)].
    + eapply do_upload_raw_on_decode_error; eauto.
    + eapply do_upload_raw_on_ok; eauto.
  - intros Hne. unfold raw_message, str_or.
    rewrite (truthy_nonempty _ Hne). reflexivity.
  - intros He. unfold raw_message, str_or. rewrite He. reflexivity.
Qed.

End ClientFacts.

Lemma upload_file_error_status_witness :
  upload_file Json.loads (answering 403 "forbidden") anonymous_config
              report_heap 0%nat =
  (report_heap, (false, "Error: HTTP 403 - forbidden")).
Proof.
  apply (upload_file_error_status Json.loads (answering 403 "forbidden")
           anonymous_config report_heap 0%nat 4 "%PDF"
           {| status_code := 403; text := "forbidden" |}).
  - reflexivity.
  - reflexivity.
  - discriminate.
  - discriminate.
Defined.

(** A 200 body of plain words. *)
Example ok_with_plain_text :
  upload_file Json.loads (answering 200 " stored as report.pdf ")
              anonymous_config report_heap 0%nat =
    (report_heap, (true, "stored as report.pdf")) /\
  (strip " stored as report.pdf " <> "" ->
   raw_message "report.pdf" " stored as report.pdf " = "stored as report.pdf") /\
  (strip " stored as report.pdf " = "" ->
   raw_message "report.pdf" " stored as report.pdf " =
   "File report.pdf uploaded successfully").
Proof.
  apply (upload_file_ok_body_not_json Json.loads
           (answering 200 " stored as report.pdf ")
           anonymous_config report_heap 0%nat 4 "%PDF"
           {| status_code := 200; text := " stored as report.pdf " |}).
  - reflexivity.
  - reflexivity.
  - reflexivity.
  - left. eexists. split; reflexivity.
Qed.

(** An empty 200 body: the generic sentence. *)
Example ok_with_empty_body :
  upload_file Json.loads (answering 200 "") anonymous_config report_heap 0%nat =
  (report_heap, (true, "File report.pdf uploaded successfully")).
Proof. reflexivity. Qed.

(** A 200 body that is a JSON document of another shape: the raw text. *)
Example ok_with_other_json :
  upload_file Json.loads (answering 200 "[1, 2]") anonymous_config
              report_heap 0%nat =
  (report_heap, (true, "[1, 2]")).
Proof. reflexivity. Qed.

(** C7. The claim holds of the 200 bodies that [json.loads] decodes or
    rejects with [JSONDecodeError] ([upload_file_ok_body_not_json]), not
    of every 200 body: on an integer of 4301 digits, alone or followed by
    words, [json.loads] raises [ValueError], which the handler of line 561
    does not catch, and [upload_file] reports the upload as failed,
    through the handler for transport errors, instead of succeeding with
    the raw body. *)
Theorem ok_body_with_long_integer_reported_failed :
  let out1 := upload_file Json.loads (answering 200 long_integer_body)
                anonymous_config report_heap 0%nat in
  let out2 := upload_file Json.loads (answering 200 long_integer_then_text)
                anonymous_config report_heap 0%nat in
  Json.loads long_integer_body = Raise (too_many_digits 4301) /\
  Json.loads long_integer_then_text = Raise (too_many_digits 4301) /\
  exn_cls (too_many_digits 4301) = ValueError /\
  out1 = (report_heap,
          (false, "Upload request failed: " ++ exn_str (too_many_digits 4301))) /\
  out2 = out1.
Proof. cbv zeta. repeat split; lazy; reflexivity. Qed.

(** The scenario of the specification: 201 with [{"data":{"id":"xyz9"}}]. *)
Example created_scenario :
  let '(h', out) :=
    upload_file Json.loads (answering 201 body_with_id) anonymous_config
                report_heap 0%nat in
  out = (true, "report.pdf: https://buzzheavier.com/xyz9") /\
  upload_url (h' 0%nat) = Some "https://buzzheavier.com/xyz9".
Proof. split; reflexivity. Qed.

(** C2. The first half of the claim holds (see
    [do_upload_created_with_id] and [created_scenario]); the second does
    not: a 201 response whose body is the JSON document [{"data":null}],
    or [null], has no id to extract, yet [upload_file] reports the upload
    as failed, through the handler for transport errors, instead of
    succeeding with the raw body. *)
Theorem created_without_id_reported_failed :
  let out1 := snd (upload_file Json.loads (answering 201 body_data_null)
                     anonymous_config report_heap 0%nat) in
  let out2 := snd (upload_file Json.loads (answering 201 "null")
                     anonymous_config report_heap 0%nat) in
  fst out1 = false /\
  String.prefix "Upload request failed: " (snd out1) = true /\
  fst out2 = false /\
  String.prefix "Upload request failed: " (snd out2) = true /\
  Json.loads body_data_null = Ret (JObj [("data", JNull)]) /\
  Json.loads "null" = Ret JNull.
Proof. repeat split; reflexivity. Qed.

(** ** The pipeline *)

Section LoopFacts.

Variable upload : nat -> Heap -> ref -> Heap * result (bool * string).

(** A property of the store that every upload keeps. *)
Variable P : Heap -> Prop.
Hypothesis P_kept : forall i h r, P h -> P (fst (upload i h r)).

Lemma upload_step_results total i r h s :
  exists x,
    results (snd (upload_step upload total i r (h, s))) = (results s ++ [x])%list /\
    recorded_as r (snd (upload i h r)) x /\
    fst (upload_step upload total i r (h, s)) = fst (upload i h r) /\
    upload_files (snd (upload_step upload total i r (h, s))) = upload_files s /\
    config (snd (upload_step upload total i r (h, s))) = config s.
Proof.
  unfold upload_step, recorded_as.
  destruct (upload i h r) as [h1 [[b m] | e]]; simpl; eexists; eauto.
Qed.

Lemma upload_loop_records total queue : forall i h s,
  P h ->
  let st' := upload_loop upload total i queue (h, s) in
  P (fst st') /\
  upload_files (snd st') = upload_files s /\
  config (snd st') = config s /\
  exists new,
    results (snd st') = (results s ++ new)%list /\
    List.map (fun x => fst (fst x)) new = queue /\
    forall k r, queue !! k = Some r ->
      exists hk x, P hk /\ new !! k = Some x /\
                   recorded_as r (snd (upload (i + k) hk r)) x.
Proof.
  induction queue as [|r rest IH]; intros i h s HP; cbv zeta;
    cbn [upload_loop].
  - simpl. split; [exact HP|]. split; [reflexivity|]. split; [reflexivity|].
    exists []. split; [symmetry; apply app_nil_r|].
    split; [reflexivity|]. intros k r Hk. discriminate.
  - destruct (upload_step_results total i r h s) as (x & Hx & Hrec & Hh & Hf & Hc).
    destruct (upload_step upload total i r (h, s)) as [h1 s1] eqn:E.
    simpl in Hx, Hh, Hf, Hc.
    assert (HP1 : P h1) by (rewrite Hh; apply P_kept, HP).
    destruct (IH (S i) h1 s1 HP1) as (HP' & Hf' & Hc' & new & Hnew & Hmap & Hall).
    split; [exact HP'|]. split; [congruence|]. split; [congruence|].
    exists (x :: new). split; [|split].
    + rewrite Hnew, Hx, <- app_assoc. reflexivity.
    + simpl. rewrite Hmap. f_equal.
      unfold recorded_as in Hrec.
      destruct (snd (upload i h r)) as [[b m]|e]; subst x; reflexivity.
    + intros [|k] r' Hk; simpl in Hk.
      * injection Hk as <-. exists h, x. rewrite Nat.add_0_r. auto.
      * destruct (Hall k r' Hk) as (hk & y & HPk & Hy & Hr).
        exists hk, y. rewrite Nat.add_succ_r. auto.
Qed.

Lemma start_uploads_with_records h s :
  P h ->
  let st' := start_uploads_with upload (h, s) in
  P (fst st') /\
  exists new,
    results (snd st') = (results s ++ new)%list /\
    List.map (fun x => fst (fst x)) new = upload_files s /\
    forall k r, upload_files s !! k = Some r ->
      exists hk x, P hk /\ new !! k = Some x /\
                   recorded_as r (snd (upload k hk r)) x.
Proof.
  intros HP. cbv zeta. unfold start_uploads_with.
  destruct (Nat.eqb_spec (List.length (upload_files s)) 0) as [Hz | Hnz].
  - simpl. split; [exact HP|]. exists []. split; [symmetry; apply app_nil_r|].
    destruct (upload_files s); [|discriminate]. split; [reflexivity|].
    intros k r Hk. discriminate.
  - match goal with
    | |- context [upload_loop upload ?t 0%nat ?q (h, ?s0)] =>
        pose proof (upload_loop_records t q 0%nat h s0 HP) as H;
        destruct (upload_loop upload t 0%nat q (h, s0)) as [h1 s1]
    end.
    simpl in H. destruct H as (HP1 & _ & _ & new & Hnew & Hmap & Hall).
    simpl. split; [exact HP1|]. exists new. auto.
Qed.

End LoopFacts.

(** C1. A run of [start_uploads] appends one record per queued file, in
    queue order, whatever the upload routine does: a record is the
    routine's returned pair, and when the routine raises it is a failed
    record [Error: <text>] for that file, after which the loop goes on. *)
Theorem start_uploads_one_record_per_file
    (upload : nat -> Heap -> ref -> Heap * result (bool * string))
    (h : Heap) (s : Screen) :
  exists new : list (ref * bool * string),
    results (snd (start_uploads_with upload (h, s))) = (results s ++ new)%list /\
    List.length new = List.length (upload_files s) /\
    List.map (fun x => fst (fst x)) new = upload_files s /\
    forall i r, upload_files s !! i = Some r ->
      exists hi,
        (forall success message,
           snd (upload i hi r) = Ret (success, message) ->
           new !! i = Some (r, success, message)) /\
        (forall e,
           snd (upload i hi r) = Raise e ->
           new !! i = Some (r, false, "Error: " ++ exn_str e)).
Proof.
  destruct (start_uploads_with_records upload (fun _ => True) (fun _ _ _ _ => I)
              h s I) as (_ & new & Hnew & Hmap & Hall).
  exists new. split; [exact Hnew|]. split; [|split; [exact Hmap|]].
  - rewrite <- Hmap. symmetry. apply List.length_map.
  - intros i r Hi. destruct (Hall i r Hi) as (hi & x & _ & Hx & Hrec).
    exists hi. unfold recorded_as in Hrec. split.
    + intros b m E. rewrite E in Hrec. congruence.
    + intros e E. rewrite E in Hrec. congruence.
Qed.

(** The same for the screen's own routine: [upload_file] lets no
    exception out, so each record is the pair it returned. *)
Lemma start_uploads_records json_loads (worlds : nat -> World)
    (h : Heap) (s : Screen) :
  exists new : list (ref * bool * string),
    results (snd (start_uploads json_loads worlds (h, s))) =
      (results s ++ new)%list /\
    List.map (fun x => fst (fst x)) new = upload_files s /\
    forall i r, upload_files s !! i = Some r ->
      exists hi,
        new !! i =
        Some (r, fst (snd (upload_file json_loads (worlds i) (config s) hi r)),
                 snd (snd (upload_file json_loads (worlds i) (config s) hi r))).
Proof.
  unfold start_uploads. cbn [config snd].
  match goal with
  | |- context [start_uploads_with ?u (h, s)] =>
      destruct (start_uploads_with_records u (fun _ => True)
                  (fun _ _ _ _ => I) h s I) as (_ & new & Hnew & Hmap & Hall)
  end.
  exists new. split; [exact Hnew|]. split; [exact Hmap|].
  intros i r Hi. destruct (Hall i r Hi) as (hi & x & _ & Hx & Hrec).
  exists hi. rewrite Hx. f_equal.
  destruct (upload_file json_loads (worlds i) (config s) hi r) as [h1 [b m]].
  exact Hrec.
Qed.

(** Every upload raising: three files, three failed records, in order. *)
Example all_uploads_fail :
  exists s, Screen_init report_fs report_heap [2; 0; 1]%nat anonymous_config = Ret s /\
    results (snd (start_uploads_with always_raising (report_heap, s))) =
    [ (2%nat, false, "Error: connection refused");
      (0%nat, false, "Error: connection refused");
      (1%nat, false, "Error: connection refused") ].
Proof. eexists. split; reflexivity. Qed.

(** *** Files that vanish *)

Lemma do_upload_heap json_loads w req h r :
  fst (do_upload json_loads w req h r) = h \/
  exists url, fst (do_upload json_loads w req h r) =
              heap_set h r (set_upload_url (h r) url).
Proof.
  unfold do_upload, extract_link. unfold_bind.
  repeat break_inner_match; simpl; eauto.
Qed.

Lemma upload_file_heap json_loads w c h r :
  fst (upload_file json_loads w c h r) = h \/
  exists url, fst (upload_file json_loads w c h r) =
              heap_set h r (set_upload_url (h r) url).
Proof.
  unfold upload_file.
  destruct (fs w (path (h r))) as [|e| |sz [content|e]|]; simpl; auto;
    try apply do_upload_heap.
  destruct e as [cls text]; destruct cls; simpl; auto.
Qed.

(** An upload changes no item's path. *)
Lemma upload_file_keeps_paths json_loads w c h r r' :
  path (fst (upload_file json_loads w c h r) r') = path (h r').
Proof.
  destruct (upload_file_heap json_loads w c h r) as [-> | [url ->]];
    [reflexivity|].
  unfold heap_set. destruct (Nat.eqb_spec r' r) as [-> |]; reflexivity.
Qed.

Lemma valid_for_upload_true fs0 f :
  valid_for_upload fs0 f = Ret true ->
  is_selected f = true /\ is_dir f = false /\
  node_exists (fs0 (path f)) = Ret true /\
  node_is_file (fs0 (path f)) = Ret true.
Proof.
  unfold valid_for_upload. unfold_bind.
  destruct (is_selected f), (is_dir f); simpl; try discriminate.
  destruct (node_exists (fs0 (path f))) as [[|]|]; simpl; try discriminate.
  destruct (node_is_file (fs0 (path f))) as [[|]|]; simpl; try discriminate.
  auto.
Qed.

Lemma queue_files_valid fs0 h files : forall queued r,
  queue_files fs0 h files = Ret queued ->
  In r queued ->
  In r files /\ valid_for_upload fs0 (h r) = Ret true.
Proof.
  induction files as [|x files IH]; intros queued r; simpl; unfold_bind.
  - intros [= <-] [].
  - destruct (valid_for_upload fs0 (h x)) as [keep|] eqn:Hk; try discriminate.
    destruct (queue_files fs0 h files) as [q|]; try discriminate.
    intros [= <-] Hin. destruct keep.
    + destruct Hin as [<- | Hin]; [auto|].
      destruct (IH q r eq_refl Hin). auto.
    + destruct (IH q r eq_refl Hin). auto.
Qed.

(** C4, as the code has it. A file that passed the checks of [__init__]
    (selected, not a directory, an existing regular file at that time) and
    whose path has no entry when its turn comes gets the failed record
    [File does not exist: <path>], and the run still yields one record
    per queued file. *)
Theorem vanished_after_queueing json_loads (worlds : nat -> World)
    (fs0 : Path -> fs_node) (h : Heap) (files : list ref) (c : UploadConfig)
    (s : Screen) (i : nat) (r : ref) :
  Screen_init fs0 h files c = Ret s ->
  upload_files s !! i = Some r ->
  fs (worlds i) (path (h r)) = NoEntry ->
  node_is_file (fs0 (path (h r))) = Ret true /\
  results (snd (start_uploads json_loads worlds (h, s))) !! i =
    Some (r, false, "File does not exist: " ++ path (h r)) /\
  List.length (results (snd (start_uploads json_loads worlds (h, s)))) =
    List.length (upload_files s).
Proof.
  intros Hinit Hi Hgone.
  unfold Screen_init in Hinit. unfold_bind.
  destruct (queue_files fs0 h files) as [queued|] eqn:Hq; try discriminate.
  injection Hinit as <-. simpl in Hi. simpl upload_files.
  split.
  - apply list_elem_of_lookup_2, list_elem_of_In in Hi.
    destruct (queue_files_valid _ _ _ _ _ Hq Hi) as [_ Hv].
    apply valid_for_upload_true in Hv. tauto.
  - unfold start_uploads. cbn [config snd].
    match goal with
    | |- context [start_uploads_with ?u (h, ?s0)] =>
        destruct (start_uploads_with_records u
                    (fun hk => forall r', path (hk r') = path (h r'))) with
          (h := h) (s := s0) as (_ & new & Hnew & Hmap & Hall)
    end.
    + intros k hk rk HP r'. simpl.
      destruct (upload_file json_loads (worlds k) c hk rk) as [h1 out] eqn:E.
      simpl. change h1 with (fst (h1, out)). rewrite <- E.
      rewrite upload_file_keeps_paths. apply HP.
    + reflexivity.
    + cbn [results upload_files app] in Hnew, Hmap, Hall.
      rewrite Hnew. split.
      * destruct (Hall i r Hi) as (hk & x & HP & Hx & Hrec).
        rewrite Hx. f_equal.
        destruct (upload_file json_loads (worlds i) c hk r) as [h1 out] eqn:E.
        rewrite upload_file_missing in E by (rewrite HP; exact Hgone).
        injection E as <- <-. simpl in Hrec. rewrite HP in Hrec. exact Hrec.
      * rewrite <- Hmap. symmetry. apply List.length_map.
Qed.

Lemma vanished_after_queueing_witness :
  node_is_file (report_fs (path (report_heap 0%nat))) = Ret true /\
  results (snd (start_uploads Json.loads (fun _ => vanished)
                  (report_heap, report_screen))) !! 0%nat =
    Some (0%nat, false, "File does not exist: /home/user/report.pdf") /\
  List.length
    (results (snd (start_uploads Json.loads (fun _ => vanished)
                     (report_heap, report_screen)))) = 1%nat.
Proof.
  apply (vanished_after_queueing Json.loads (fun _ => vanished) report_fs
           report_heap [0%nat] anonymous_config report_screen 0%nat 0%nat).
  - reflexivity.
  - reflexivity.
  - reflexivity.
Defined.

(** C4 as stated fails: a selected file that is already gone when the
    screen is constructed is dropped from the queue by [__init__], and the
    run leaves no record for it. *)
Lemma gone_before_queueing_leaves_no_record :
  ~ (forall json_loads (worlds : nat -> World) (fs0 : Path -> fs_node)
            (h : Heap) (files : list ref) (c : UploadConfig) (s : Screen)
            (r : ref),
       Screen_init fs0 h files c = Ret s ->
       In r files -> is_selected (h r) = true ->
       fs0 (path (h r)) = NoEntry ->
       exists message,
         In (r, false, message)
            (results (snd (start_uploads json_loads worlds (h, s))))).
Proof.
  intros H.
  destruct (H Json.loads (fun _ => vanished) empty_fs report_heap [0%nat]
              anonymous_config _ 0%nat eq_refl) as [m Hm].
  - left. reflexivity.
  - reflexivity.
  - reflexivity.
  - exact Hm.
Qed.

(** ** Selection *)

Section ToggleFacts.

Variable fs0 : Path -> fs_node.
Variable p : Path.
Variables (sz : Z) (content : result string).
Hypothesis p_is_file : fs0 p = RegularFile sz content.

Let at_p (f : FileItem) : bool := String.eqb (path f) p.
Let fresh_item : FileItem :=
  {| path := p; is_selected := true; is_dir := false; size := sz;
     name := path_name p; upload_url := None |}.

Lemma at_p_selected sel :
  existsb at_p sel = true <-> In p (selected_paths sel).
Proof.
  unfold selected_paths. rewrite existsb_exists, in_map_iff.
  split; intros (f & H1 & H2); exists f.
  - apply String.eqb_eq in H2. auto.
  - split; [exact H2|]. apply String.eqb_eq. exact H1.
Qed.

Lemma at_p_unselected sel :
  existsb at_p sel = false <-> ~ In p (selected_paths sel).
Proof.
  rewrite <- at_p_selected. destruct (existsb at_p sel); split; auto;
    try discriminate. intros H. exfalso. auto.
Qed.

Lemma drop_p_absent sel :
  existsb at_p sel = false ->
  List.filter (fun f => negb (at_p f)) sel = sel.
Proof.
  induction sel as [|f sel IH]; simpl; [reflexivity|].
  intros H. apply orb_false_iff in H as [Hf Hs].
  rewrite Hf. simpl. f_equal. apply IH, Hs.
Qed.

Lemma drop_p_clears sel :
  existsb at_p (List.filter (fun f => negb (at_p f)) sel) = false.
Proof.
  induction sel as [|f sel IH]; simpl; [reflexivity|].
  destruct (at_p f) eqn:Hf; simpl; [exact IH|]. rewrite Hf, IH. reflexivity.
Qed.

Lemma drop_p_paths sel :
  selected_paths (List.filter (fun f => negb (at_p f)) sel) =
  List.filter (fun q => negb (String.eqb q p)) (selected_paths sel).
Proof.
  unfold selected_paths.
  induction sel as [|f sel IH]; simpl; [reflexivity|].
  unfold at_p at 1. destruct (String.eqb (path f) p); simpl;
    rewrite IH; reflexivity.
Qed.

Lemma toggle_adds sel :
  existsb at_p sel = false ->
  toggle_select_file fs0 p sel = (sel ++ [fresh_item])%list.
Proof.
  intros H. unfold toggle_select_file, FileItem_init.
  rewrite p_is_file. simpl. fold at_p. rewrite H. reflexivity.
Qed.

Lemma toggle_removes sel :
  existsb at_p sel = true ->
  toggle_select_file fs0 p sel = List.filter (fun f => negb (at_p f)) sel.
Proof.
  intros H. unfold toggle_select_file.
  rewrite p_is_file. simpl. fold at_p. rewrite H. reflexivity.
Qed.

(** C5, as the code has it. For a path that is a regular file, toggling
    twice restores the membership of the selection; it restores the list
    itself when the path was not selected, and when it was selected the
    path ends up last, the others keeping their order. *)
Theorem toggle_twice (selected_files : list FileItem) :
  let twice :=
    toggle_select_file fs0 p (toggle_select_file fs0 p selected_files) in
  (forall q, In q (selected_paths twice) <-> In q (selected_paths selected_files)) /\
  (~ In p (selected_paths selected_files) -> twice = selected_files) /\
  (In p (selected_paths selected_files) ->
   selected_paths twice =
   (List.filter (fun q => negb (String.eqb q p)) (selected_paths selected_files)
    ++ [p])%list).
Proof.
  cbv zeta. destruct (existsb at_p selected_files) eqn:Hsel.
  - rewrite (toggle_removes _ Hsel), (toggle_adds _ (drop_p_clears _)).
    assert (Hpaths :
      selected_paths
        (List.filter (fun f => negb (at_p f)) selected_files ++ [fresh_item]) =
      (List.filter (fun q => negb (String.eqb q p))
         (selected_paths selected_files) ++ [p])%list).
    { rewrite <- drop_p_paths. unfold selected_paths. apply List.map_app. }
    rewrite Hpaths. split; [|split].
    + intros q. rewrite in_app_iff, filter_In. simpl.
      destruct (String.eqb_spec q p) as [-> | Hne]; simpl.
      * apply at_p_selected in Hsel. tauto.
      * split; [intros [[H _] | [H | []]]; [exact H | congruence]|].
        intros H. left. auto.
    + intros H. apply at_p_selected in Hsel. contradiction.
    + intros _. reflexivity.
  - rewrite (toggle_adds _ Hsel).
    assert (Hfresh : at_p fresh_item = true) by apply String.eqb_refl.
    assert (Hin : existsb at_p (selected_files ++ [fresh_item]) = true).
    { rewrite existsb_app. simpl. rewrite Hfresh.
      apply orb_true_iff. right. reflexivity. }
    rewrite (toggle_removes _ Hin), List.filter_app. simpl.
    rewrite Hfresh. simpl.
    rewrite app_nil_r, (drop_p_absent _ Hsel). split; [|split].
    + tauto.
    + reflexivity.
    + intros H. apply at_p_unselected in Hsel. contradiction.
Qed.

End ToggleFacts.

Lemma toggle_twice_witness :
  let twice :=
    toggle_select_file two_files_fs report_path
      (toggle_select_file two_files_fs report_path [report_item; notes_item]) in
  (forall q, In q (selected_paths twice) <->
             In q (selected_paths [report_item; notes_item])) /\
  (~ In report_path (selected_paths [report_item; notes_item]) ->
   twice = [report_item; notes_item]) /\
  (In report_path (selected_paths [report_item; notes_item]) ->
   selected_paths twice =
   (List.filter (fun q => negb (String.eqb q report_path))
      (selected_paths [report_item; notes_item]) ++ [report_path])%list).
Proof.
  apply (toggle_twice two_files_fs report_path 4 (Ret "%PDF")).
  reflexivity.
Defined.

(** C5 as stated fails on order: toggling a selected file twice moves it
    to the end of the selection. *)
Lemma toggle_twice_moves_selected_file_last :
  ~ (forall (fs0 : Path -> fs_node) (p : Path) (sz : Z) (content : result string)
            (selected_files : list FileItem),
       fs0 p = RegularFile sz content ->
       selected_paths
         (toggle_select_file fs0 p (toggle_select_file fs0 p selected_files)) =
       selected_paths selected_files).
Proof.
  intros H.
  specialize (H two_files_fs report_path 4 (Ret "%PDF")
                [report_item; notes_item] eq_refl).
  vm_compute in H. discriminate H.
Qed.

(** The two selections of the counterexample, spelled out. *)
Example toggle_twice_order :
  selected_paths [report_item; notes_item] = [report_path; notes_path] /\
  selected_paths
    (toggle_select_file two_files_fs report_path
       (toggle_select_file two_files_fs report_path [report_item; notes_item])) =
  [notes_path; report_path].
Proof. split; reflexivity. Qed.

(** * Further properties of the upload client *)

Section ClientOutcomes.

Variable json_loads : string -> result value.

Lemma prefix_append (a s : string) : String.prefix a (a ++ s) = true.
Proof.
  induction a as [|x a IH]; [destruct s; reflexivity|].
  rewrite append_cons. cbn [String.prefix].
  destruct (ascii_dec x x); [exact IH|contradiction].
Qed.

Lemma download_url_prefix file_id :
  String.prefix "https://buzzheavier.com/" (download_url file_id) = true.
Proof. apply prefix_append. Qed.

Lemma do_upload_outcome w req h r :
  (exists success message,
      do_upload json_loads w req h r = (h, (success, message))) \/
  (exists url,
      do_upload json_loads w req h r =
        (heap_set h r (set_upload_url (h r) url),
         (true, name (h r) ++ ": " ++ url)) /\
      String.prefix "https://buzzheavier.com/" url = true).
Proof.
  unfold do_upload, extract_link. unfold_bind.
  repeat break_inner_match; simpl;
    try (left; eexists; eexists; reflexivity).
  right. eexists. split; [reflexivity|]. apply download_url_prefix.
Qed.

Lemma upload_file_shape w c h r :
  (exists success message,
      upload_file json_loads w c h r = (h, (success, message))) \/
  (exists url,
      upload_file json_loads w c h r =
        (heap_set h r (set_upload_url (h r) url),
         (true, name (h r) ++ ": " ++ url)) /\
      String.prefix "https://buzzheavier.com/" url = true).
Proof.
  unfold upload_file.
  destruct (fs w (path (h r))) as [|e| |sz [content|e]|]; simpl;
    try (left; eexists; eexists; reflexivity).
  - apply do_upload_outcome.
  - destruct e as [cls text]; destruct cls; simpl; left; eexists; eexists;
      reflexivity.
Qed.

(** X1. An upload either leaves the store as it was, or it succeeded with
    the message [<name>: <url>] and wrote that link, which starts with
    [https://buzzheavier.com/], to the uploaded item only. A failed upload
    therefore never writes a link. *)
Theorem upload_file_outcome w c h r :
  (exists success message,
      upload_file json_loads w c h r = (h, (success, message))) \/
  (exists url,
      upload_file json_loads w c h r =
        (heap_set h r (set_upload_url (h r) url),
         (true, name (h r) ++ ": " ++ url)) /\
      String.prefix "https://buzzheavier.com/" url = true /\
      upload_url (fst (upload_file json_loads w c h r) r) = Some url /\
      forall r', r' <> r -> fst (upload_file json_loads w c h r) r' = h r').
Proof.
  destruct (upload_file_shape w c h r) as [H | (url & E & Hp)];
    [left; exact H|].
  right. exists url. rewrite E. simpl. split; [reflexivity|].
  split; [exact Hp|]. unfold heap_set. rewrite Nat.eqb_refl.
  split; [reflexivity|]. intros r' Hne.
  destruct (Nat.eqb_spec r' r); [contradiction|reflexivity].
Qed.

(** The wording of each refusal before any request. *)
Lemma upload_file_refusals w c h r :
  (fs w (path (h r)) = Directory \/ fs w (path (h r)) = OtherNode ->
   upload_file json_loads w c h r =
   (h, (false, "Not a valid file: " ++ path (h r)))) /\
  (forall sz e, fs w (path (h r)) = RegularFile sz (Raise e) ->
     is_os_error (exn_cls e) = true ->
     upload_file json_loads w c h r =
     (h, (false, "Cannot read file: " ++ exn_str e))) /\
  (forall e, fs w (path (h r)) = StatFails e ->
     upload_file json_loads w c h r = (h, (false, "Error: " ++ exn_str e))).
Proof.
  unfold upload_file. split; [|split].
  - intros [-> | ->]; reflexivity.
  - intros sz e -> He. destruct e as [cls text].
    destruct cls; try discriminate He; reflexivity.
  - intros e ->. reflexivity.
Qed.

(** X2. Unless the path is a regular file that can be read in full,
    [upload_file] fails without sending anything: the outcome is the same
    whatever the server and the decoder would do, the store is unchanged,
    and the message names the reason: [File does not exist], [Not a valid
    file], [Cannot read file] when the probe of the first block fails with
    an operating-system error, [Failed to read file] when the probe goes
    through and reading the whole file fails, or [Error] with the error
    text. *)
Theorem upload_file_sends_nothing_unreadable w c h r :
  (forall sz content, fs w (path (h r)) <> RegularFile sz (Ret content)) ->
  (forall json_loads' put',
     upload_file json_loads' {| fs := fs w; put := put' |} c h r =
     upload_file json_loads w c h r) /\
  exists message,
    upload_file json_loads w c h r = (h, (false, message)) /\
    (message = "File does not exist: " ++ path (h r) \/
     message = "Not a valid file: " ++ path (h r) \/
     String.prefix "Cannot read file: " message = true \/
     String.prefix "Failed to read file: " message = true \/
     String.prefix "Error: " message = true).
Proof.
  intros Hnot. unfold upload_file. simpl.
  destruct (fs w (path (h r))) as [|e| |sz [content|e]|] eqn:E; simpl.
  - split; [reflexivity|]. eexists. split; [reflexivity|].
    left. reflexivity.
  - split; [reflexivity|]. eexists. split; [reflexivity|].
    right. right. right. right. apply prefix_append.
  - split; [reflexivity|]. eexists. split; [reflexivity|].
    right. left. reflexivity.
  - exfalso. exact (Hnot sz content eq_refl).
  - split; [reflexivity|].
    destruct e as [cls text]; destruct cls; simpl; eexists;
      (split; [reflexivity|]); right; right;
      first [ left; apply prefix_append
            | right; left; apply prefix_append
            | right; right; apply prefix_append ].
  - split; [reflexivity|]. eexists. split; [reflexivity|].
    right. left. reflexivity.
Qed.

(** X3. When [requests.put] raises, the upload fails with
    [Upload request failed: <text>] and the store is unchanged. *)
Theorem upload_file_transport_error w c h r sz content e :
  fs w (path (h r)) = RegularFile sz (Ret content) ->
  put w (upload_request c (name (h r)) content) = Raise e ->
  upload_file json_loads w c h r =
  (h, (false, "Upload request failed: " ++ exn_str e)).
Proof.
  intros Hfs Hput. rewrite (upload_file_sends _ _ _ _ _ _ _ Hfs).
  apply do_upload_transport_error, Hput.
Qed.

(** X4. A 201 response whose body decodes to an object with an object
    under [data] that has an [id]: success, the message is
    [<name>: https://buzzheavier.com/<id>], that link is stored on the
    uploaded item and no other item changes. *)
Theorem upload_file_created_with_id w c h r sz content resp m d file_id :
  fs w (path (h r)) = RegularFile sz (Ret content) ->
  put w (upload_request c (name (h r)) content) = Ret resp ->
  status_code resp = 201 ->
  json_loads (text resp) = Ret (JObj m) ->
  dict_get "data" m = Some (JObj d) ->
  dict_get "id" d = Some file_id ->
  let link := "https://buzzheavier.com/" ++ Json.str file_id in
  snd (upload_file json_loads w c h r) = (true, name (h r) ++ ": " ++ link) /\
  upload_url (fst (upload_file json_loads w c h r) r) = Some link /\
  forall r', r' <> r -> fst (upload_file json_loads w c h r) r' = h r'.
Proof.
  intros Hfs Hput Hs Hv Hm Hd. rewrite (upload_file_sends _ _ _ _ _ _ _ Hfs).
  rewrite (do_upload_created_with_id _ _ _ _ _ _ _ _ _ Hput Hs Hv Hm Hd).
  cbv zeta. simpl. unfold heap_set. rewrite Nat.eqb_refl.
  split; [reflexivity|]. split; [reflexivity|]. intros r' Hne.
  destruct (Nat.eqb_spec r' r); [contradiction|reflexivity].
Qed.

(** X5. A 201 response takes the raw-text success path when the body is
    rejected with [JSONDecodeError], or decodes to an object without
    [data], or to one whose [data] is an object without [id]. *)
Theorem upload_file_created_without_id w c h r sz content resp :
  fs w (path (h r)) = RegularFile sz (Ret content) ->
  put w (upload_request c (name (h r)) content) = Ret resp ->
  status_code resp = 201 ->
  ((exists e, json_loads (text resp) = Raise e /\ exn_cls e = JSONDecodeError)
   \/ exists m, json_loads (text resp) = Ret (JObj m) /\
        (dict_get "data" m = None \/
         exists d, dict_get "data" m = Some (JObj d) /\
                   dict_get "id" d = None)) ->
  upload_file json_loads w c h r =
  (h, (true, raw_message (name (h r)) (text resp))).
Proof.
  intros Hfs Hput Hs Hj. rewrite (upload_file_sends _ _ _ _ _ _ _ Hfs).
  destruct Hj as [(e & He & Hc) | (m & Hm & Hcase)].
  - eapply do_upload_raw_on_decode_error; eauto.
  - eapply do_upload_raw_on_created_without_id; eauto.
Qed.

End ClientOutcomes.

Lemma upload_file_sends_nothing_unreadable_witness :
  (forall json_loads' put',
     upload_file json_loads' {| fs := fs out_of_memory; put := put' |}
                 anonymous_config report_heap 0%nat =
     upload_file Json.loads out_of_memory anonymous_config report_heap 0%nat) /\
  exists message,
    upload_file Json.loads out_of_memory anonymous_config report_heap 0%nat =
      (report_heap, (false, message)) /\
    (message = "File does not exist: " ++ path (report_heap 0%nat) \/
     message = "Not a valid file: " ++ path (report_heap 0%nat) \/
     String.prefix "Cannot read file: " message = true \/
     String.prefix "Failed to read file: " message = true \/
     String.prefix "Error: " message = true).
Proof.
  apply (upload_file_sends_nothing_unreadable Json.loads out_of_memory
           anonymous_config report_heap 0%nat).
  intros sz content. discriminate.
Defined.

(** The five refusals, one file each: gone, a directory, unreadable, too
    large for the memory, and behind a path that cannot be examined. *)
Example upload_file_refusal_messages :
  let at_report n : World :=
    {| fs := fun p => if String.eqb p report_path then n else NoEntry;
       put := put vanished |} in
  let message n :=
    snd (snd (upload_file Json.loads (at_report n) anonymous_config
                report_heap 0%nat)) in
  message NoEntry = "File does not exist: /home/user/report.pdf" /\
  message Directory = "Not a valid file: /home/user/report.pdf" /\
  message (RegularFile 4 (Raise (Exn PermissionError "Permission denied"))) =
    "Cannot read file: Permission denied" /\
  message (RegularFile (2 ^ 40) (Raise (Exn MemoryError "out of memory"))) =
    "Failed to read file: out of memory" /\
  message (StatFails (Exn PermissionError "Permission denied")) =
    "Error: Permission denied".
Proof. repeat split; reflexivity. Qed.

Lemma upload_file_transport_error_witness :
  upload_file Json.loads unreachable anonymous_config report_heap 0%nat =
  (report_heap, (false, "Upload request failed: connection refused")).
Proof.
  apply (upload_file_transport_error Json.loads unreachable anonymous_config
           report_heap 0%nat 4 "%PDF"
           (Exn RequestException "connection refused")).
  - reflexivity.
  - reflexivity.
Defined.

Lemma upload_file_created_with_id_witness :
  let link := "https://buzzheavier.com/" ++ Json.str (JStr "xyz9") in
  snd (upload_file Json.loads (answering 201 body_with_id) anonymous_config
         report_heap 0%nat) = (true, "report.pdf" ++ ": " ++ link) /\
  upload_url (fst (upload_file Json.loads (answering 201 body_with_id)
                     anonymous_config report_heap 0%nat) 0%nat) = Some link /\
  forall r', r' <> 0%nat ->
    fst (upload_file Json.loads (answering 201 body_with_id) anonymous_config
           report_heap 0%nat) r' = report_heap r'.
Proof.
  apply (upload_file_created_with_id Json.loads (answering 201 body_with_id)
           anonymous_config report_heap 0%nat 4 "%PDF"
           {| status_code := 201; text := body_with_id |}
           [("data", JObj [("id", JStr "xyz9")])] [("id", JStr "xyz9")]
           (JStr "xyz9")).
  - reflexivity.
  - reflexivity.
  - reflexivity.
  - reflexivity.
  - reflexivity.
  - reflexivity.
Defined.

Lemma upload_file_created_without_id_witness :
  upload_file Json.loads (answering 201 "{}") anonymous_config
              report_heap 0%nat =
  (report_heap, (true, "{}")).
Proof.
  apply (upload_file_created_without_id Json.loads (answering 201 "{}")
           anonymous_config report_heap 0%nat 4 "%PDF"
           {| status_code := 201; text := "{}" |}).
  - reflexivity.
  - reflexivity.
  - reflexivity.
  - right. exists []. split; [reflexivity|]. left. reflexivity.
Defined.

(** * Further properties of the configuration *)

(** X6. The [Authorization] header is sent exactly when [api_key] is a
    non-empty string, as [Bearer <key>], and it is the only header. An
    authenticated configuration always sends it; a key of blanks is sent
    too, although [is_authenticated] is false for it. *)
Theorem authorization_header (c : UploadConfig) :
  (forall v, upload_headers c !! "Authorization" = Some v <->
             exists k, api_key c = Some k /\ k <> "" /\ v = "Bearer " ++ k) /\
  (forall k, k <> "Authorization" -> upload_headers c !! k = None) /\
  (is_authenticated c = true ->
   exists k, api_key c = Some k /\
             upload_headers c !! "Authorization" = Some ("Bearer " ++ k)) /\
  (is_authenticated blank_key_config = false /\
   upload_headers blank_key_config !! "Authorization" = Some "Bearer   ").
Proof.
  unfold upload_headers, is_authenticated.
  split; [|split; [|split]].
  - intros v. destruct (api_key c) as [k|].
    + destruct (String.eqb_spec k "") as [-> | Hne].
      * simpl. rewrite lookup_empty. split; [discriminate|].
        intros (k & [= <-] & Hk & _). contradiction.
      * rewrite (truthy_nonempty _ Hne), lookup_singleton_eq. split.
        -- intros [= <-]. exists k. auto.
        -- intros (k' & [= <-] & _ & ->). reflexivity.
    + rewrite lookup_empty. split; [discriminate|].
      intros (k & Hk & _). discriminate.
  - intros k Hk. destruct (api_key c) as [key|]; [destruct (truthy key)|];
      rewrite ?lookup_empty; try reflexivity.
    apply lookup_singleton_ne. congruence.
  - destruct (api_key c) as [k|]; [|discriminate].
    destruct (truthy k); [|discriminate]. intros _. exists k.
    split; [reflexivity|]. apply lookup_singleton_eq.
  - split; reflexivity.
Qed.

(** X7. Only the API key outlives the configuration object: a
    configuration initialised from the environment left by a save has the
    saved key when that key is non-empty and otherwise whatever key the
    environment held before the save; parent id, location id and note are
    not carried over. *)
Theorem save_then_init (i : SettingsInputs) (c : UploadConfig)
    (environ : gmap string string) :
  let c' := UploadConfig_init (snd (action_save i c environ)) in
  api_key c' = (if String.eqb (api_key_input i) "" then environ !! ENV_API_KEY
                else Some (api_key_input i)) /\
  parent_id c' = None /\ location_id c' = None /\ note c' = None /\
  base_url c' = base_url (UploadConfig_init environ).
Proof.
  cbv zeta. unfold action_save, UploadConfig_init. simpl. unfold truthy.
  destruct (String.eqb (api_key_input i) ""); simpl.
  - repeat split; reflexivity.
  - rewrite lookup_insert_eq. repeat split; reflexivity.
Qed.

(** * Further properties of the progress screen *)

(** X8. When no [stat] call fails, [__init__] queues exactly the received
    files that are selected, are not directory items and are regular
    files at that moment, in the order received. *)
Theorem queue_files_is_a_filter (fs0 : Path -> fs_node) (h : Heap)
    (files : list ref) :
  (forall r e, In r files -> fs0 (path (h r)) <> StatFails e) ->
  queue_files fs0 h files =
  Ret (List.filter
         (fun r => is_selected (h r) && negb (is_dir (h r))
                   && is_regular (fs0 (path (h r))))
         files).
Proof.
  induction files as [|r files IH]; intros Hst; [reflexivity|].
  cbn [queue_files List.filter]. unfold_bind.
  rewrite IH by (intros r' e Hr'; apply Hst; right; exact Hr').
  unfold valid_for_upload. unfold_bind.
  destruct (is_selected (h r)), (is_dir (h r)); simpl; try reflexivity.
  destruct (fs0 (path (h r))) as [|e| | |] eqn:E; simpl; try reflexivity.
  exfalso. apply (Hst r e); [left; reflexivity|exact E].
Qed.

Lemma queue_files_is_a_filter_witness :
  queue_files report_fs report_heap [3; 1; 2]%nat =
  Ret (List.filter
         (fun r => is_selected (report_heap r) && negb (is_dir (report_heap r))
                   && is_regular (report_fs (path (report_heap r))))
         [3; 1; 2]%nat).
Proof.
  apply (queue_files_is_a_filter report_fs report_heap [3; 1; 2]%nat).
  intros r e _. discriminate.
Defined.

Section ScreenFacts.

Variable upload : nat -> Heap -> ref -> Heap * result (bool * string).

Lemma upload_step_widgets total i r h s :
  let s' := snd (upload_step upload total i r (h, s)) in
  posted s' = posted s /\ close_disabled s' = close_disabled s /\
  copy_disabled s' = copy_disabled s /\
  current_index s' = (i + 1)%nat /\
  progress_line s' = progress_text (i + 1) total /\
  exists x row,
    results s' = (results s ++ [x])%list /\
    table_rows s' = (table_rows s ++ [row])%list /\
    outcome_of row = outcome_of x /\
    fst (fst row) = name (fst (upload i h r) r).
Proof.
  unfold upload_step.
  destruct (upload i h r) as [h1 [[b m] | e]]; simpl;
    repeat split; eexists; eexists; repeat split.
Qed.

Lemma upload_loop_widgets total queue : forall i h s,
  let s' := snd (upload_loop upload total i queue (h, s)) in
  posted s' = posted s /\ close_disabled s' = close_disabled s /\
  copy_disabled s' = copy_disabled s /\
  (queue <> [] ->
   current_index s' = (i + List.length queue)%nat /\
   progress_line s' = progress_text (i + List.length queue) total) /\
  exists new rows,
    results s' = (results s ++ new)%list /\
    table_rows s' = (table_rows s ++ rows)%list /\
    List.map outcome_of rows = List.map outcome_of new /\
    List.length new = List.length queue.
Proof.
  induction queue as [|r rest IH]; intros i h s; cbv zeta;
    cbn [upload_loop].
  - simpl. split; [reflexivity|]. split; [reflexivity|].
    split; [reflexivity|]. split; [congruence|].
    exists [], []. rewrite !app_nil_r. auto.
  - pose proof (upload_step_widgets total i r h s) as Hstep.
    destruct (upload_step upload total i r (h, s)) as [h1 s1].
    cbv zeta in Hstep. simpl in Hstep.
    destruct Hstep as (Hp & Hc & Hy & Hi & Hl & x & row & Hx & Hrow & Ho & _).
    specialize (IH (S i) h1 s1). cbv zeta in IH.
    destruct IH as (Hp' & Hc' & Hy' & Hidx & new & rows & Hn & Hr & Hm & Hlen).
    split; [congruence|]. split; [congruence|]. split; [congruence|]. split.
    + intros _. destruct rest as [|r2 rest'].
      * simpl. rewrite Hi, Hl. auto.
      * destruct Hidx as [H1 H2]; [discriminate|].
        rewrite H1, H2. simpl. rewrite !Nat.add_succ_r. auto.
    + exists (x :: new), (row :: rows).
      rewrite Hn, Hr, Hx, Hrow, <- !app_assoc. simpl.
      rewrite Ho, Hm, Hlen. auto.
Qed.

Lemma filter_all_length {A} (f : A -> bool) (l : list A) :
  List.length (List.filter f l) = List.length l <-> forallb f l = true.
Proof.
  induction l as [|a l IH]; simpl; [tauto|].
  pose proof (List.filter_length_le f l) as Hle.
  destruct (f a); simpl.
  - rewrite <- IH. split; intros H; lia.
  - split; [intros H; lia|discriminate].
Qed.

Lemma filter_none_length {A} (f : A -> bool) (l : list A) :
  List.length (List.filter f l) = 0%nat <-> existsb f l = false.
Proof.
  induction l as [|a l IH]; simpl; [tauto|].
  destruct (f a); simpl; [split; discriminate|exact IH].
Qed.

(** X9. A run over a non-empty queue on a fresh screen posts exactly one
    completion message. Its success flag is set exactly when every record
    of the run succeeded, and it counts the successes out of the queue
    length; the Copy button is enabled exactly when some record
    succeeded; the Close button is enabled again; the progress line ends
    at [N / N]. *)
Theorem start_uploads_completion (h : Heap) (s : Screen) :
  results s = [] ->
  upload_files s <> [] ->
  let s' := snd (start_uploads_with upload (h, s)) in
  let n := List.length (upload_files s) in
  let ok := success_count (results s') in
  posted s' =
    (posted s ++
     [{| complete_success := forallb (fun x => snd (fst x)) (results s');
         complete_message :=
           "Successfully uploaded " ++ str_of_int (Z.of_nat ok) ++ " of "
           ++ str_of_int (Z.of_nat n) ++ " files" |}])%list /\
  (ok <= n)%nat /\
  copy_disabled s' = negb (existsb (fun x => snd (fst x)) (results s')) /\
  close_disabled s' = false /\
  status_line s' = "Upload process complete" /\
  current_index s' = n /\
  progress_line s' = progress_text n n.
Proof.
  intros Hfresh Hne. cbv zeta. unfold start_uploads_with.
  destruct (Nat.eqb_spec (List.length (upload_files s)) 0) as [Hz | Hnz].
  { destruct (upload_files s); [contradiction|discriminate]. }
  match goal with
  | |- context [upload_loop upload ?t 0%nat ?q (h, ?s0)] =>
      pose proof (upload_loop_widgets t q 0%nat h s0) as H;
      destruct (upload_loop upload t 0%nat q (h, s0)) as [h1 s1]
  end.
  cbv zeta in H. simpl in H. rewrite Hfresh in H.
  destruct H as (Hp & _ & _ & Hidx & new & rows & Hn & _ & _ & Hlen).
  destruct (Hidx Hne) as [Hi Hl]. simpl in Hn. simpl.
  assert (Hcount : (success_count (results s1) <= List.length (upload_files s))%nat).
  { unfold success_count. rewrite Hn, <- Hlen. apply List.filter_length_le. }
  assert (Hflag :
    Nat.eqb (success_count (results s1)) (List.length (upload_files s)) =
    forallb (fun x => snd (fst x)) (results s1)).
  { destruct (forallb (fun x => snd (fst x)) (results s1)) eqn:Hall.
    - apply Nat.eqb_eq. rewrite <- Hlen, <- Hn.
      apply filter_all_length, Hall.
    - apply Nat.eqb_neq. intros Heq.
      rewrite <- Hlen, <- Hn in Heq.
      apply filter_all_length in Heq. congruence. }
  split; [|split; [exact Hcount|split; [|split; [reflexivity|split;
    [reflexivity|split; [exact Hi|exact Hl]]]]]].
  - rewrite Hp, Hflag. reflexivity.
  - unfold success_count.
    destruct (existsb (fun x => snd (fst x)) (results s1)) eqn:Hex; simpl.
    + apply Nat.eqb_neq. intros Heq. apply filter_none_length in Heq.
      congruence.
    + apply Nat.eqb_eq, filter_none_length, Hex.
Qed.

(** X10. The results table mirrors the results list: when the rows and
    the records agree in success flag and message before a run, they
    still do after it, one row per record. *)
Theorem table_rows_mirror_results (h : Heap) (s : Screen) :
  List.map outcome_of (table_rows s) = List.map outcome_of (results s) ->
  let s' := snd (start_uploads_with upload (h, s)) in
  List.map outcome_of (table_rows s') = List.map outcome_of (results s') /\
  List.length (table_rows s') = List.length (results s').
Proof.
  intros Hal. cbv zeta.
  assert (Hmain : List.map outcome_of
                    (table_rows (snd (start_uploads_with upload (h, s)))) =
                  List.map outcome_of
                    (results (snd (start_uploads_with upload (h, s))))).
  { unfold start_uploads_with.
    destruct (Nat.eqb (List.length (upload_files s)) 0); [exact Hal|].
    match goal with
    | |- context [upload_loop upload ?t 0%nat ?q (h, ?s0)] =>
        pose proof (upload_loop_widgets t q 0%nat h s0) as H;
        destruct (upload_loop upload t 0%nat q (h, s0)) as [h1 s1]
    end.
    cbv zeta in H. simpl in H.
    destruct H as (_ & _ & _ & _ & new & rows & Hn & Hr & Hm & _).
    simpl. rewrite Hn, Hr, !List.map_app, Hal, Hm. reflexivity. }
  split; [exact Hmain|].
  apply (f_equal (@List.length _)) in Hmain.
  rewrite !List.length_map in Hmain. exact Hmain.
Qed.

End ScreenFacts.

Lemma start_uploads_completion_witness :
  let s' := snd (start_uploads_with always_raising (report_heap, report_screen)) in
  let n := List.length (upload_files report_screen) in
  let ok := success_count (results s') in
  posted s' =
    (posted report_screen ++
     [{| complete_success := forallb (fun x => snd (fst x)) (results s');
         complete_message :=
           "Successfully uploaded " ++ str_of_int (Z.of_nat ok) ++ " of "
           ++ str_of_int (Z.of_nat n) ++ " files" |}])%list /\
  (ok <= n)%nat /\
  copy_disabled s' = negb (existsb (fun x => snd (fst x)) (results s')) /\
  close_disabled s' = false /\
  status_line s' = "Upload process complete" /\
  current_index s' = n /\
  progress_line s' = progress_text n n.
Proof.
  apply (start_uploads_completion always_raising report_heap report_screen).
  - reflexivity.
  - discriminate.
Defined.

(** The same run, spelled out. *)
Example failed_run_summary :
  posted (snd (start_uploads_with always_raising (report_heap, report_screen))) =
  [{| complete_success := false;
      complete_message := "Successfully uploaded 0 of 1 files" |}].
Proof. reflexivity. Qed.

Lemma table_rows_mirror_results_witness :
  let s' := snd (start_uploads_with always_raising (report_heap, report_screen)) in
  List.map outcome_of (table_rows s') = List.map outcome_of (results s') /\
  List.length (table_rows s') = List.length (results s').
Proof.
  apply (table_rows_mirror_results always_raising report_heap report_screen).
  reflexivity.
Defined.

Lemma queue_files_none_valid (fs0 : Path -> fs_node) (h : Heap) (files : list ref) :
  (forall r, In r files -> valid_for_upload fs0 (h r) = Ret false) ->
  queue_files fs0 h files = Ret [].
Proof.
  induction files as [|r files IH]; intros H; [reflexivity|].
  cbn [queue_files]. unfold_bind.
  rewrite (H r) by (left; reflexivity).
  rewrite IH by (intros r' Hr'; apply H; right; exact Hr').
  reflexivity.
Qed.

(** X11. When none of the received files passes the checks of
    [__init__], the run uploads nothing: the store is untouched, there
    are no records, no table rows and no completion message, the status
    reads [No files selected for upload], and the Close button is
    enabled. *)
Theorem nothing_valid_nothing_uploaded
    (upload : nat -> Heap -> ref -> Heap * result (bool * string))
    (fs0 : Path -> fs_node) (h : Heap) (files : list ref) (c : UploadConfig)
    (s : Screen) :
  Screen_init fs0 h files c = Ret s ->
  (forall r, In r files -> valid_for_upload fs0 (h r) = Ret false) ->
  let st' := start_uploads_with upload (h, s) in
  fst st' = h /\ results (snd st') = [] /\ table_rows (snd st') = [] /\
  posted (snd st') = [] /\
  status_line (snd st') = "No files selected for upload" /\
  progress_line (snd st') = "0 / 0" /\
  close_disabled (snd st') = false.
Proof.
  intros Hinit Hnone. unfold Screen_init in Hinit. unfold_bind.
  rewrite (queue_files_none_valid _ _ _ Hnone) in Hinit.
  injection Hinit as <-. cbv zeta. repeat split.
Qed.

Lemma nothing_valid_nothing_uploaded_witness :
  let st' :=
    start_uploads_with always_raising
      (report_heap,
       {| upload_files := []; config := anonymous_config; current_index := 0;
          results := []; status_line := "Preparing to upload...";
          progress_line := "0 / 0"; table_rows := [];
          close_disabled := false; copy_disabled := true; posted := [] |}) in
  fst st' = report_heap /\ results (snd st') = [] /\
  table_rows (snd st') = [] /\ posted (snd st') = [] /\
  status_line (snd st') = "No files selected for upload" /\
  progress_line (snd st') = "0 / 0" /\
  close_disabled (snd st') = false.
Proof.
  apply (nothing_valid_nothing_uploaded always_raising empty_fs report_heap
           [0; 1]%nat anonymous_config).
  - reflexivity.
  - intros r _. reflexivity.
Defined.

(** * Further properties of the clipboard export *)

Lemma clipboard_lines_need_success (h : Heap) (rs : list (ref * bool * string)) :
  clipboard_lines h rs <> [] -> existsb (fun x => snd (fst x)) rs = true.
Proof.
  induction rs as [|[[r b] m] rs IH]; simpl; [congruence|].
  destruct b; simpl; [reflexivity|].
  destruct (upload_url (h r)); simpl; exact IH.
Qed.

Lemma start_uploads_copy_button
    (upload : nat -> Heap -> ref -> Heap * result (bool * string))
    (h : Heap) (s : Screen) :
  upload_files s <> [] ->
  copy_disabled (snd (start_uploads_with upload (h, s))) =
  Nat.eqb (success_count (results (snd (start_uploads_with upload (h, s))))) 0.
Proof.
  intros Hne. unfold start_uploads_with.
  destruct (Nat.eqb_spec (List.length (upload_files s)) 0) as [Hz | Hnz].
  { destruct (upload_files s); [contradiction|discriminate]. }
  destruct (upload_loop upload _ 0%nat (upload_files s) _) as [h1 s1].
  reflexivity.
Qed.

(** X12. After a run on a fresh screen, whenever there is anything to
    copy, for whatever state of the store, the Copy button is enabled;
    records of failed uploads never contribute a line. *)
Theorem clipboard_needs_enabled_button
    (upload : nat -> Heap -> ref -> Heap * result (bool * string))
    (h hx : Heap) (s : Screen) :
  results s = [] ->
  let s' := snd (start_uploads_with upload (h, s)) in
  (clipboard_text hx (results s') <> None -> copy_disabled s' = false) /\
  clipboard_lines hx
    (List.filter (fun x => negb (snd (fst x))) (results s')) = [].
Proof.
  intros Hfresh. cbv zeta. split.
  - intros Hclip.
    assert (Hlines : clipboard_lines hx
              (results (snd (start_uploads_with upload (h, s)))) <> []).
    { intros E. apply Hclip. unfold clipboard_text. rewrite E. reflexivity. }
    apply clipboard_lines_need_success in Hlines.
    destruct (upload_files s) as [|r q] eqn:Hq.
    + exfalso. unfold start_uploads_with in Hlines. rewrite Hq in Hlines.
      simpl in Hlines. rewrite Hfresh in Hlines. discriminate.
    + rewrite start_uploads_copy_button by (rewrite Hq; discriminate).
      apply Nat.eqb_neq. intros Hz. unfold success_count in Hz.
      apply filter_none_length in Hz. congruence.
  - generalize (results (snd (start_uploads_with upload (h, s)))).
    intros rs. induction rs as [|[[r b] m] rs IH]; [reflexivity|].
    simpl. destruct b; simpl; [exact IH|].
    destruct (upload_url (hx r)); exact IH.
Qed.

Lemma clipboard_needs_enabled_button_witness :
  let s' := snd (start_uploads_with always_raising (report_heap, report_screen)) in
  (clipboard_text report_heap (results s') <> None -> copy_disabled s' = false) /\
  clipboard_lines report_heap
    (List.filter (fun x => negb (snd (fst x))) (results s')) = [].
Proof.
  apply (clipboard_needs_enabled_button always_raising report_heap report_heap
           report_screen).
  reflexivity.
Defined.

(** X13. For an item that carried no link before its upload, what the
    clipboard export gives for its record right after the upload is
    either the very message shown in its row, when a link was extracted,
    or nothing. *)
Theorem clipboard_line_is_row_message json_loads (w : World)
    (c : UploadConfig) (h : Heap) (r : ref) :
  upload_url (h r) = None ->
  let '(h', (success, message)) := upload_file json_loads w c h r in
  (h' = h /\ clipboard_lines h' [(r, success, message)] = []) \/
  (success = true /\ clipboard_lines h' [(r, success, message)] = [message]).
Proof.
  intros Hnone.
  destruct (upload_file_shape json_loads w c h r)
    as [(b & m & E) | (url & E & Hp)]; rewrite E.
  - left. split; [reflexivity|]. simpl. rewrite Hnone. reflexivity.
  - right. split; [reflexivity|]. simpl. unfold heap_set.
    rewrite Nat.eqb_refl. simpl.
    destruct url as [|x url]; [discriminate Hp|]. reflexivity.
Qed.

Lemma clipboard_line_is_row_message_witness :
  let '(h', (success, message)) :=
    upload_file Json.loads (answering 201 body_with_id) anonymous_config
                report_heap 0%nat in
  (h' = report_heap /\ clipboard_lines h' [(0%nat, success, message)] = []) \/
  (success = true /\
   clipboard_lines h' [(0%nat, success, message)] = [message]).
Proof.
  apply (clipboard_line_is_row_message Json.loads (answering 201 body_with_id)
           anonymous_config report_heap 0%nat).
  reflexivity.
Defined.

(** A success on the raw-text path enables the Copy button although
    there is nothing to copy. *)
Example copy_enabled_with_nothing_to_copy :
  let '(h', s') :=
    start_uploads Json.loads (fun _ => answering 200 "stored")
                  (report_heap, report_screen) in
  results s' = [(0%nat, true, "stored")] /\
  copy_disabled s' = false /\
  clipboard_text h' (results s') = None.
Proof. repeat split; reflexivity. Qed.

(** * Further properties of the model and of the selection *)

(** X14. Unless [stat] fails on the path, the constructor returns an
    item: it is a directory item exactly for a directory, its size is
    [st_size] for a regular file and 0 otherwise, it is selected exactly
    when selection was asked for and it is not a directory, and it carries
    no link. *)
Theorem FileItem_init_by_kind (fs0 : Path -> fs_node) (p : Path)
    (selected : bool) :
  (forall e, fs0 p <> StatFails e) ->
  exists f,
    FileItem_init fs0 p selected = Ret f /\
    path f = p /\ name f = path_name p /\ upload_url f = None /\
    is_dir f = (match fs0 p with Directory => true | _ => false end) /\
    size f = (match fs0 p with RegularFile sz _ => sz | _ => 0 end) /\
    is_selected f = selected && negb (is_dir f).
Proof.
  intros Hst. unfold FileItem_init.
  destruct (fs0 p) as [|e| |sz content|] eqn:E; simpl;
    try (eexists; split; [reflexivity|]; simpl;
         repeat split; try reflexivity;
         destruct selected; reflexivity).
  exfalso. exact (Hst e eq_refl).
Qed.

Lemma FileItem_init_by_kind_witness :
  exists f,
    FileItem_init report_fs report_path true = Ret f /\
    path f = report_path /\ name f = path_name report_path /\
    upload_url f = None /\
    is_dir f = (match report_fs report_path with
                | Directory => true
                | _ => false
                end) /\
    size f = (match report_fs report_path with
              | RegularFile sz _ => sz
              | _ => 0
              end) /\
    is_selected f = true && negb (is_dir f).
Proof.
  apply (FileItem_init_by_kind report_fs report_path true).
  intros e. discriminate.
Defined.

(** X15. Toggling a path that is a directory, that has no entry, or on
    which [stat] fails leaves the selection as it is. *)
Theorem toggle_ignores_non_files (fs0 : Path -> fs_node) (p : Path)
    (selected_files : list FileItem) :
  (fs0 p = Directory \/ fs0 p = NoEntry \/ exists e, fs0 p = StatFails e) ->
  toggle_select_file fs0 p selected_files = selected_files.
Proof.
  intros [H | [H | [e H]]]; unfold toggle_select_file; rewrite H; reflexivity.
Qed.

Lemma toggle_ignores_non_files_witness :
  toggle_select_file empty_fs report_path [notes_item] = [notes_item].
Proof.
  apply (toggle_ignores_non_files empty_fs report_path [notes_item]).
  right. left. reflexivity.
Defined.

Lemma NoDup_map_filter {A B} (f : A -> B) (g : A -> bool) (l : list A) :
  NoDup (List.map f l) -> NoDup (List.map f (List.filter g l)).
Proof.
  induction l as [|a l IH]; simpl; [auto|].
  intros H. inversion H as [|? ? Hnot Hnd]; subst.
  destruct (g a); simpl; [|apply IH, Hnd].
  constructor; [|apply IH, Hnd].
  intros Hin. apply Hnot. apply list_elem_of_In in Hin.
  apply list_elem_of_In.
  apply in_map_iff in Hin as (x & Hx & Hin). apply in_map_iff.
  exists x. split; [exact Hx|]. apply filter_In in Hin. tauto.
Qed.

Lemma NoDup_snoc {A} (l : list A) (a : A) :
  NoDup l -> ~ In a l -> NoDup (l ++ [a]).
Proof.
  intros Hl Ha. apply NoDup_app. split; [exact Hl|]. split.
  - intros x Hx Hxa. apply list_elem_of_In in Hx.
    apply list_elem_of_In in Hxa. destruct Hxa as [<- | []]. contradiction.
  - apply NoDup_singleton.
Qed.

(** X16. Toggling keeps the selection well formed, whatever the path and
    the file system: if every entry is a selected non-directory item and
    no path occurs twice, the same holds afterwards. *)
Theorem toggle_keeps_selection_well_formed (fs0 : Path -> fs_node) (p : Path)
    (selected_files : list FileItem) :
  List.Forall (fun f => is_selected f = true /\ is_dir f = false)
              selected_files ->
  NoDup (selected_paths selected_files) ->
  List.Forall (fun f => is_selected f = true /\ is_dir f = false)
              (toggle_select_file fs0 p selected_files) /\
  NoDup (selected_paths (toggle_select_file fs0 p selected_files)).
Proof.
  intros Hall Hnd.
  assert (Hdrop :
    List.Forall (fun f => is_selected f = true /\ is_dir f = false)
      (List.filter (fun f => negb (String.eqb (path f) p)) selected_files) /\
    NoDup (selected_paths
             (List.filter (fun f => negb (String.eqb (path f) p))
                          selected_files))).
  { split; [|apply NoDup_map_filter, Hnd].
    apply List.Forall_forall. intros f Hf. apply filter_In in Hf as [Hf _].
    revert f Hf. apply List.Forall_forall, Hall. }
  assert (Hadd : forall f,
    path f = p -> is_selected f = true -> is_dir f = false ->
    existsb (fun g => String.eqb (path g) p) selected_files = false ->
    List.Forall (fun g => is_selected g = true /\ is_dir g = false)
      (selected_files ++ [f]) /\
    NoDup (selected_paths (selected_files ++ [f]))).
  { intros f Hp Hs Hd Hex. split.
    - apply List.Forall_app. split; [exact Hall|]. constructor; auto.
    - unfold selected_paths. rewrite List.map_app. simpl.
      apply NoDup_snoc; [exact Hnd|]. rewrite Hp. intros Hin.
      apply in_map_iff in Hin as (g & Hg & Hin).
      assert (existsb (fun g => String.eqb (path g) p) selected_files = true).
      { apply existsb_exists. exists g. split; [exact Hin|].
        apply String.eqb_eq, Hg. }
      congruence. }
  unfold toggle_select_file, FileItem_init.
  destruct (fs0 p) as [|e| |sz content|]; simpl; auto;
    destruct (existsb (fun f => String.eqb (path f) p) selected_files) eqn:Hex;
    auto; apply Hadd; auto.
Qed.

Lemma toggle_keeps_selection_well_formed_witness :
  List.Forall (fun f => is_selected f = true /\ is_dir f = false)
              (toggle_select_file two_files_fs report_path [notes_item]) /\
  NoDup (selected_paths (toggle_select_file two_files_fs report_path [notes_item])).
Proof.
  apply (toggle_keeps_selection_well_formed two_files_fs report_path [notes_item]).
  - constructor; [split; reflexivity|constructor].
  - apply NoDup_singleton.
Defined.

(** * Properties of the file table *)

(** ** Sizes *)

Lemma format_1f_integer (n : Z) :
  0 <= n -> format_1f n 1 = str_of_int n ++ ".0".
Proof.
  intros Hn. unfold format_1f, round_half_even.
  rewrite Z.mod_1_r, Z.div_1_r. change (2 * 0 <? 1) with true.
  cbv beta iota zeta.
  rewrite (Z.mul_comm 10 n), Z.div_mul, Z.mod_mul by lia. reflexivity.
Qed.

(** X17. [get_size_str] is [DIR] for a directory item. For a file of a
    size that floats hold exactly it shows the size over the largest power
    of 1024 not above it, up to the fifth (bytes up to 1023 as [<n>.0 B],
    then KB, MB, GB, TB, and PB for everything from [1024^5] on), with
    one decimal. *)
Theorem get_size_str_unit (f : FileItem) :
  (is_dir f = true -> get_size_str f = "DIR") /\
  (is_dir f = false -> 0 <= size f < 2 ^ 53 ->
   (size f < 1024 -> get_size_str f = str_of_int (size f) ++ ".0 B") /\
   (forall k unit, size_units !! k = Some unit ->
      1024 ^ Z.of_nat k <= size f < 1024 ^ (Z.of_nat k + 1) ->
      get_size_str f = format_1f (size f) (1024 ^ Z.of_nat k) ++ " " ++ unit) /\
   (1024 ^ 5 <= size f ->
    get_size_str f = format_1f (size f) (1024 ^ 5) ++ " PB")).
Proof.
  split; [intros Hd; unfold get_size_str; rewrite Hd; reflexivity|].
  intros Hd [Hlo Hhi]. unfold get_size_str. rewrite Hd.
  assert (Hunits : forall k unit, size_units !! k = Some unit ->
            1024 ^ Z.of_nat k <= size f < 1024 ^ (Z.of_nat k + 1) ->
            size_in_units size_units (size f) 1 =
            Some (format_1f (size f) (1024 ^ Z.of_nat k) ++ " " ++ unit)).
  { intros k unit Hk [H1 H2].
    do 5 (destruct k as [|k];
          [injection Hk as <-; cbn [size_in_units size_units];
           simpl in H1, H2;
           repeat match goal with
                  | |- context [?a <? ?b] =>
                      first [ destruct (Z.ltb_spec a b); [|lia]
                            | destruct (Z.ltb_spec a b); [lia|] ]
                  end; reflexivity|]).
    discriminate. }
  split; [|split].
  - intros Hsmall. cbn [size_in_units size_units].
    destruct (Z.ltb_spec (size f) (1024 * 1)); [|lia].
    rewrite format_1f_integer by lia. rewrite append_assoc. reflexivity.
  - intros k unit Hk Hrange. rewrite (Hunits k unit Hk Hrange). reflexivity.
  - intros Hbig. cbn [size_in_units size_units].
    repeat match goal with
           | |- context [?a <? ?b] => destruct (Z.ltb_spec a b); [lia|]
           end.
    reflexivity.
Qed.

(** Ties go to the even tenth, and a size just below a power of 1024
    shows as 1024.0 of the smaller unit. *)
Example get_size_str_rounding :
  List.map (fun sz => get_size_str
                        {| path := "/f"; is_selected := false; is_dir := false;
                           size := sz; name := "f"; upload_url := None |})
           [0; 1023; 1280; 1792; 1048575; 1048576] =
  ["0.0 B"; "1023.0 B"; "1.2 KB"; "1.8 KB"; "1024.0 KB"; "1.0 MB"].
Proof. reflexivity. Qed.

(** X18. The selection status line reads [0 items selected] for an empty
    selection; for a non-empty one whose files add up to [1024^5] bytes
    or more it reads [<count> items selected (0 B)], since its loop has no
    unit beyond TB. *)
Theorem selection_status_text_edges (selected : list FileItem) :
  (selected = [] -> selection_status_text selected = "0 items selected") /\
  (selected <> [] ->
   1024 ^ 5 <= List.fold_right Z.add 0
                 (List.map size
                    (List.filter (fun f => negb (is_dir f)) selected)) ->
   selection_status_text selected =
   str_of_int (Z.of_nat (List.length selected)) ++ " items selected (0 B)").
Proof.
  split.
  - intros ->. reflexivity.
  - intros Hne Hbig. unfold selection_status_text.
    destruct selected as [|f rest]; [contradiction|].
    cbn [List.length Nat.eqb].
    set (total := List.fold_right Z.add 0 _) in *.
    cbn [size_in_units size_units].
    repeat match goal with
           | |- context [?a <? ?b] => destruct (Z.ltb_spec a b); [lia|]
           end.
    reflexivity.
Qed.

(** ** Sorting *)

Lemma key_le_total a b : key_le a b = false -> key_le b a = true.
Proof.
  unfold key_le. destruct a as [[|] sa], b as [[|] sb]; simpl;
    try discriminate; try reflexivity;
    intros H; destruct (String.leb_total sa sb); congruence.
Qed.

Lemma insert_keyed_perm x l : Permutation (insert_keyed x l) (x :: l).
Proof.
  induction l as [|y l IH]; simpl; [reflexivity|].
  destruct (key_le (fst x) (fst y)); [reflexivity|].
  rewrite IH. apply perm_swap.
Qed.

Lemma sort_keyed_perm l : Permutation (sort_keyed l) l.
Proof.
  induction l as [|x l IH]; simpl; [reflexivity|].
  rewrite insert_keyed_perm, IH. reflexivity.
Qed.

Lemma insert_keyed_sorted x l :
  Sorted keyed_le l -> Sorted keyed_le (insert_keyed x l).
Proof.
  induction l as [|y l IH]; simpl; intros Hs.
  - repeat constructor.
  - destruct (key_le (fst x) (fst y)) eqn:E.
    + constructor; [exact Hs|]. constructor. exact E.
    + apply Sorted_inv in Hs as [Hs Hhd]. constructor; [apply IH, Hs|].
      destruct l as [|z l]; simpl.
      * constructor. apply key_le_total, E.
      * destruct (key_le (fst x) (fst z)).
        -- constructor. apply key_le_total, E.
        -- inversion Hhd; subst. constructor. assumption.
Qed.

Lemma sort_keyed_sorted l : Sorted keyed_le (sort_keyed l).
Proof.
  induction l as [|x l IH]; simpl; [constructor|].
  apply insert_keyed_sorted, IH.
Qed.

Lemma with_keys_spec d paths keyed :
  with_keys d paths = Ret keyed ->
  List.map snd keyed = paths /\
  List.Forall (fun kp => sort_key d (snd kp) = Ret (fst kp)) keyed.
Proof.
  revert keyed. induction paths as [|p paths IH]; intros keyed; simpl;
    unfold_bind.
  - intros [= <-]. split; [reflexivity|constructor].
  - destruct (sort_key d p) as [k|] eqn:Ek; [|discriminate].
    destruct (with_keys d paths) as [ks|]; [|discriminate].
    intros [= <-]. destruct (IH ks eq_refl) as [Hm Hf].
    split; [simpl; congruence|]. constructor; [exact Ek|exact Hf].
Qed.

Lemma Sorted_map {A B} (R : A -> A -> Prop) (R' : B -> B -> Prop)
    (f : A -> B) (l : list A) :
  (forall a b, In a l -> In b l -> R a b -> R' (f a) (f b)) ->
  Sorted R l -> Sorted R' (List.map f l).
Proof.
  intros HR Hs. induction Hs as [|a l Hs IH Hhd]; simpl; [constructor|].
  constructor.
  - apply IH. intros x y Hx Hy. apply HR; right; assumption.
  - destruct Hhd as [|b l Hab]; simpl; constructor.
    apply HR; [left; reflexivity|right; left; reflexivity|exact Hab].
Qed.

Lemma path_le_dir_first d p q : path_le d p q -> dir_first d p q.
Proof.
  intros (kp & kq & Hp & Hq & Hle) Hd. unfold sort_key in *. unfold_bind.
  rewrite Hd in Hq. injection Hq as <-.
  destruct (node_is_dir (nodes d p)) as [[|]|]; try discriminate;
    [reflexivity|].
  injection Hp as <-. discriminate Hle.
Qed.

(** X19. When the sort of a listing succeeds, the result holds the same
    paths, every path is followed by one whose key
    [(not is_dir, lower-cased name)] is not smaller, and every directory
    comes before every path that is not one. *)
Theorem sort_paths_sorted (d : Disk) (paths sorted : list Path) :
  sort_paths d paths = Ret sorted ->
  Permutation sorted paths /\
  Sorted (path_le d) sorted /\
  StronglySorted (dir_first d) sorted.
Proof.
  unfold sort_paths. unfold_bind.
  destruct (with_keys d paths) as [keyed|] eqn:Hk; [|discriminate].
  intros [= <-]. apply with_keys_spec in Hk as [Hm Hf].
  assert (Hf' : List.Forall (fun kp => sort_key d (snd kp) = Ret (fst kp))
                            (sort_keyed keyed)).
  { apply List.Forall_forall. intros x Hx.
    apply (Permutation_in _ (sort_keyed_perm keyed)) in Hx.
    revert x Hx. apply List.Forall_forall, Hf. }
  assert (Hsorted : Sorted (path_le d) (List.map snd (sort_keyed keyed))).
  { apply (Sorted_map keyed_le); [|apply sort_keyed_sorted].
    intros a b Ha Hb Hab. exists (fst a), (fst b).
    rewrite List.Forall_forall in Hf'. auto. }
  split; [|split; [exact Hsorted|]].
  - rewrite <- Hm. apply Permutation_map, sort_keyed_perm.
  - apply Sorted_StronglySorted.
    + intros x y z Hxy Hyz Hz. apply Hxy, Hyz, Hz.
    + apply (Sorted_map (path_le d) (dir_first d) (fun p => p)) in Hsorted.
      * rewrite List.map_id in Hsorted. exact Hsorted.
      * intros a b _ _. apply path_le_dir_first.
Qed.

(** ** Listing *)

Lemma FileItem_init_item (fs0 : Path -> fs_node) (p : Path) (selected : bool) :
  (forall e, fs0 p <> StatFails e) ->
  FileItem_init fs0 p selected = Ret (item_of_node (fs0 p) p selected).
Proof.
  intros Hst. unfold FileItem_init, item_of_node.
  destruct (fs0 p) as [|e| | |]; try reflexivity.
  exfalso. exact (Hst e eq_refl).
Qed.

Lemma with_keys_total d paths :
  (forall p e, In p paths -> nodes d p <> StatFails e) ->
  exists keyed, with_keys d paths = Ret keyed.
Proof.
  induction paths as [|p paths IH]; intros H; simpl; unfold_bind.
  - eexists. reflexivity.
  - destruct IH as [ks ->]; [intros q e Hq; apply H; right; exact Hq|].
    unfold sort_key. unfold_bind.
    destruct (nodes d p) as [|e| | |] eqn:E; simpl; try (eexists; reflexivity).
    exfalso. apply (H p e); [left; reflexivity|exact E].
Qed.

Lemma add_rows_all d selected mark paths : forall rows,
  (forall p e, In p paths -> nodes d p <> StatFails e) ->
  add_rows d selected mark paths rows =
  ((rows ++ List.map (fun p => entry_row selected mark p
                                 (item_of_node (nodes d p) p false)) paths)%list,
   None).
Proof.
  induction paths as [|p paths IH]; intros rows H; simpl.
  - rewrite app_nil_r. reflexivity.
  - rewrite FileItem_init_item by (intros e; apply H; left; reflexivity).
    rewrite IH by (intros q e Hq; apply H; right; exact Hq).
    rewrite <- app_assoc. reflexivity.
Qed.

Lemma sort_paths_total d paths :
  (forall p e, In p paths -> nodes d p <> StatFails e) ->
  exists sorted, sort_paths d paths = Ret sorted /\ Permutation sorted paths.
Proof.
  intros H. destruct (with_keys_total d paths H) as [keyed Hk].
  unfold sort_paths. unfold_bind. rewrite Hk. eexists. split; [reflexivity|].
  apply with_keys_spec in Hk as [Hm _]. rewrite <- Hm.
  apply Permutation_map, sort_keyed_perm.
Qed.

Lemma entry_row_mark selected mark p f :
  mark <> "" ->
  (cell_mark (entry_row selected mark p f) = mark <->
   In p (selected_paths selected)).
Proof.
  intros Hm. unfold entry_row. simpl.
  destruct (existsb (fun g => String.eqb (path g) p) selected) eqn:E.
  - split; [intros _|reflexivity].
    apply existsb_exists in E as (g & Hg & Hp). apply String.eqb_eq in Hp.
    unfold selected_paths. apply in_map_iff. eauto.
  - split; [intros H; congruence|]. intros Hin. exfalso.
    unfold selected_paths in Hin. apply in_map_iff in Hin as (g & Hp & Hg).
    assert (existsb (fun g => String.eqb (path g) p) selected = true).
    { apply existsb_exists. exists g. split; [exact Hg|].
      apply String.eqb_eq, Hp. }
    congruence.
Qed.

Lemma children_examinable d dir names :
  (forall n e, In n names -> nodes d (path_join dir n) <> StatFails e) ->
  forall p e, In p (List.map (path_join dir) names) -> nodes d p <> StatFails e.
Proof.
  intros Hst p e Hp. apply in_map_iff in Hp as (n & <- & Hn). apply Hst, Hn.
Qed.

Lemma update_file_list_table (d : Disk) (a : App) (names : list string) :
  iterdir d (current_dir a) = Ret names ->
  (forall n e, In n names ->
     nodes d (path_join (current_dir a) n) <> StatFails e) ->
  exists paths,
    sort_paths d (List.map (path_join (current_dir a)) names) = Ret paths /\
    Permutation paths (List.map (path_join (current_dir a)) names) /\
    update_file_list d a =
    {| current_dir := current_dir a; selected_files := selected_files a;
       table :=
         (if String.eqb (current_dir a) (home d) then [] else [parent_row]) ++
         List.map (fun p => entry_row (selected_files a) green_check p
                              (item_of_node (nodes d p) p false)) paths;
       cursor_row := 0; search_input := search_input a;
       selection_status := selection_status_text (selected_files a);
       notifications := notifications a |}.
Proof.
  intros Hit Hst.
  pose proof (children_examinable d _ _ Hst) as Hch.
  destruct (sort_paths_total d _ Hch) as (paths & Hsort & Hperm).
  exists paths. split; [exact Hsort|]. split; [exact Hperm|].
  unfold update_file_list. unfold_bind. rewrite Hit, Hsort.
  rewrite add_rows_all; [reflexivity|].
  intros p e Hp. apply Hch. apply (Permutation_in _ Hperm), Hp.
Qed.

(** X20. Listing a directory whose entries can all be examined gives the
    parent row exactly when the directory is not the home directory, then
    one row per entry in sorted order. A row shows the entry's label,
    type and size, and it carries the green check mark exactly when the
    entry's path is in the selection. The status line is recomputed and
    no notification is added. *)
Theorem update_file_list_rows (d : Disk) (a : App) (names : list string) :
  iterdir d (current_dir a) = Ret names ->
  (forall n e, In n names ->
     nodes d (path_join (current_dir a) n) <> StatFails e) ->
  exists paths,
    sort_paths d (List.map (path_join (current_dir a)) names) = Ret paths /\
    table (update_file_list d a) =
      ((if String.eqb (current_dir a) (home d) then [] else [parent_row]) ++
       List.map (fun p => entry_row (selected_files a) green_check p
                            (item_of_node (nodes d p) p false)) paths)%list /\
    (forall p f,
       cell_mark (entry_row (selected_files a) green_check p f) = green_check
       <-> In p (selected_paths (selected_files a))) /\
    selection_status (update_file_list d a) =
      selection_status_text (selected_files a) /\
    notifications (update_file_list d a) = notifications a.
Proof.
  intros Hit Hst.
  destruct (update_file_list_table d a names Hit Hst)
    as (paths & Hsort & _ & Heq).
  exists paths. split; [exact Hsort|]. rewrite Heq.
  cbn [table selection_status notifications].
  split; [reflexivity|]. split; [|split; reflexivity].
  intros p f. apply entry_row_mark. discriminate.
Qed.

Lemma update_file_list_rows_witness :
  exists paths,
    sort_paths desk (List.map (path_join (current_dir start_app))
                       ["report.pdf"; "music"; "notes.txt"; "Archive";
                        "Budget.xls"]) = Ret paths /\
    table (update_file_list desk start_app) =
      ((if String.eqb (current_dir start_app) (home desk) then []
        else [parent_row]) ++
       List.map (fun p => entry_row (selected_files start_app) green_check p
                            (item_of_node (nodes desk p) p false)) paths)%list /\
    (forall p f,
       cell_mark (entry_row (selected_files start_app) green_check p f) =
       green_check
       <-> In p (selected_paths (selected_files start_app))) /\
    selection_status (update_file_list desk start_app) =
      selection_status_text (selected_files start_app) /\
    notifications (update_file_list desk start_app) = notifications start_app.
Proof.
  apply (update_file_list_rows desk start_app
           ["report.pdf"; "music"; "notes.txt"; "Archive"; "Budget.xls"]).
  - reflexivity.
  - intros n e Hn.
    repeat (destruct Hn as [<- | Hn]; [discriminate|]). destruct Hn.
Defined.

(** The listing of the example home directory. *)
Example home_listing :
  List.map (fun r => (cell_name r, cell_type r, cell_size r))
           (table (update_file_list desk start_app)) =
  [ (label (item_of_node Directory "/home/user/Archive" false), "Directory", "DIR");
    (label (item_of_node Directory "/home/user/music" false), "Directory", "DIR");
    (String page_icon " Budget.xls", "File", "2.0 KB");
    (String page_icon " notes.txt", "File", "2.0 B");
    (String page_icon " report.pdf", "File", "4.0 B") ].
Proof. reflexivity. Qed.

Lemma listing_frame (d : Disk) (a : App) :
  selected_files (update_file_list d a) = selected_files a /\
  current_dir (update_file_list d a) = current_dir a /\
  search_input (update_file_list d a) = search_input a /\
  cursor_row (update_file_list d a) = 0%nat /\
  exists more, notifications (update_file_list d a) =
               (notifications a ++ more)%list.
Proof.
  unfold update_file_list.
  repeat break_inner_match; simpl; repeat split;
    try (eexists; reflexivity);
    exists []; rewrite app_nil_r; reflexivity.
Qed.

(** X21. Listing and searching never change the selection, the current
    directory or the search text; they put the cursor on the first row
    and only ever add notifications. *)
Theorem listing_keeps_selection (d : Disk) (a : App) :
  let listed := update_file_list d a in
  let found := action_search d a in
  (selected_files listed = selected_files a /\
   current_dir listed = current_dir a /\
   search_input listed = search_input a /\ cursor_row listed = 0%nat /\
   exists more, notifications listed = (notifications a ++ more)%list) /\
  (selected_files found = selected_files a /\
   current_dir found = current_dir a /\
   search_input found = search_input a /\ cursor_row found = 0%nat /\
   exists more, notifications found = (notifications a ++ more)%list).
Proof.
  pose proof (listing_frame d a) as Hl.
  cbv zeta. split; [exact Hl|].
  unfold action_search. destruct (negb (truthy (lower (search_input a))));
    [exact Hl|].
  repeat break_inner_match; simpl; repeat split;
    try (eexists; reflexivity);
    exists []; rewrite app_nil_r; reflexivity.
Qed.

(** X22. When [iterdir] raises, the table is left empty, the error is
    notified as [Error: <text>], and selection and status line stay as
    they were. *)
Theorem update_file_list_unreadable (d : Disk) (a : App) (e : exn) :
  iterdir d (current_dir a) = Raise e ->
  table (update_file_list d a) = [] /\
  notifications (update_file_list d a) =
    (notifications a ++ [error_note e])%list /\
  snd (error_note e) = "Error" /\
  fst (error_note e) = "Error: " ++ exn_str e /\
  selected_files (update_file_list d a) = selected_files a /\
  selection_status (update_file_list d a) = selection_status a.
Proof.
  intros H. unfold update_file_list. unfold_bind. rewrite H.
  repeat split.
Qed.

Lemma update_file_list_unreadable_witness :
  table (update_file_list desk (with_current_dir start_app "/home/user/notes.txt")) = [] /\
  notifications
    (update_file_list desk (with_current_dir start_app "/home/user/notes.txt")) =
    (notifications (with_current_dir start_app "/home/user/notes.txt") ++
     [error_note (Exn OSError "Not a directory")])%list /\
  snd (error_note (Exn OSError "Not a directory")) = "Error" /\
  fst (error_note (Exn OSError "Not a directory")) =
    "Error: " ++ exn_str (Exn OSError "Not a directory") /\
  selected_files
    (update_file_list desk (with_current_dir start_app "/home/user/notes.txt")) =
    selected_files (with_current_dir start_app "/home/user/notes.txt") /\
  selection_status
    (update_file_list desk (with_current_dir start_app "/home/user/notes.txt")) =
    selection_status (with_current_dir start_app "/home/user/notes.txt").
Proof.
  apply (update_file_list_unreadable desk
           (with_current_dir start_app "/home/user/notes.txt")
           (Exn OSError "Not a directory")).
  reflexivity.
Defined.

(** ** Rows and paths *)

Lemma split_slash_no_slash n : forall acc,
  has_char "/"%char n = false -> split_slash acc n = [acc ++ n].
Proof.
  induction n as [|c n IH]; intros acc H; simpl.
  - rewrite append_empty_r. reflexivity.
  - rewrite has_char_cons in H. apply orb_false_iff in H as [Hc Hn].
    rewrite Ascii.eqb_sym in Hc. rewrite Hc, IH by exact Hn.
    rewrite append_assoc. reflexivity.
Qed.

Lemma concat_snoc (l : list string) (n : string) :
  String.concat "/" (l ++ [n]) =
  match l with
  | [] => n
  | _ :: _ => String.concat "/" l ++ String "/"%char n
  end.
Proof.
  induction l as [|x l IH]; [reflexivity|].
  destruct l as [|y l].
  - reflexivity.
  - change (String.concat "/" ((x :: y :: l) ++ [n])) with
      (x ++ "/" ++ String.concat "/" ((y :: l) ++ [n])).
    rewrite IH.
    change (String.concat "/" (x :: y :: l)) with
      (x ++ "/" ++ String.concat "/" (y :: l)).
    rewrite !append_assoc. reflexivity.
Qed.

Lemma path_parts_simple n : simple_name n -> path_parts n = [n].
Proof.
  intros (Hs & He & Hd). unfold path_parts.
  rewrite split_slash_no_slash by exact Hs. change ("" ++ n) with n. simpl.
  destruct (String.eqb_spec n ""); [contradiction|].
  destruct (String.eqb_spec n "."); [contradiction|]. reflexivity.
Qed.

Lemma path_root_cases d :
  path_root d = "" \/ path_root d = "/" \/ path_root d = "//".
Proof.
  unfold path_root.
  repeat break_inner_match; auto.
Qed.

Lemma path_name_join (d : Path) (n : string) :
  simple_name n -> path_name (path_join d n) = n.
Proof.
  intros Hn. pose proof Hn as (Hs & He & Hd). unfold path_join.
  assert (Hst : starts_with_char "/"%char n = false).
  { destruct n as [|c n]; [reflexivity|]. simpl.
    rewrite has_char_cons in Hs. apply orb_false_iff in Hs as [Hc _].
    rewrite Ascii.eqb_sym. exact Hc. }
  rewrite Hst, (path_parts_simple n Hn). unfold path_text, path_name.
  assert (Hgo : last_component ""
                  (path_root d ++ String.concat "/" (path_parts d ++ [n])) = n).
  { rewrite concat_snoc. destruct (path_parts d) as [|x l].
    - destruct (path_root_cases d) as [-> | [-> | ->]].
      + apply (last_component_no_slash n ""), Hs.
      + apply (last_component_after_slash "" n ""), Hs.
      + apply (last_component_after_slash "/" n ""), Hs.
    - rewrite <- append_assoc. apply last_component_after_slash, Hs. }
  destruct (path_root d) eqn:Er.
  - destruct (path_parts d ++ [n])%list eqn:El; [|exact Hgo].
    destruct (path_parts d); discriminate.
  - exact Hgo.
Qed.

(** X23. The file name read back from the label of a listed entry is the
    entry's name with blanks stripped from both ends; so for an entry of
    a directory listing the row resolves to the listed path when its
    name has no blank at either end, and to the path of the stripped name
    otherwise. *)
Theorem row_resolves_to_listed_path (dir : Path) (n : string)
    (selected : list FileItem) (mark : string) (node : fs_node) :
  simple_name n ->
  let p := path_join dir n in
  let row := entry_row selected mark p (item_of_node node p false) in
  label_filename (cell_name row) = strip n /\
  path_join dir (label_filename (cell_name row)) = path_join dir (strip n) /\
  (strip n = n -> path_join dir (label_filename (cell_name row)) = p).
Proof.
  intros Hn. cbv zeta.
  assert (H : label_filename
                (cell_name (entry_row selected mark (path_join dir n)
                              (item_of_node node (path_join dir n) false))) =
              strip n).
  { unfold entry_row, label, label_filename, item_of_node. simpl.
    rewrite (path_name_join dir n Hn). reflexivity. }
  rewrite H. split; [reflexivity|]. split; [reflexivity|].
  intros ->. reflexivity.
Qed.

Lemma row_resolves_to_listed_path_witness :
  let p := path_join home_dir "notes.txt" in
  let row := entry_row [] green_check p
               (item_of_node (RegularFile 2 (Ret "hi")) p false) in
  label_filename (cell_name row) = strip "notes.txt" /\
  path_join home_dir (label_filename (cell_name row)) =
    path_join home_dir (strip "notes.txt") /\
  (strip "notes.txt" = "notes.txt" ->
   path_join home_dir (label_filename (cell_name row)) = p).
Proof.
  apply (row_resolves_to_listed_path home_dir "notes.txt" [] green_check
           (RegularFile 2 (Ret "hi"))).
  repeat split; discriminate.
Defined.

(** A file whose name ends in a blank resolves to another path. *)
Example blank_name_resolves_elsewhere :
  let p := path_join home_dir "notes.txt " in
  let row := entry_row [] green_check p
               (item_of_node (RegularFile 2 (Ret "hi")) p false) in
  p = "/home/user/notes.txt " /\
  path_join home_dir (label_filename (cell_name row)) = "/home/user/notes.txt".
Proof. split; reflexivity. Qed.

(** ** Toggling the highlighted row *)

Lemma set_mark_frame (i : nat) (mark : string) (rows : list Row) :
  List.map cell_name (set_mark i mark rows) = List.map cell_name rows /\
  List.length (set_mark i mark rows) = List.length rows /\
  forall j, j <> i -> set_mark i mark rows !! j = rows !! j.
Proof.
  unfold set_mark. destruct (rows !! i) as [r|] eqn:E; [|auto].
  split; [|split].
  - revert i E. induction rows as [|x rows IH]; intros [|i] E; simpl in *;
      try discriminate.
    + injection E as ->. reflexivity.
    + f_equal. apply IH, E.
  - apply length_insert.
  - intros j Hj. apply list_lookup_insert_ne. congruence.
Qed.

(** X24. [_toggle_select_file] does nothing when there is no row under
    the cursor, when the label is empty, and on a first row that starts
    with the folder icon. Otherwise its effect on the selection is the
    toggle of the path the row resolves to; the directory, the cursor,
    the notifications and the row labels stay, and no row other than the
    highlighted one changes. *)
Theorem toggle_select_at_cursor_effect (d : Disk) (a : App) :
  let a' := toggle_select_at_cursor d a in
  (table a !! cursor_row a = None -> a' = a) /\
  (forall row, table a !! cursor_row a = Some row ->
     (cell_name row = "" \/
      (cursor_row a = 0%nat /\
       starts_with_char folder_icon (cell_name row) = true)) ->
     a' = a) /\
  (forall row, table a !! cursor_row a = Some row ->
     cell_name row <> "" ->
     ~ (cursor_row a = 0%nat /\
        starts_with_char folder_icon (cell_name row) = true) ->
     selected_files a' =
       toggle_select_file (nodes d)
         (path_join (current_dir a) (label_filename (cell_name row)))
         (selected_files a) /\
     current_dir a' = current_dir a /\ cursor_row a' = cursor_row a /\
     notifications a' = notifications a /\
     List.map cell_name (table a') = List.map cell_name (table a) /\
     forall j, j <> cursor_row a -> table a' !! j = table a !! j).
Proof.
  cbv zeta. unfold toggle_select_at_cursor. split; [|split].
  - intros ->. reflexivity.
  - intros row -> [-> | [-> Hf]]; [reflexivity|].
    rewrite Hf. destruct (negb (truthy (cell_name row))); reflexivity.
  - intros row -> Hne Hnot.
    rewrite (truthy_nonempty _ Hne). simpl negb. cbv iota.
    assert (Hp : Nat.eqb (cursor_row a) 0
                 && starts_with_char folder_icon (cell_name row) = false).
    { destruct (Nat.eqb_spec (cursor_row a) 0) as [Hc|]; [|reflexivity].
      destruct (starts_with_char folder_icon (cell_name row)); [|reflexivity].
      exfalso. apply Hnot. auto. }
    rewrite Hp.
    set (p := path_join (current_dir a) (label_filename (cell_name row))).
    unfold toggle_at, toggle_select_file. unfold_bind.
    destruct (set_mark_frame (cursor_row a) "" (table a)) as (Hn1 & _ & Ho1).
    destruct (set_mark_frame (cursor_row a) green_check (table a))
      as (Hn2 & _ & Ho2).
    destruct (nodes d p) as [|e| |sz content|] eqn:E; simpl;
      try (repeat split; reflexivity);
      destruct (existsb (fun f => String.eqb (path f) p) (selected_files a));
      simpl; try (repeat split; auto; reflexivity);
      unfold FileItem_init; rewrite E; simpl; repeat split; auto.
Qed.

(** The highlighted file of the example listing gets selected. *)
Example toggle_notes_row :
  let a := update_file_list desk start_app in
  let a' := toggle_select_at_cursor desk
              {| current_dir := current_dir a;
                 selected_files := selected_files a; table := table a;
                 cursor_row := 3; search_input := search_input a;
                 selection_status := selection_status a;
                 notifications := notifications a |} in
  selected_paths (selected_files a') = ["/home/user/notes.txt"] /\
  selection_status a' = "1 items selected (2.0 B)" /\
  List.map cell_mark (table a') = [""; ""; ""; green_check; ""].
Proof. repeat split; reflexivity. Qed.

(** ** Select all and clear *)

Lemma FileItem_init_regular (fs0 : Path -> fs_node) (p : Path) (f : FileItem) :
  node_is_file (fs0 p) = Ret true ->
  FileItem_init fs0 p true = Ret f ->
  path f = p /\ is_selected f = true /\ is_dir f = false.
Proof.
  unfold FileItem_init. destruct (fs0 p); try discriminate.
  intros _ [= <-]. auto.
Qed.

Lemma select_rows_spec d dir todo : forall i selected rows selected' rows',
  select_rows d dir i todo selected rows = Ret (selected', rows') ->
  List.map cell_name rows' = List.map cell_name rows /\
  exists added,
    selected' = (selected ++ added)%list /\
    (List.length added <= List.length todo)%nat /\
    List.Forall
      (fun f => is_selected f = true /\ is_dir f = false /\
                node_is_file (nodes d (path f)) = Ret true /\
                exists row, In row todo /\
                  path f = path_join dir (label_filename (cell_name row)))
      added.
Proof.
  induction todo as [|r todo IH]; intros i selected rows selected' rows';
    cbn [select_rows].
  - intros [= <- <-]. split; [reflexivity|]. exists [].
    rewrite app_nil_r. repeat split; [simpl; lia|constructor].
  - assert (Hskip :
      select_rows d dir (S i) todo selected rows = Ret (selected', rows') ->
      List.map cell_name rows' = List.map cell_name rows /\
      exists added,
        selected' = (selected ++ added)%list /\
        (List.length added <= List.length (r :: todo))%nat /\
        List.Forall
          (fun f => is_selected f = true /\ is_dir f = false /\
                    node_is_file (nodes d (path f)) = Ret true /\
                    exists row, In row (r :: todo) /\
                      path f = path_join dir (label_filename (cell_name row)))
          added).
    { intros H. destruct (IH _ _ _ _ _ H) as (Hn & added & -> & Hlen & Hall).
      split; [exact Hn|]. exists added. split; [reflexivity|].
      split; [simpl; lia|].
      eapply List.Forall_impl; [|exact Hall].
      intros f (H1 & H2 & H3 & row & Hrow & Hp). repeat split; auto.
      exists row. split; [right; exact Hrow|exact Hp]. }
    destruct (negb (truthy (cell_name r)) || String.eqb (cell_name r) parent_label);
      [exact Hskip|].
    unfold_bind.
    set (p := path_join dir (label_filename (cell_name r))).
    destruct (node_is_file (nodes d p)) as [[|]|] eqn:Ef;
      [|exact Hskip|discriminate].
    destruct (FileItem_init (nodes d) p true) as [f|] eqn:Ei; [|discriminate].
    intros H. destruct (IH _ _ _ _ _ H) as (Hn & added & -> & Hlen & Hall).
    destruct (FileItem_init_regular _ _ _ Ef Ei) as (Hp & Hs & Hd).
    split.
    + rewrite Hn. apply set_mark_frame.
    + exists (f :: added). rewrite <- app_assoc. split; [reflexivity|].
      split; [simpl; lia|]. constructor.
      * repeat split; auto; [rewrite Hp; exact Ef|].
        exists r. split; [left; reflexivity|exact Hp].
      * eapply List.Forall_impl; [|exact Hall].
        intros g (H1 & H2 & H3 & row & Hrow & Hg). repeat split; auto.
        exists row. split; [right; exact Hrow|exact Hg].
Qed.

(** X25. When [action_select_all] returns, the selection is rebuilt
    from the table alone: every selected item is a selected non-directory
    item whose path is a regular file and is the path some row resolves
    to, there are at most as many as rows, and the row labels are
    unchanged. Clearing afterwards leaves no selection, no mark, and the
    status [0 items selected]. *)
Theorem select_all_then_clear (d : Disk) (a a' : App) :
  action_select_all d a = Ret a' ->
  List.Forall
    (fun f => is_selected f = true /\ is_dir f = false /\
              node_is_file (nodes d (path f)) = Ret true /\
              exists row, In row (table a) /\
                path f = path_join (current_dir a)
                                   (label_filename (cell_name row)))
    (selected_files a') /\
  (List.length (selected_files a') <= List.length (table a))%nat /\
  List.map cell_name (table a') = List.map cell_name (table a) /\
  current_dir a' = current_dir a /\
  selected_files (clear_selection a') = [] /\
  List.Forall (fun r => cell_mark r = "") (table (clear_selection a')) /\
  selection_status (clear_selection a') = "0 items selected".
Proof.
  unfold action_select_all. unfold_bind.
  destruct (select_rows d (current_dir a) 0 (table a) [] (table a))
    as [[selected rows]|] eqn:E; [|discriminate].
  intros [= <-]. simpl.
  destruct (select_rows_spec _ _ _ _ _ _ _ _ E)
    as (Hn & added & -> & Hlen & Hall).
  simpl. repeat split; auto.
  apply List.Forall_forall. intros r Hr.
  apply in_map_iff in Hr as (x & <- & _). reflexivity.
Qed.

Lemma select_all_then_clear_witness :
  List.Forall
    (fun f => is_selected f = true /\ is_dir f = false /\
              node_is_file (nodes desk (path f)) = Ret true /\
              exists row, In row (table listed_app) /\
                path f = path_join (current_dir listed_app)
                                   (label_filename (cell_name row)))
    (selected_files all_selected_app) /\
  (List.length (selected_files all_selected_app)
   <= List.length (table listed_app))%nat /\
  List.map cell_name (table all_selected_app) =
    List.map cell_name (table listed_app) /\
  current_dir all_selected_app = current_dir listed_app /\
  selected_files (clear_selection all_selected_app) = [] /\
  List.Forall (fun r => cell_mark r = "")
              (table (clear_selection all_selected_app)) /\
  selection_status (clear_selection all_selected_app) = "0 items selected".
Proof.
  apply (select_all_then_clear desk listed_app all_selected_app).
  reflexivity.
Defined.

(** ** Opening a row *)

(** X26. Enter on a row that is neither empty nor a first row with a
    folder icon: when the row resolves to a directory the application
    moves into it and lists it; otherwise the row is toggled. When
    examining the path raises, nothing changes. *)
Theorem action_open_selected_row (d : Disk) (a : App) (row : Row) :
  table a !! cursor_row a = Some row ->
  cell_name row <> "" ->
  ~ (cursor_row a = 0%nat /\
     starts_with_char folder_icon (cell_name row) = true) ->
  let p := path_join (current_dir a) (label_filename (cell_name row)) in
  (nodes d p = Directory ->
   action_open_selected d a = update_file_list d (with_current_dir a p) /\
   current_dir (action_open_selected d a) = p /\
   selected_files (action_open_selected d a) = selected_files a) /\
  ((forall e, nodes d p <> StatFails e) -> nodes d p <> Directory ->
   action_open_selected d a = toggle_select_at_cursor d a) /\
  (forall e, nodes d p = StatFails e -> action_open_selected d a = a).
Proof.
  intros Hrow Hne Hnot. cbv zeta. unfold action_open_selected.
  rewrite Hrow, (truthy_nonempty _ Hne). simpl negb. cbv iota.
  assert (Hp : Nat.eqb (cursor_row a) 0
               && starts_with_char folder_icon (cell_name row) = false).
  { destruct (Nat.eqb_spec (cursor_row a) 0) as [Hc|]; [|reflexivity].
    destruct (starts_with_char folder_icon (cell_name row)); [|reflexivity].
    exfalso. apply Hnot. auto. }
  rewrite Hp. split; [|split].
  - intros Hd. rewrite Hd. simpl. split; [reflexivity|].
    destruct (listing_frame d (with_current_dir a
                (path_join (current_dir a) (label_filename (cell_name row)))))
      as (Hs & Hc & _).
    split; [exact Hc|exact Hs].
  - intros Hst Hnd.
    destruct (nodes d (path_join (current_dir a)
                                 (label_filename (cell_name row))))
      as [|e| | |] eqn:E; simpl; try reflexivity.
    + exfalso. exact (Hst e eq_refl).
    + contradiction.
  - intros e ->. reflexivity.
Qed.

Lemma action_open_selected_row_witness :
  let a := on_row 1 listed_app in
  let row := entry_row [] green_check "/home/user/music"
               (item_of_node Directory "/home/user/music" false) in
  let p := path_join (current_dir a) (label_filename (cell_name row)) in
  (nodes desk p = Directory ->
   action_open_selected desk a = update_file_list desk (with_current_dir a p) /\
   current_dir (action_open_selected desk a) = p /\
   selected_files (action_open_selected desk a) = selected_files a) /\
  ((forall e, nodes desk p <> StatFails e) -> nodes desk p <> Directory ->
   action_open_selected desk a = toggle_select_at_cursor desk a) /\
  (forall e, nodes desk p = StatFails e -> action_open_selected desk a = a).
Proof.
  apply (action_open_selected_row desk (on_row 1 listed_app)
           (entry_row [] green_check "/home/user/music"
              (item_of_node Directory "/home/user/music" false))).
  - reflexivity.
  - discriminate.
  - intros [H _]. discriminate H.
Defined.

Lemma open_first_folder_row (d : Disk) (a : App) (row : Row) :
  cursor_row a = 0%nat ->
  table a !! 0%nat = Some row ->
  starts_with_char folder_icon (cell_name row) = true ->
  action_open_selected d a =
  update_file_list d (with_current_dir a (path_parent (current_dir a))).
Proof.
  intros Hc Hrow Hf. unfold action_open_selected. rewrite Hc, Hrow.
  destruct (cell_name row) as [|c rest]; [discriminate|].
  rewrite Hf. reflexivity.
Qed.

(** X27. In the home directory the listing has no parent row, so when it
    starts with a directory, Enter on that first row does not enter the
    directory: the application moves to the parent of the home directory,
    as it does on any first row that starts with the folder icon. *)
Theorem open_first_directory_at_home (d : Disk) (a : App)
    (names : list string) (p : Path) (rest : list Path) :
  current_dir a = home d ->
  iterdir d (home d) = Ret names ->
  (forall n e, In n names -> nodes d (path_join (home d) n) <> StatFails e) ->
  sort_paths d (List.map (path_join (home d)) names) = Ret (p :: rest) ->
  nodes d p = Directory ->
  let listed := update_file_list d a in
  cursor_row listed = 0%nat /\
  (exists row, table listed !! 0%nat = Some row /\
               cell_name row = label (item_of_node Directory p false)) /\
  action_open_selected d listed =
    update_file_list d (with_current_dir listed (path_parent (home d))) /\
  current_dir (action_open_selected d listed) = path_parent (home d).
Proof.
  intros Hhome Hit Hst Hsort Hdir. cbv zeta.
  rewrite <- Hhome in Hit, Hst, Hsort.
  destruct (update_file_list_table d a names Hit Hst)
    as (paths & Hsort' & _ & Heq).
  rewrite Hsort in Hsort'. injection Hsort' as <-.
  rewrite Hhome, String.eqb_refl in Heq. cbn [List.map app] in Heq.
  rewrite Hdir in Heq.
  assert (Hopen :
    action_open_selected d (update_file_list d a) =
    update_file_list d (with_current_dir (update_file_list d a)
                          (path_parent (home d)))).
  { rewrite <- Hhome.
    replace (current_dir a) with (current_dir (update_file_list d a))
      by apply listing_frame.
    eapply open_first_folder_row.
    - apply listing_frame.
    - rewrite Heq. reflexivity.
    - reflexivity. }
  split; [apply listing_frame|]. split.
  - rewrite Heq. eexists. split; reflexivity.
  - split; [exact Hopen|]. rewrite Hopen. apply listing_frame.
Qed.

Lemma open_first_directory_at_home_witness :
  let listed := update_file_list desk start_app in
  cursor_row listed = 0%nat /\
  (exists row, table listed !! 0%nat = Some row /\
               cell_name row =
               label (item_of_node Directory "/home/user/Archive" false)) /\
  action_open_selected desk listed =
    update_file_list desk (with_current_dir listed (path_parent (home desk))) /\
  current_dir (action_open_selected desk listed) = path_parent (home desk).
Proof.
  apply (open_first_directory_at_home desk start_app
           ["report.pdf"; "music"; "notes.txt"; "Archive"; "Budget.xls"]
           "/home/user/Archive"
           ["/home/user/music"; "/home/user/Budget.xls";
            "/home/user/notes.txt"; "/home/user/report.pdf"]).
  - reflexivity.
  - reflexivity.
  - intros n e Hn.
    repeat (destruct Hn as [<- | Hn]; [discriminate|]). destruct Hn.
  - reflexivity.
  - reflexivity.
Defined.

(** From the example home directory, Enter on the first row leads to
    [/home]. *)
Example enter_on_archive_leaves_home :
  current_dir (action_open_selected desk listed_app) = "/home" /\
  List.map cell_name (table (action_open_selected desk listed_app)) =
  [parent_label; label (item_of_node Directory "/home/user" false)].
Proof. split; reflexivity. Qed.

(** ** Searching *)

(** X28. A search with a non-empty text over a directory whose entries
    can all be examined shows, in sorted order and without a parent row,
    exactly the entries whose lower-cased name contains the lower-cased
    text; selected entries carry the plain check mark; the status line
    and the notifications are untouched. *)
Theorem action_search_rows (d : Disk) (a : App) (names : list string) :
  lower (search_input a) <> "" ->
  iterdir d (current_dir a) = Ret names ->
  (forall n e, In n names ->
     nodes d (path_join (current_dir a) n) <> StatFails e) ->
  exists paths,
    sort_paths d
      (List.filter
         (fun p => str_contains (lower (search_input a)) (lower (path_name p)))
         (List.map (path_join (current_dir a)) names)) = Ret paths /\
    (forall p, In p paths <->
       In p (List.map (path_join (current_dir a)) names) /\
       str_contains (lower (search_input a)) (lower (path_name p)) = true) /\
    table (action_search d a) =
      List.map (fun p => entry_row (selected_files a) plain_check p
                           (item_of_node (nodes d p) p false)) paths /\
    selection_status (action_search d a) = selection_status a /\
    notifications (action_search d a) = notifications a.
Proof.
  intros Hq Hit Hst.
  pose proof (children_examinable d _ _ Hst) as Hch.
  set (matching := List.filter _ _).
  assert (Hm : forall p e, In p matching -> nodes d p <> StatFails e).
  { intros p e Hp. apply Hch. apply filter_In in Hp. tauto. }
  destruct (sort_paths_total d matching Hm) as (paths & Hsort & Hperm).
  exists paths. split; [exact Hsort|]. split.
  - intros p. split; intros Hp.
    + apply (Permutation_in _ Hperm) in Hp. apply filter_In in Hp. exact Hp.
    + apply (Permutation_in _ (Permutation_sym Hperm)).
      apply filter_In. exact Hp.
  - unfold action_search. rewrite (truthy_nonempty _ Hq). simpl negb.
    cbv iota. unfold_bind. rewrite Hit. fold matching. rewrite Hsort.
    rewrite add_rows_all.
    + repeat split.
    + intros p e Hp. apply Hm. apply (Permutation_in _ Hperm), Hp.
Qed.

Lemma action_search_rows_witness :
  let a := searching "T" listed_app in
  exists paths,
    sort_paths desk
      (List.filter
         (fun p => str_contains (lower (search_input a)) (lower (path_name p)))
         (List.map (path_join (current_dir a))
            ["report.pdf"; "music"; "notes.txt"; "Archive"; "Budget.xls"])) =
      Ret paths /\
    (forall p, In p paths <->
       In p (List.map (path_join (current_dir a))
               ["report.pdf"; "music"; "notes.txt"; "Archive"; "Budget.xls"]) /\
       str_contains (lower (search_input a)) (lower (path_name p)) = true) /\
    table (action_search desk a) =
      List.map (fun p => entry_row (selected_files a) plain_check p
                           (item_of_node (nodes desk p) p false)) paths /\
    selection_status (action_search desk a) = selection_status a /\
    notifications (action_search desk a) = notifications a.
Proof.
  apply (action_search_rows desk (searching "T" listed_app)
           ["report.pdf"; "music"; "notes.txt"; "Archive"; "Budget.xls"]).
  - discriminate.
  - reflexivity.
  - intros n e Hn.
    repeat (destruct Hn as [<- | Hn]; [discriminate|]). destruct Hn.
Defined.

(** Searching [T] in the example home directory. *)
Example search_for_t :
  List.map cell_name (table (action_search desk (searching "T" listed_app))) =
  [String page_icon " Budget.xls"; String page_icon " notes.txt";
   String page_icon " report.pdf"].
Proof. reflexivity. Qed.

(** ** Starting an upload *)

Lemma queue_files_all_valid (fs0 : Path -> fs_node) (h : Heap) (files : list ref) :
  (forall r, In r files -> valid_for_upload fs0 (h r) = Ret true) ->
  queue_files fs0 h files = Ret files.
Proof.
  induction files as [|r files IH]; intros H; [reflexivity|].
  cbn [queue_files]. unfold_bind.
  rewrite (H r) by (left; reflexivity).
  rewrite IH by (intros r' Hr'; apply H; right; exact Hr').
  reflexivity.
Qed.

Lemma heap_of_seq (pre files : list FileItem) :
  List.map (heap_of (pre ++ files))
           (List.seq (List.length pre) (List.length files)) = files.
Proof.
  revert pre. induction files as [|f files IH]; intros pre; [reflexivity|].
  simpl. f_equal.
  - unfold heap_of. rewrite List.app_nth2 by lia.
    rewrite Nat.sub_diag. reflexivity.
  - specialize (IH (pre ++ [f])%list).
    rewrite <- app_assoc, List.length_app in IH. simpl in IH.
    rewrite Nat.add_1_r in IH. exact IH.
Qed.

Lemma filter_all {A} (f : A -> bool) (l : list A) :
  List.Forall (fun x => f x = true) l -> List.filter f l = l.
Proof.
  intros H. apply List.forallb_filter_id, List.forallb_forall.
  apply List.Forall_forall, H.
Qed.

(** X29. With a non-empty selection of selected non-directory items,
    [action_upload] announces the upload and hands the whole selection,
    in its order, to the upload screen, whether or not the table has the
    focus. When the files are all still regular files the screen queues
    every one of them in that order, with no results yet. *)
Theorem upload_follows_selection_order (d : Disk) (table_has_focus : bool)
    (c : UploadConfig) (a : App) :
  selected_files a <> [] ->
  List.Forall (fun f => is_selected f = true /\ is_dir f = false)
              (selected_files a) ->
  action_upload d table_has_focus a =
    (with_note a
       ("Uploading " ++ str_of_int (Z.of_nat (List.length (selected_files a)))
        ++ " files") "Upload Started",
     Some (selected_files a)) /\
  (List.Forall (fun f => is_regular (nodes d (path f)) = true)
               (selected_files a) ->
   exists s,
     pushed_screen d c (selected_files a) =
       Ret (heap_of (selected_files a), s) /\
     List.map (heap_of (selected_files a)) (upload_files s) = selected_files a /\
     results s = [] /\ config s = c).
Proof.
  intros Hne Hall. split.
  - unfold action_upload, upload_selection.
    destruct (selected_files a) as [|f rest] eqn:E; [contradiction|].
    rewrite filter_all.
    + reflexivity.
    + eapply List.Forall_impl; [|exact Hall].
      intros g [Hs Hd]. rewrite Hs, Hd. reflexivity.
  - intros Hreg. unfold pushed_screen, Screen_init. unfold_bind.
    rewrite queue_files_all_valid.
    + eexists. split; [reflexivity|]. simpl.
      split; [apply (heap_of_seq [] (selected_files a))|]. auto.
    + intros r Hr. apply in_seq in Hr as [_ Hr]. simpl in Hr.
      assert (Hin : In (heap_of (selected_files a) r) (selected_files a))
        by (apply List.nth_In, Hr).
      rewrite List.Forall_forall in Hall, Hreg.
      destruct (Hall _ Hin) as [Hs Hd]. specialize (Hreg _ Hin).
      unfold valid_for_upload. unfold_bind. rewrite Hs, Hd. simpl.
      destruct (nodes d (path (heap_of (selected_files a) r)));
        try discriminate. reflexivity.
Qed.

Lemma upload_follows_selection_order_witness :
  action_upload desk false all_selected_app =
    (with_note all_selected_app
       ("Uploading "
        ++ str_of_int (Z.of_nat (List.length (selected_files all_selected_app)))
        ++ " files") "Upload Started",
     Some (selected_files all_selected_app)) /\
  (List.Forall (fun f => is_regular (nodes desk (path f)) = true)
               (selected_files all_selected_app) ->
   exists s,
     pushed_screen desk anonymous_config (selected_files all_selected_app) =
       Ret (heap_of (selected_files all_selected_app), s) /\
     List.map (heap_of (selected_files all_selected_app)) (upload_files s) =
       selected_files all_selected_app /\
     results s = [] /\ config s = anonymous_config).
Proof.
  apply (upload_follows_selection_order desk false anonymous_config
           all_selected_app).
  - discriminate.
  - repeat constructor.
Defined.

Lemma toggle_ignores_notes (d : Disk) (a : App) (message title : string) :
  toggle_select_at_cursor d (with_note a message title) =
  with_note (toggle_select_at_cursor d a) message title.
Proof.
  unfold toggle_select_at_cursor, with_note, toggle_at. unfold_bind. simpl.
  repeat break_inner_match; reflexivity.
Qed.

(** X30. With nothing selected, what [action_upload] does depends on the
    focus. When the table has it, the highlighted row is toggled first
    and the upload goes on with the resulting selection. When it has not,
    the toggle is deferred: the handler reports that no files are
    selected and pushes no screen, and the highlighted row is toggled
    all the same. *)
Theorem upload_with_empty_selection (d : Disk) (a : App) :
  selected_files a = [] ->
  action_upload d true a = upload_selection (toggle_select_at_cursor d a) /\
  snd (action_upload d false a) = None /\
  fst (action_upload d false a) =
    with_note (toggle_select_at_cursor d a)
              "No files selected for upload" "Error" /\
  selected_files (fst (action_upload d false a)) =
    selected_files (toggle_select_at_cursor d a).
Proof.
  intros He. unfold action_upload, action_toggle_select. rewrite He.
  split; [reflexivity|]. split; [reflexivity|].
  unfold upload_selection. rewrite He. cbn [fst].
  rewrite toggle_ignores_notes. split; reflexivity.
Qed.

Lemma upload_with_empty_selection_witness :
  let a := on_row 3 listed_app in
  action_upload desk true a = upload_selection (toggle_select_at_cursor desk a) /\
  snd (action_upload desk false a) = None /\
  fst (action_upload desk false a) =
    with_note (toggle_select_at_cursor desk a)
              "No files selected for upload" "Error" /\
  selected_files (fst (action_upload desk false a)) =
    selected_files (toggle_select_at_cursor desk a).
Proof.
  apply (upload_with_empty_selection desk (on_row 3 listed_app)).
  reflexivity.
Defined.

(** The two outcomes on the example: with the focus the highlighted file
    is uploaded; without it an error is shown and the file is selected. *)
Example upload_with_nothing_selected :
  let a := on_row 3 listed_app in
  option_map selected_paths (snd (action_upload desk true a)) =
    Some ["/home/user/notes.txt"] /\
  snd (action_upload desk false a) = None /\
  notifications (fst (action_upload desk false a)) =
    [("No files selected for upload", "Error")] /\
  selected_paths (selected_files (fst (action_upload desk false a))) =
    ["/home/user/notes.txt"].
Proof. repeat split; reflexivity. Qed.

Lemma sort_paths_sorted_witness :
  Permutation
    ["/home/user/Archive"; "/home/user/music"; "/home/user/Budget.xls";
     "/home/user/notes.txt"; "/home/user/report.pdf"]
    ["/home/user/report.pdf"; "/home/user/music"; "/home/user/notes.txt";
     "/home/user/Archive"; "/home/user/Budget.xls"] /\
  Sorted (path_le desk)
    ["/home/user/Archive"; "/home/user/music"; "/home/user/Budget.xls";
     "/home/user/notes.txt"; "/home/user/report.pdf"] /\
  StronglySorted (dir_first desk)
    ["/home/user/Archive"; "/home/user/music"; "/home/user/Budget.xls";
     "/home/user/notes.txt"; "/home/user/report.pdf"].
Proof.
  apply (sort_paths_sorted desk
           ["/home/user/report.pdf"; "/home/user/music"; "/home/user/notes.txt";
            "/home/user/Archive"; "/home/user/Budget.xls"]).
  reflexivity.
Defined.
